(** * PillarScatter output verification: a shallow embedding of
      [check.py] and of the loader of [check_visual.py].

    The development has four layers, in this order:
    - [F16]: IEEE binary16 values, the element type of every grid file;
    - [Py]: the effects of the scripts (printed lines, file accesses,
      exceptions) as a writer monad with an outcome;
    - [Np]: the part of numpy the scripts call (arrays as a shape and the
      elements in logical row-major order);
    - [Check] and [CheckVisual]: the functions of the two scripts.
    The properties follow the definitions. *)

From Stdlib Require Import String Ascii Strings.Byte.
From Stdlib Require Import ZArith NArith PArith Arith List Bool Lia.
From Stdlib Require Import Floats.SpecFloat.
Import ListNotations.

Set Implicit Arguments.

(* ================================================================== *)
(** ** Binary16 *)

(** [np.float16] is IEEE 754 binary16: 11 bits of precision (one implicit)
    and infinities at exponent 16.  The Standard Library's [spec_float] is
    the specification of IEEE arithmetic for any such pair, rounding to
    nearest even, with one NaN. *)
Module F16.

Definition prec : Z := 11.
Definition emax : Z := 16.

Definition t : Type := spec_float.

Definition zero : t := S754_zero false.

Definition add : t -> t -> t := SFadd prec emax.
Definition sub : t -> t -> t := SFsub prec emax.
Definition mul : t -> t -> t := SFmul prec emax.
Definition abs : t -> t := SFabs.

(** [x == y], [x <= y], [x > y] and [x != y] of IEEE 754: every
    comparison with NaN is false except [!=]. *)
Definition eqb : t -> t -> bool := SFeqb.
Definition leb : t -> t -> bool := SFleb.
Definition gtb (x y : t) : bool := SFltb y x.
Definition neb (x y : t) : bool := negb (SFeqb x y).

Definition isfinite (x : t) : bool :=
  match x with
  | S754_zero _ | S754_finite _ _ _ => true
  | S754_infinity _ | S754_nan => false
  end.

Definition isnan (x : t) : bool :=
  match x with S754_nan => true | _ => false end.

(** The value of a 16-bit pattern: sign (bit 15), biased exponent
    (bits 14..10) and fraction (bits 9..0). *)
Definition of_bits (w : N) : t :=
  let s := N.testbit w 15 in
  let e := ((w / 1024) mod 32)%N in
  let m := (w mod 1024)%N in
  if (e =? 31)%N then
    if (m =? 0)%N then S754_infinity s else S754_nan
  else if (e =? 0)%N then
    match m with
    | N0 => S754_zero s
    | Npos p => S754_finite s p (-24)
    end
  else
    match (1024 + m)%N with
    | N0 => S754_nan
    | Npos p => S754_finite s p (Z.of_N e - 25)
    end.

End F16.

(* ================================================================== *)
(** ** Effects *)

Definition path : Type := string.

(** The element types the scripts read files with. *)
Inductive dtype : Type := Float16 | UInt32.

(** Exceptions the modelled code can raise. *)
Inductive exn : Type :=
| ValueError
| ZeroDivisionError
| IndexError
| FileNotFoundError.

(** One constructor per [print] call of the two scripts, with the integers,
    shapes and elements the line shows.  Formatted floating-point
    statistics (minimum, maximum, mean, deviation, percentages) are text
    only and are not carried. *)
Inductive line : Type :=
(* load_binary_file, load_coords_file *)
| L_file_missing (f : path)
| L_read_error (f : path)
| L_coords_missing (f : path)
| L_coords_read_error (f : path) (e : exn)
(* analyze_debug_output *)
| L_rule
| L_debug_title (max_pillars : nat)
| L_total_elements (n : nat)
| L_nonzero_elements (n : nat)
| L_channel_header
| L_channel_nonzero (c n : nat)
| L_channels_elided (n : nat)
| L_position_header
| L_pillar (i : nat) (x y : N) (value_count : nat)
| L_expected_positions (n : nat)
| L_actual_positions (n : nat)
| L_positions_ok
| L_positions_failed
(* compare_arrays *)
| L_compare_title (name1 name2 : string)
| L_shape_mismatch
| L_shape_of (name : string) (s : list nat)
| L_shape_match (s : list nat)
| L_analysis_of (name : string)
| L_stats_header (name : string)
| L_min | L_max | L_mean | L_std
| L_diff_header
| L_max_diff
| L_mean_diff
| L_nonzero_header
| L_nonzero_of (name : string) (n : nat)
| L_restricted_header (max_pillars : nat)
| L_cell_mismatch (x y : N)
| L_channel_mismatch (c : nat) (v1 v2 : F16.t)
| L_match_rate (match_count total_checked : nat)
| L_restricted_ok
| L_exact
| L_within_tolerance (tolerance : F16.t)
| L_diff_count (n : nat)
| L_show_count (n : nat)
| L_diff_at (idx : list nat) (v1 v2 d : F16.t)
(* main *)
| L_tool_title
| L_debug_banner (max_pillars : nat)
| L_output_file (f : path)
| L_correct_file (f : path)
| L_coords_file (f : path)
| L_output_missing (f : path)
| L_run_operator_first
| L_correct_missing (f : path)
| L_coords_loaded (s : list nat)
| L_total_pillars (n : nat)
| L_debug_limit (max_pillars : nat)
| L_coords_unavailable
| L_sizes_header
| L_output_size (n : nat)
| L_correct_size (n : nat)
| L_size_mismatch
| L_md5_header
| L_output_md5 (d : string)
| L_correct_md5 (d : string)
| L_md5_equal
| L_md5_differs
| L_md5_differs_reason
| L_loading
| L_output_reshaped (s : list nat)
| L_reference_transposed (s : list nat)
| L_size_unexpected (s : list nat)
| L_debug_pass (max_pillars : nat)
| L_pass
| L_debug_fail (max_pillars : nat)
| L_debug_fail_hint
| L_fail
(* check_visual.load_feature_map *)
| L_size_warning (expected actual : nat).

(** What a run does to the outside: a printed line or a file access. *)
Inductive event : Type :=
| Out (l : line)
| IoExists (f : path)
| IoGetSize (f : path)
| IoReadBytes (f : path)
| IoFromFile (f : path) (d : dtype).

Inductive outcome (A : Type) : Type :=
| Return (a : A)
| Raise (e : exn).
Arguments Raise {A} e.

(** A computation: how it ends and what it did, in order. *)
Definition Py (A : Type) : Type := (outcome A * list event)%type.

Module Py.

Definition ret {A} (a : A) : Py A := (Return a, []).

Definition raise {A} (e : exn) : Py A := (Raise e, []).

Definition bind {A B} (m : Py A) (k : A -> Py B) : Py B :=
  match m with
  | (Return a, l1) => let '(r, l2) := k a in (r, l1 ++ l2)
  | (Raise e, l1) => (Raise e, l1)
  end.

Definition emit (ev : event) : Py unit := (Return tt, [ev]).

Definition print (l : line) : Py unit := emit (Out l).

(** [try: m except Exception as e: h e]. *)
Definition try_except {A} (m : Py A) (h : exn -> Py A) : Py A :=
  match m with
  | (Return a, l1) => (Return a, l1)
  | (Raise e, l1) => let '(r, l2) := h e in (r, l1 ++ l2)
  end.

(** [for a in l: s = body s a], threading the loop's variables [s]. *)
Fixpoint foldM {A S} (body : S -> A -> Py S) (l : list A) (s : S)
  : Py S :=
  match l with
  | [] => ret s
  | a :: r => bind (body s a) (foldM body r)
  end.

(** [for a in l: body a]. *)
Definition for_ {A} (l : list A) (body : A -> Py unit) : Py unit :=
  foldM (fun _ a => body a) l tt.

(** [enumerate(l)]. *)
Definition enumerate {A} (l : list A) : list (nat * A) :=
  combine (seq 0 (length l)) l.

(** [if b: m]. *)
Definition when (b : bool) (m : Py unit) : Py unit :=
  if b then m else ret tt.

Definition result {A} (m : Py A) : outcome A := fst m.
Definition trace {A} (m : Py A) : list event := snd m.

(** Every event of the run satisfies [P]. *)
Definition every {A} (P : event -> Prop) (m : Py A) : Prop :=
  Forall P (trace m).

(** The status the interpreter exits with after [exit(main())]: the
    returned code, or 1 after an uncaught exception. *)
Definition exit_status (m : Py nat) : nat :=
  match fst m with
  | Return code => code
  | Raise _ => 1
  end.

End Py.

Declare Scope py_scope.
Delimit Scope py_scope with py.
Notation "x <- m ;; k" := (Py.bind m (fun x => k))
  (at level 61, m at next level, right associativity) : py_scope.
Notation "m ;; k" := (Py.bind m (fun _ => k))
  (at level 61, right associativity) : py_scope.
Open Scope py_scope.

(* ================================================================== *)
(** ** The part of numpy and of [os] the scripts use *)

(** A file system: the bytes of each file that exists. *)
Definition filesystem : Type := path -> option (list byte).

Module Os.

(** [os.path.exists(f)]. *)
Definition exists_ (fs : filesystem) (f : path) : Py bool :=
  Py.emit (IoExists f);;
  Py.ret (match fs f with Some _ => true | None => false end).

(** [os.path.getsize(f)]. *)
Definition getsize (fs : filesystem) (f : path) : Py nat :=
  Py.emit (IoGetSize f);;
  match fs f with
  | Some bs => Py.ret (length bs)
  | None => Py.raise FileNotFoundError
  end.

(** [open(f, "rb")] read to the end. *)
Definition read_bytes (fs : filesystem) (f : path) : Py (list byte) :=
  Py.emit (IoReadBytes f);;
  match fs f with
  | Some bs => Py.ret bs
  | None => Py.raise FileNotFoundError
  end.

End Os.

Module Np.

(** An array: its shape and its elements in logical row-major order
    (the order of [a.flat]); a transposed view is its own array here. *)
Record ndarray (A : Type) : Type := mk { shape : list nat; data : list A }.

Definition prod (s : list nat) : nat := fold_right Nat.mul 1 s.

(** [a.size]. *)
Definition size {A} (a : ndarray A) : nat := prod (shape a).

(** The one-dimensional array of a sequence. *)
Definition flat {A} (l : list A) : ndarray A := mk [length l] l.

(** [a.reshape(s)]: the same elements under another shape of the same
    size, [ValueError] otherwise. *)
Definition reshape {A} (a : ndarray A) (s : list nat) : Py (ndarray A) :=
  if prod s =? size a then Py.ret (mk s (data a)) else Py.raise ValueError.

(** [a.reshape(-1, 4)] as the sequence of its rows. *)
Fixpoint rows4 {A} (l : list A) : Py (list (A * A * A * A)) :=
  match l with
  | [] => Py.ret []
  | a :: b :: c :: d :: rest =>
      rs <- rows4 rest;; Py.ret ((a, b, c, d) :: rs)
  | _ => Py.raise ValueError
  end.

(** All the indices of shape [s], in row-major order. *)
Fixpoint indices (s : list nat) : list (list nat) :=
  match s with
  | [] => [[]]
  | n :: s' => flat_map (fun i => map (cons i) (indices s')) (seq 0 n)
  end.

(** The row-major offset of an index. *)
Fixpoint ravel (s idx : list nat) : nat :=
  match s, idx with
  | _ :: s', i :: idx' => i * prod s' + ravel s' idx'
  | _, _ => 0
  end.

Fixpoint in_bounds (s idx : list nat) : bool :=
  match s, idx with
  | [], [] => true
  | n :: s', i :: idx' => (i <? n) && in_bounds s' idx'
  | _, _ => false
  end.

(** [a[idx]] for a full index, [None] outside the shape. *)
Definition get {A} (a : ndarray A) (idx : list nat) : option A :=
  if in_bounds (shape a) idx
  then nth_error (data a) (ravel (shape a) idx)
  else None.

(** [a.shape[k]]; a tuple index out of range is an [IndexError]. *)
Definition shape_at {A} (a : ndarray A) (k : nat) : Py nat :=
  match nth_error (shape a) k with
  | Some n => Py.ret n
  | None => Py.raise IndexError
  end.

Definition permute (axes l : list nat) : list nat :=
  map (fun k => nth k l 0) axes.

Fixpoint index_of (j : nat) (axes : list nat) : nat :=
  match axes with
  | [] => 0
  | k :: r => if k =? j then 0 else S (index_of j r)
  end.

Definition inverse (axes : list nat) : list nat :=
  map (fun j => index_of j axes) (seq 0 (length axes)).

Definition is_permutation (axes : list nat) (n : nat) : bool :=
  (length axes =? n) &&
  forallb (fun j => existsb (Nat.eqb j) axes) (seq 0 n).

(** [a.transpose(axes)]: axis [k] of the result is axis [axes[k]] of
    [a], so the element at [idx'] is [a] at the index whose component
    [axes[k]] is [idx'[k]]. *)
Definition transpose {A} (a : ndarray A) (axes : list nat)
  : Py (ndarray A) :=
  if is_permutation axes (length (shape a)) then
    let s' := permute axes (shape a) in
    Py.ret (mk s'
      (flat_map
         (fun idx' =>
            match get a (permute (inverse axes) idx') with
            | Some v => [v]
            | None => []
            end)
         (indices s')))
  else Py.raise ValueError.

(** [a[0, y, x, :]] of a four-dimensional array. *)
Definition cell {A} (a : ndarray A) (y x : nat) : Py (list A) :=
  match shape a with
  | [n; h; w; c] =>
      if (0 <? n) && (y <? h) && (x <? w)
      then Py.ret (firstn c (skipn (((0 * h + y) * w + x) * c) (data a)))
      else Py.raise IndexError
  | _ => Py.raise IndexError
  end.

(** [a[0, :, :, ch]] of a four-dimensional array, flattened. *)
Definition channel {A} (a : ndarray A) (ch : nat) : Py (list A) :=
  match shape a with
  | [n; h; w; c] =>
      if (0 <? n) && (ch <? c)
      then Py.ret
             (flat_map
                (fun yx =>
                   match get a [0; fst yx; snd yx; ch] with
                   | Some v => [v]
                   | None => []
                   end)
                (list_prod (seq 0 h) (seq 0 w)))
      else Py.raise IndexError
  | _ => Py.raise IndexError
  end.

Definition shape_eqb (s1 s2 : list nat) : bool :=
  if list_eq_dec Nat.eq_dec s1 s2 then true else false.

Definition nonzero (x : F16.t) : bool := F16.neb x F16.zero.

(** [np.count_nonzero]. *)
Definition count_nonzero (l : list F16.t) : nat :=
  length (filter nonzero l).

(** [np.any(v != 0)]. *)
Definition any_nonzero (l : list F16.t) : bool := existsb nonzero l.

(** [np.array_equal(a, b)]: same shape and every pair [==]. *)
Definition array_equal (a b : ndarray F16.t) : bool :=
  shape_eqb (shape a) (shape b) &&
  forallb (fun p => F16.eqb (fst p) (snd p)) (combine (data a) (data b)).

(** [abs(x - y) <= atol + rtol * abs(y)], computed in the arrays'
    element type. *)
Definition within_tol (atol rtol x y : F16.t) : bool :=
  F16.leb (F16.abs (F16.sub x y))
          (F16.add atol (F16.mul rtol (F16.abs y))).

(** [np.isclose] on one pair: the tolerance rule when both are finite,
    equality otherwise (infinities of the same sign are close, a NaN is
    close to nothing). *)
Definition isclose (rtol atol x y : F16.t) : bool :=
  if F16.isfinite x && F16.isfinite y
  then within_tol atol rtol x y
  else F16.eqb x y.

(** [np.allclose(xs, ys, rtol=rtol, atol=atol)] on equal shapes. *)
Definition allclose (rtol atol : F16.t) (xs ys : list F16.t) : bool :=
  forallb (fun p => isclose rtol atol (fst p) (snd p)) (combine xs ys).

(** [np.abs(a - b)] on equal shapes. *)
Definition abs_diff (xs ys : list F16.t) : list F16.t :=
  map (fun p => F16.abs (F16.sub (fst p) (snd p))) (combine xs ys).

(** [a.min()], [a.max()], [np.max(a)]: a reduction without identity is
    a [ValueError] on an empty array.  The value only reaches a
    formatted line. *)
Definition reduce_nonempty {A} (a : ndarray A) : Py unit :=
  if size a =? 0 then Py.raise ValueError else Py.ret tt.

(** Little-endian words of a byte string; bytes that do not fill a last
    word are left unread, as [np.fromfile] does. *)
Fixpoint u16s (bs : list byte) : list N :=
  match bs with
  | b0 :: b1 :: r => (Byte.to_N b0 + 256 * Byte.to_N b1)%N :: u16s r
  | _ => []
  end.

Fixpoint u32s (bs : list byte) : list N :=
  match bs with
  | b0 :: b1 :: b2 :: b3 :: r =>
      (Byte.to_N b0 + 256 * (Byte.to_N b1 + 256 * (Byte.to_N b2
         + 256 * Byte.to_N b3)))%N :: u32s r
  | _ => []
  end.

(** [np.fromfile(f, dtype=np.float16)]. *)
Definition fromfile_float16 (fs : filesystem) (f : path)
  : Py (ndarray F16.t) :=
  Py.emit (IoFromFile f Float16);;
  match fs f with
  | Some bs => Py.ret (flat (map F16.of_bits (u16s bs)))
  | None => Py.raise FileNotFoundError
  end.

(** [np.fromfile(f, dtype=np.uint32)]. *)
Definition fromfile_uint32 (fs : filesystem) (f : path) : Py (list N) :=
  Py.emit (IoFromFile f UInt32);;
  match fs f with
  | Some bs => Py.ret (u32s bs)
  | None => Py.raise FileNotFoundError
  end.

End Np.

(* ================================================================== *)
(** ** [check.py] *)

(** One record of the coordinate file: [(batch, x, y, reserved)]. *)
Definition coord : Type := (N * N * N * N)%type.

Module Check.

(** The module's two globals. *)
Record config : Type := {
  DEBUG_MODE : bool;
  DEBUG_MAX_PILLARS : nat
}.

#[local] Set Warnings "-abstract-large-number".
Definition module_config : config :=
  {| DEBUG_MODE := true; DEBUG_MAX_PILLARS := 9282 |}.
#[local] Set Warnings "abstract-large-number".

(** The default [tolerance=1e-5] once numpy has cast it to the arrays'
    float16: [168 * 2^-24], the binary16 nearest to [1e-5]. *)
Definition default_tolerance : F16.t := S754_finite false 168 (-24).

Section Script.

Variable cfg : config.
Variable fs : filesystem.
(** [hashlib.md5(bytes).hexdigest()]. *)
Variable md5_hexdigest : list byte -> string.

Definition load_binary_file (filename : path)
  : Py (option (Np.ndarray F16.t)) :=
  ex <- Os.exists_ fs filename;;
  if negb ex then
    Py.print (L_file_missing filename);;
    Py.ret None
  else
    Py.try_except
      (data <- Np.fromfile_float16 fs filename;;
       Py.ret (Some data))
      (fun _ =>
         Py.print (L_read_error filename);;
         Py.ret None).

Definition load_coords_file (filename : path)
  : Py (option (list coord)) :=
  ex <- Os.exists_ fs filename;;
  if negb ex then
    Py.print (L_coords_missing filename);;
    Py.ret None
  else
    Py.try_except
      (coords <- Np.fromfile_uint32 fs filename;;
       coords <- Np.rows4 coords;;
       Py.ret (Some coords))
      (fun e =>
         Py.print (L_coords_read_error filename e);;
         Py.ret None).

Definition get_file_md5 (filename : path) : Py string :=
  bs <- Os.read_bytes fs filename;;
  Py.ret (md5_hexdigest bs).

(** The dictionary [analyze_debug_output] returns; the ratio is kept
    as the pair it is the quotient of. *)
Record analysis : Type := {
  total_elements : nat;
  nonzero_elements : nat;
  nonzero_ratio : nat * nat
}.

Definition analyze_position (output_data : Np.ndarray F16.t)
    (height width : nat) (st : nat * nat) (ic : nat * coord)
  : Py (nat * nat) :=
  let '(expected_positions, actual_positions) := st in
  let '(i, (batch_id, x, y, _)) := ic in
  if (batch_id =? 0)%N && (x <? N.of_nat width)%N
     && (y <? N.of_nat height)%N then
    let expected_positions := expected_positions + 1 in
    position_values <- Np.cell output_data (N.to_nat y) (N.to_nat x);;
    let actual_positions :=
      if Np.any_nonzero position_values
      then actual_positions + 1 else actual_positions in
    Py.when (i <? 5)
      (Py.print (L_pillar i x y (Np.count_nonzero position_values)));;
    Py.ret (expected_positions, actual_positions)
  else Py.ret (expected_positions, actual_positions).

Definition analyze_debug_output (output_data : Np.ndarray F16.t)
    (coords : option (list coord)) : Py analysis :=
  Py.print L_rule;;
  Py.print (L_debug_title (DEBUG_MAX_PILLARS cfg));;
  Py.print L_rule;;
  let total_elements := Np.size output_data in
  let nonzero_elements := Np.count_nonzero (Np.data output_data) in
  Py.print (L_total_elements total_elements);;
  (if total_elements =? 0 then Py.raise ZeroDivisionError
   else Py.print (L_nonzero_elements nonzero_elements));;
  match Np.shape output_data with
  | [batch; height; width; channels] =>
      Py.print L_channel_header;;
      Py.for_ (seq 0 (Nat.min channels 10))
        (fun c =>
           channel_data <- Np.channel output_data c;;
           Py.print (L_channel_nonzero c (Np.count_nonzero channel_data)));;
      Py.when (10 <? channels)
        (Py.print (L_channels_elided (channels - 10)));;
      match coords with
      | Some coords =>
          Py.print L_position_header;;
          let valid_coords := firstn (DEBUG_MAX_PILLARS cfg) coords in
          counts <- Py.foldM (analyze_position output_data height width)
                      (Py.enumerate valid_coords) (0, 0);;
          let '(expected_positions, actual_positions) := counts in
          Py.print (L_expected_positions expected_positions);;
          Py.print (L_actual_positions actual_positions);;
          if actual_positions =? expected_positions
          then Py.print L_positions_ok
          else Py.print L_positions_failed
      | None => Py.ret tt
      end;;
      if total_elements =? 0 then Py.raise ZeroDivisionError
      else Py.ret {| total_elements := total_elements;
                     nonzero_elements := nonzero_elements;
                     nonzero_ratio := (nonzero_elements, total_elements) |}
  | _ => Py.raise ValueError
  end.

(** [batch_id == 0 and x < arr.shape[2] and y < arr.shape[1]], left
    to right. *)
Definition eligible (arr : Np.ndarray F16.t) (c : coord) : Py bool :=
  let '(batch_id, x, y, _) := c in
  if (batch_id =? 0)%N then
    width <- Np.shape_at arr 2;;
    if (x <? N.of_nat width)%N then
      height <- Np.shape_at arr 1;;
      Py.ret (y <? N.of_nat height)%N
    else Py.ret false
  else Py.ret false.

(** The body of the loop of the restricted comparison, on the loop's
    variables [(match_count, total_checked)]. *)
Definition compare_position (arr1 arr2 : Np.ndarray F16.t)
    (tolerance : F16.t) (st : nat * nat) (ic : nat * coord)
  : Py (nat * nat) :=
  let '(match_count, total_checked) := st in
  let '(i, (batch_id, x, y, r)) := ic in
  el <- eligible arr1 (batch_id, x, y, r);;
  if el then
    let total_checked := total_checked + 1 in
    pos1 <- Np.cell arr1 (N.to_nat y) (N.to_nat x);;
    pos2 <- Np.cell arr2 (N.to_nat y) (N.to_nat x);;
    if Np.allclose tolerance tolerance pos1 pos2 then
      Py.ret (match_count + 1, total_checked)
    else
      Py.when (i <? 5)
        (Py.print (L_cell_mismatch x y);;
         Py.for_ (Py.enumerate (firstn 5 (combine pos1 pos2)))
           (fun cv =>
              let '(c, (v1, v2)) := cv in
              Py.when (F16.gtb (F16.abs (F16.sub v1 v2)) tolerance)
                (Py.print (L_channel_mismatch c v1 v2))));;
      Py.ret (match_count, total_checked)
  else Py.ret (match_count, total_checked).

(** The block under [if DEBUG_MODE and debug_coords is not None]:
    [true] when it returns [True] from [compare_arrays], [false] when
    control falls through. *)
Definition compare_restricted (arr1 arr2 : Np.ndarray F16.t)
    (tolerance : F16.t) (debug_coords : list coord) : Py bool :=
  Py.print (L_restricted_header (DEBUG_MAX_PILLARS cfg));;
  let valid_coords := firstn (DEBUG_MAX_PILLARS cfg) debug_coords in
  counts <- Py.foldM (compare_position arr1 arr2 tolerance)
              (Py.enumerate valid_coords) (0, 0);;
  let '(match_count, total_checked) := counts in
  Py.print (L_match_rate match_count total_checked);;
  if match_count =? total_checked then
    Py.print L_restricted_ok;;
    Py.ret true
  else Py.ret false.

Definition print_stats (name : string) (arr : Np.ndarray F16.t)
  : Py unit :=
  Py.print (L_stats_header name);;
  Np.reduce_nonempty arr;; Py.print L_min;;
  Np.reduce_nonempty arr;; Py.print L_max;;
  Py.print L_mean;;
  Py.print L_std.

(** The report of the elements over the tolerance, after both
    equality tests failed. *)
Definition report_differences (arr1 arr2 : Np.ndarray F16.t)
    (diff : list F16.t) (tolerance : F16.t) : Py unit :=
  let diff_mask := map (fun d => F16.gtb d tolerance) diff in
  let diff_count := length (filter (fun b : bool => b) diff_mask) in
  Py.when (0 <? diff_count)
    (Py.print (L_diff_count diff_count);;
     let diff_indices :=
       map fst
         (filter (fun p => snd p)
            (combine
               (combine (Np.indices (Np.shape arr1))
                  (combine (combine (Np.data arr1) (Np.data arr2)) diff))
               diff_mask)) in
     let show_count := Nat.min 10 diff_count in
     Py.print (L_show_count show_count);;
     Py.for_ (firstn show_count diff_indices)
       (fun e =>
          let '(idx, (v1, v2, d)) := e in
          Py.print (L_diff_at idx v1 v2 d))).

Definition compare_arrays (arr1 arr2 : Np.ndarray F16.t)
    (name1 name2 : string) (tolerance : F16.t)
    (debug_coords : option (list coord)) : Py bool :=
  Py.print L_rule;;
  Py.print (L_compare_title name1 name2);;
  Py.print L_rule;;
  if negb (Np.shape_eqb (Np.shape arr1) (Np.shape arr2)) then
    Py.print L_shape_mismatch;;
    Py.print (L_shape_of name1 (Np.shape arr1));;
    Py.print (L_shape_of name2 (Np.shape arr2));;
    Py.ret false
  else
    Py.print (L_shape_match (Np.shape arr1));;
    Py.when (DEBUG_MODE cfg)
      (Py.print (L_analysis_of name1);;
       _ <- analyze_debug_output arr1 debug_coords;;
       Py.print (L_analysis_of name2);;
       _ <- analyze_debug_output arr2 debug_coords;;
       Py.ret tt);;
    print_stats name1 arr1;;
    print_stats name2 arr2;;
    let diff := Np.abs_diff (Np.data arr1) (Np.data arr2) in
    Np.reduce_nonempty (Np.mk (Np.shape arr1) diff);;
    Py.print L_diff_header;;
    Py.print L_max_diff;;
    Py.print L_mean_diff;;
    let nonzero1 := Np.count_nonzero (Np.data arr1) in
    let nonzero2 := Np.count_nonzero (Np.data arr2) in
    Py.print L_nonzero_header;;
    (if Np.size arr1 =? 0 then Py.raise ZeroDivisionError
     else Py.print (L_nonzero_of name1 nonzero1));;
    (if Np.size arr2 =? 0 then Py.raise ZeroDivisionError
     else Py.print (L_nonzero_of name2 nonzero2));;
    returned <-
      match DEBUG_MODE cfg, debug_coords with
      | true, Some debug_coords =>
          compare_restricted arr1 arr2 tolerance debug_coords
      | _, _ => Py.ret false
      end;;
    if returned : bool then Py.ret true
    else if Np.array_equal arr1 arr2 then
      Py.print L_exact;;
      Py.ret true
    else if Np.allclose tolerance tolerance (Np.data arr1) (Np.data arr2)
    then
      Py.print (L_within_tolerance tolerance);;
      Py.ret true
    else
      report_differences arr1 arr2 diff tolerance;;
      Py.ret false.

Definition main (argv : list string) : Py nat :=
  let output_file := "./output/OpTest_scatter_output_x.bin"%string in
  let correct_file :=
    "./output/OpTest_scatter_output_x_correct.bin"%string in
  let coords_file := "./input/OpTest_scatter_input_coords.bin"%string in
  let '(output_file, correct_file) :=
    if 3 <=? length argv
    then (nth 1 argv ""%string, nth 2 argv ""%string)
    else (output_file, correct_file) in
  Py.print L_tool_title;;
  Py.when (DEBUG_MODE cfg)
    (Py.print (L_debug_banner (DEBUG_MAX_PILLARS cfg)));;
  Py.print (L_output_file output_file);;
  Py.print (L_correct_file correct_file);;
  Py.print (L_coords_file coords_file);;
  ex <- Os.exists_ fs output_file;;
  if negb ex then
    Py.print (L_output_missing output_file);;
    Py.print L_run_operator_first;;
    Py.ret 1
  else
  ex <- Os.exists_ fs correct_file;;
  if negb ex then
    Py.print (L_correct_missing correct_file);;
    Py.ret 1
  else
  coords_data <-
    (if DEBUG_MODE cfg then
       coords_data <- load_coords_file coords_file;;
       match coords_data with
       | Some cs =>
           Py.print (L_coords_loaded [length cs; 4]);;
           Py.print (L_total_pillars (length cs));;
           Py.when (DEBUG_MAX_PILLARS cfg <? length cs)
             (Py.print (L_debug_limit (DEBUG_MAX_PILLARS cfg)))
       | None => Py.print L_coords_unavailable
       end;;
       Py.ret coords_data
     else Py.ret None);;
  output_size <- Os.getsize fs output_file;;
  correct_size <- Os.getsize fs correct_file;;
  Py.print L_sizes_header;;
  Py.print (L_output_size output_size);;
  Py.print (L_correct_size correct_size);;
  if negb (output_size =? correct_size) then
    Py.print L_size_mismatch;;
    Py.ret 1
  else
  Py.print L_md5_header;;
  output_md5 <- get_file_md5 output_file;;
  correct_md5 <- get_file_md5 correct_file;;
  Py.print (L_output_md5 output_md5);;
  Py.print (L_correct_md5 correct_md5);;
  if String.eqb output_md5 correct_md5 then
    Py.print L_md5_equal;;
    Py.ret 0
  else
  Py.when (DEBUG_MODE cfg)
    (Py.print L_md5_differs;;
     Py.print L_md5_differs_reason);;
  Py.print L_loading;;
  output_data <- load_binary_file output_file;;
  correct_data <- load_binary_file correct_file;;
  match output_data, correct_data with
  | Some output_data, Some correct_data =>
      n <- Np.shape_at output_data 0;;
      arrays <-
        (if n =? 1 * 720 * 720 * 64 then
           output_data <- Np.reshape output_data [1; 720; 720; 64];;
           Py.print (L_output_reshaped (Np.shape output_data));;
           correct_data <- Np.reshape correct_data [1; 64; 720; 720];;
           correct_data <- Np.transpose correct_data [0; 2; 3; 1];;
           Py.print (L_reference_transposed (Np.shape correct_data));;
           Py.ret (output_data, correct_data)
         else
           Py.print (L_size_unexpected (Np.shape output_data));;
           Py.ret (output_data, correct_data));;
      let '(output_data, correct_data) := arrays in
      is_equal <- compare_arrays output_data correct_data
                    "output"%string "reference"%string
                    default_tolerance coords_data;;
      Py.print L_rule;;
      if is_equal : bool then
        (if DEBUG_MODE cfg
         then Py.print (L_debug_pass (DEBUG_MAX_PILLARS cfg))
         else Py.print L_pass);;
        Py.ret 0
      else
        (if DEBUG_MODE cfg
         then Py.print (L_debug_fail (DEBUG_MAX_PILLARS cfg));;
              Py.print L_debug_fail_hint
         else Py.print L_fail);;
        Py.ret 1
  | _, _ => Py.ret 1
  end.

End Script.

End Check.

(* ================================================================== *)
(** ** [check_visual.py]: the feature-map loader *)

Module CheckVisual.

(** The module's configuration constants. *)
Record config : Type := {
  FEATURE_SIZE : nat;
  FEATURE_H : nat;
  FEATURE_W : nat
}.

Definition module_config : config :=
  {| FEATURE_SIZE := 64; FEATURE_H := 720; FEATURE_W := 720 |}.

(** [c.upper()] on an ASCII character. *)
Definition upper_ascii (c : ascii) : ascii :=
  let n := nat_of_ascii c in
  if (97 <=? n) && (n <=? 122) then ascii_of_nat (n - 32) else c.

(** [s.upper()] on an ASCII string. *)
Fixpoint upper (s : string) : string :=
  match s with
  | EmptyString => EmptyString
  | String c r => String (upper_ascii c) (upper r)
  end.

(** The binary32 value of a binary16 value; the conversion is exact. *)
Definition float32_of_float16 (x : F16.t) : spec_float :=
  match x with
  | S754_finite s m e => binary_round 24 128 s m e
  | _ => x
  end.

(** [a.astype(np.float32)] on a float16 array. *)
Definition astype_float32 (a : Np.ndarray F16.t) : Np.ndarray spec_float :=
  Np.mk (Np.shape a) (map float32_of_float16 (Np.data a)).

Section Visualizer.

Variable cfg : config.
Variable fs : filesystem.

Definition load_feature_map (filename : path) (format_type : string)
  : Py (Np.ndarray spec_float) :=
  ex <- Os.exists_ fs filename;;
  if negb ex then Py.raise FileNotFoundError
  else
    data <- Np.fromfile_float16 fs filename;;
    let total_elements :=
      1 * FEATURE_H cfg * FEATURE_W cfg * FEATURE_SIZE cfg in
    data <-
      (if negb (length (Np.data data) =? total_elements) then
         Py.print
           (L_size_warning total_elements (length (Np.data data)));;
         if length (Np.data data) <? total_elements
         then Py.raise ValueError
         else Py.ret (Np.flat (firstn total_elements (Np.data data)))
       else Py.ret data);;
    features <-
      (if String.eqb (upper format_type) "NHWC" then
         Np.reshape data
           [1; FEATURE_H cfg; FEATURE_W cfg; FEATURE_SIZE cfg]
       else if String.eqb (upper format_type) "NCHW" then
         features <- Np.reshape data
           [1; FEATURE_SIZE cfg; FEATURE_H cfg; FEATURE_W cfg];;
         Np.transpose features [0; 2; 3; 1]
       else Py.raise ValueError);;
    Py.ret (astype_float32 features).

(** [features[0, :, :, channel_idx]] behind the guard of the method.  The
    guard bounds the index from above only; numpy counts a negative
    index from the end of the axis and raises [IndexError] outside it. *)
Definition get_single_channel (features : Np.ndarray spec_float)
    (channel_idx : Z) : Py (Np.ndarray spec_float) :=
  if (Z.of_nat (FEATURE_SIZE cfg) <=? channel_idx)%Z
  then Py.raise ValueError
  else
    let channels := nth 3 (Np.shape features) 0 in
    let k := if (channel_idx <? 0)%Z
             then (channel_idx + Z.of_nat channels)%Z
             else channel_idx in
    if (k <? 0)%Z then Py.raise IndexError
    else
      plane <- Np.channel features (Z.to_nat k);;
      Py.ret (Np.mk [nth 1 (Np.shape features) 0;
                     nth 2 (Np.shape features) 0] plane).

End Visualizer.

End CheckVisual.

(* ================================================================== *)
(** ** The vocabulary of the specification *)

Module Grid.

(** The elements fill the shape. *)
Definition wf {A} (a : Np.ndarray A) : bool :=
  length (Np.data a) =? Np.size a.

(** A grid: a four-dimensional array [(batch, height, width, channel)]
    that holds at least one element. *)
Definition is_grid {A} (a : Np.ndarray A) : bool :=
  (length (Np.shape a) =? 4) && wf a && (0 <? Np.size a).

Definition height {A} (a : Np.ndarray A) : nat := nth 1 (Np.shape a) 0.
Definition width {A} (a : Np.ndarray A) : nat := nth 2 (Np.shape a) 0.
Definition channels {A} (a : Np.ndarray A) : nat := nth 3 (Np.shape a) 0.

(** A coordinate record is eligible iff its batch is 0 and its cell
    lies inside the grid. *)
Definition eligible {A} (a : Np.ndarray A) (c : coord) : bool :=
  let '(batch_id, x, y, _) := c in
  (batch_id =? 0)%N && (x <? N.of_nat (width a))%N
    && (y <? N.of_nat (height a))%N.

(** The channel vector of batch 0 at the record's cell. *)
Definition cell_values {A} (a : Np.ndarray A) (c : coord) : list A :=
  let '(_, x, y, _) := c in
  firstn (channels a)
    (skipn ((N.to_nat y * width a + N.to_nat x) * channels a) (Np.data a)).

(** Every channel of the cell is within tolerance. *)
Definition cell_matches (tol : F16.t) (a b : Np.ndarray F16.t) (c : coord)
  : bool :=
  Np.allclose tol tol (cell_values a c) (cell_values b c).

(** The eligible records of the window, and those of them whose cell
    matches. *)
Definition checked {A} (window : nat) (a : Np.ndarray A)
    (coords : list coord) : nat :=
  length (filter (eligible a) (firstn window coords)).

Definition matched (window : nat) (tol : F16.t) (a b : Np.ndarray F16.t)
    (coords : list coord) : nat :=
  length (filter (fun c => eligible a c && cell_matches tol a b c)
            (firstn window coords)).

(** The eligible records of the window whose cell holds a value other
    than zero. *)
Definition written (window : nat) (a : Np.ndarray F16.t)
    (coords : list coord) : nat :=
  length (filter (fun c => eligible a c && Np.any_nonzero (cell_values a c))
            (firstn window coords)).

(** A tolerance is a finite value that is not negative. *)
Definition tolerance_ok (tol : F16.t) : bool :=
  match tol with
  | S754_zero _ | S754_finite false _ _ => true
  | _ => false
  end.

(** Zero of either sign, a positive finite value or plus infinity. *)
Definition nonneg (x : F16.t) : Prop :=
  match x with
  | S754_zero _ => True
  | S754_infinity s | S754_finite s _ _ => s = false
  | S754_nan => False
  end.

Definition no_nan (a : Np.ndarray F16.t) : bool :=
  forallb (fun x => negb (F16.isnan x)) (Np.data a).

Definition all_finite (a : Np.ndarray F16.t) : bool :=
  forallb F16.isfinite (Np.data a).

End Grid.

(** Events of the work on grids: reading a grid file as float16, and the
    lines of the loading, reshaping and comparing stages of [main]. *)
Definition grid_stage (ev : event) : bool :=
  match ev with
  | IoFromFile _ Float16 => true
  | Out (L_file_missing _) | Out (L_read_error _) => true
  | Out L_loading | Out (L_output_reshaped _)
  | Out (L_reference_transposed _) | Out (L_size_unexpected _) => true
  | Out (L_compare_title _ _) | Out L_shape_mismatch | Out (L_shape_match _)
  | Out (L_analysis_of _) | Out (L_stats_header _) | Out L_diff_header
  | Out L_max_diff | Out L_mean_diff | Out (L_match_rate _ _)
  | Out L_restricted_ok | Out L_exact | Out (L_within_tolerance _)
  | Out (L_diff_count _) => true
  | Out (L_debug_pass _) | Out L_pass | Out (L_debug_fail _) | Out L_fail
      => true
  | _ => false
  end.

(** Events that read the content of a grid file: for its digest or as
    float16 values. *)
Definition reads_content (ev : event) : bool :=
  match ev with
  | IoReadBytes _ | IoFromFile _ Float16 => true
  | _ => false
  end.

(** The lines that state how a comparison ended. *)
Definition verdict_line (ev : event) : bool :=
  match ev with
  | Out (L_match_rate _ _) | Out L_restricted_ok | Out L_exact
  | Out (L_within_tolerance _) | Out (L_diff_count _) => true
  | _ => false
  end.

(* ================================================================== *)
(** ** Sample data *)

Module Sample.

Definition one : F16.t := S754_finite false 1024 (-10).
Definition two : F16.t := S754_finite false 1024 (-9).

(** The grid of one cell and one channel. *)
Definition unit_grid (x : F16.t) : Np.ndarray F16.t := Np.mk [1; 1; 1; 1] [x].

(** A grid of 6 rows, 6 columns and one channel. *)
Definition flat_grid (x : F16.t) : Np.ndarray F16.t :=
  Np.mk [1; 6; 6; 1] (repeat x 36).

(** One record of another batch. *)
Definition other_batch : list coord := [(1, 0, 0, 0)%N].

(** One record on the only cell of a unit grid. *)
Definition origin : list coord := [(0, 0, 0, 0)%N].

(** An eligible record, one of another batch and one outside the grid. *)
Definition padded : list coord :=
  [(0, 5, 5, 0)%N; (1, 3, 3, 0)%N; (0, 10000, 2, 0)%N].

(** The default paths of [main]. *)
Definition output_path : path :=
  "./output/OpTest_scatter_output_x.bin"%string.
Definition correct_path : path :=
  "./output/OpTest_scatter_output_x_correct.bin"%string.
Definition coords_path : path :=
  "./input/OpTest_scatter_input_coords.bin"%string.

(** A file system without any file. *)
Definition no_files : filesystem := fun _ => None.

(** A coordinate file of one 32-bit word: not a whole record. *)
Definition short_coords : filesystem :=
  fun f => if String.eqb f coords_path then Some [x01; x00; x00; x00]
           else None.

(** An output file and a reference file with the same four bytes (the
    float16 values 1.0 and 2.0), and no coordinate file. *)
Definition twin_files : filesystem :=
  fun f =>
    if String.eqb f output_path then Some [x00; x3c; x00; x40]
    else if String.eqb f correct_path then Some [x00; x3c; x00; x40]
    else None.

(** A digest that tells all contents apart: the content itself. *)
Definition content_digest (bs : list byte) : string :=
  string_of_list_byte bs.

(** A grid file of three float16 values: 1.0, 2.0 and 1.0. *)
Definition three_values : filesystem :=
  fun f => if String.eqb f output_path
           then Some [x00; x3c; x00; x40; x00; x3c]
           else None.

(** A loader configuration for grids of one row, one column and two
    channels. *)
Definition small_features : CheckVisual.config :=
  {| CheckVisual.FEATURE_SIZE := 2;
     CheckVisual.FEATURE_H := 1;
     CheckVisual.FEATURE_W := 1 |}.

(** Only the output file exists. *)
Definition only_output : filesystem :=
  fun f => if String.eqb f output_path then Some [x00; x3c] else None.

(** An output file of two bytes and a reference file of four. *)
Definition unequal_sizes : filesystem :=
  fun f =>
    if String.eqb f output_path then Some [x00; x3c]
    else if String.eqb f correct_path then Some [x00; x3c; x00; x40]
    else None.

(** Two files of one size, the values 1.0 and 2.0 in one and 2.0 and 1.0
    in the other, and no coordinate file. *)
Definition swapped_files : filesystem :=
  fun f =>
    if String.eqb f output_path then Some [x00; x3c; x00; x40]
    else if String.eqb f correct_path then Some [x00; x40; x00; x3c]
    else None.

(** A debug configuration whose window is one record. *)
Definition narrow : Check.config :=
  {| Check.DEBUG_MODE := true; Check.DEBUG_MAX_PILLARS := 1 |}.

(** The configuration with debug mode off. *)
Definition plain : Check.config :=
  {| Check.DEBUG_MODE := false; Check.DEBUG_MAX_PILLARS := 1 |}.

(** The files of [swapped_files] beside a coordinate file of one record. *)
Definition with_coords : filesystem :=
  fun f =>
    if String.eqb f coords_path
    then Some [x00; x00; x00; x00; x00; x00; x00; x00;
               x00; x00; x00; x00; x00; x00; x00; x00]
    else swapped_files f.

(** A grid file of [720 * 720 * 64] values whose bytes are all [b]. *)
Definition full_file (b : byte) : list byte :=
  repeat b (720 * 720 * 64 * 2).

(** An output file and a reference file of the expected size. *)
Definition full_files : filesystem :=
  fun f =>
    if String.eqb f output_path then Some (full_file x00)
    else if String.eqb f correct_path then Some (full_file x01)
    else None.

(** A digest that tells contents apart by their first byte. *)
Definition first_byte_digest (bs : list byte) : string :=
  match bs with
  | b :: _ => String (ascii_of_byte b) EmptyString
  | [] => EmptyString
  end.

(** The grid [flat_grid one] with another value in its first cell. *)
Definition blemished : Np.ndarray F16.t :=
  Np.mk [1; 6; 6; 1] (two :: repeat one 35).

End Sample.

(* ================================================================== *)
(** * Properties *)

Unset Implicit Arguments.

(** ** Binary16 facts *)

Section Binary16.

Lemma eqb_refl_not_nan (x : F16.t) :
  F16.isnan x = false -> F16.eqb x x = true.
Proof.
  destruct x as [s|s| |s m e]; simpl; try discriminate; intros _.
  - reflexivity.
  - destruct s; reflexivity.
  - unfold F16.eqb, SFeqb; simpl.
    rewrite Z.compare_refl, Pos.compare_cont_refl.
    destruct s; reflexivity.
Qed.

Lemma eqb_nan_l (y : F16.t) : F16.eqb S754_nan y = false.
Proof. reflexivity. Qed.

(** Shifting right keeps a mantissa from going negative. *)
Lemma shr_1_nonneg (mrs : shr_record) :
  (0 <= shr_m mrs)%Z -> (0 <= shr_m (shr_1 mrs))%Z.
Proof.
  destruct mrs as [m r s]; simpl.
  destruct m as [|p|p]; simpl; intros H; try lia.
  destruct p; simpl; lia.
Qed.

Lemma iter_shr_1_nonneg (p : positive) (mrs : shr_record) :
  (0 <= shr_m mrs)%Z -> (0 <= shr_m (iter_pos shr_1 p mrs))%Z.
Proof.
  revert mrs; induction p as [p IH|p IH|]; simpl; intros mrs H.
  - apply IH, IH, shr_1_nonneg, H.
  - apply IH, IH, H.
  - apply shr_1_nonneg, H.
Qed.

Lemma shr_fexp_nonneg (m e : Z) (l : location) :
  (0 <= m)%Z ->
  (0 <= shr_m (fst (shr_fexp F16.prec F16.emax m e l)))%Z.
Proof.
  intros H; unfold shr_fexp, shr.
  assert (H0 : (0 <= shr_m (shr_record_of_loc m l))%Z)
    by (destruct l as [|[ | | ]]; simpl; exact H).
  destruct (_ - e)%Z; simpl; auto using iter_shr_1_nonneg.
Qed.

Lemma round_nearest_even_nonneg (m : Z) (l : location) :
  (0 <= m)%Z -> (0 <= round_nearest_even m l)%Z.
Proof.
  intros H; destruct l as [|[ | | ]]; simpl; try lia.
  destruct (Z.even m); lia.
Qed.

(** Rounding a mantissa that is not negative gives the sign asked
    for, and never NaN. *)
Lemma binary_round_aux_nonneg (m e : Z) (l : location) :
  (0 <= m)%Z -> Grid.nonneg (binary_round_aux F16.prec F16.emax false m e l).
Proof.
  intros H; unfold binary_round_aux.
  pose proof (shr_fexp_nonneg m e l H) as H1.
  destruct (shr_fexp F16.prec F16.emax m e l) as [mrs1 e1]; simpl in H1.
  pose proof (round_nearest_even_nonneg _ (loc_of_shr_record mrs1) H1) as H2.
  pose proof (shr_fexp_nonneg _ e1 loc_Exact H2) as H3.
  destruct (shr_fexp F16.prec F16.emax _ e1 loc_Exact) as [mrs2 e2];
    simpl in H3.
  destruct (shr_m mrs2) as [|p|p]; simpl; try lia; auto.
  destruct (e2 <=? _)%Z; simpl; auto.
Qed.

Lemma mul_nonneg (x y : F16.t) :
  Grid.tolerance_ok x = true -> F16.isfinite y = true ->
  Grid.nonneg (F16.mul x (F16.abs y)).
Proof.
  destruct x as [sx|sx| |sx mx ex]; try discriminate;
    destruct y as [sy|sy| |sy my ey]; try discriminate; simpl; auto;
    destruct sx; try discriminate; intros _ _; simpl; auto.
  apply binary_round_aux_nonneg; lia.
Qed.

Lemma add_nonneg (x y : F16.t) :
  Grid.tolerance_ok x = true -> Grid.nonneg y -> Grid.nonneg (F16.add x y).
Proof.
  destruct x as [sx|sx| |sx mx ex]; try discriminate;
    destruct y as [sy|sy| |sy my ey]; simpl; try tauto; intros Hx Hy;
    subst; auto.
  - destruct sx, sy; exact I.
  - destruct sx; [discriminate|reflexivity].
  - destruct sx; try discriminate.
    unfold cond_Zopp, binary_normalize.
    destruct (_ + _)%Z eqn:E; simpl; auto; try lia.
    unfold binary_round.
    destruct (shl_align p _ _) as [mz ez].
    apply binary_round_aux_nonneg; lia.
Qed.

Lemma leb_zero_nonneg (y : F16.t) :
  Grid.nonneg y -> F16.leb (S754_zero false) y = true.
Proof.
  destruct y as [s|s| |s m e]; simpl; intros H; subst; tauto || reflexivity.
Qed.

Lemma sub_eq_zero (x y : F16.t) :
  F16.isfinite x = true -> F16.eqb x y = true ->
  F16.abs (F16.sub x y) = S754_zero false.
Proof.
  destruct x as [sx|sx| |sx mx ex]; try discriminate;
    destruct y as [sy|sy| |sy my ey]; try discriminate; intros _;
    unfold F16.eqb, SFeqb; simpl.
  - destruct sx, sy; reflexivity.
  - destruct sy; discriminate.
  - destruct sy; discriminate.
  - destruct sx; discriminate.
  - destruct sy; discriminate.
  - intros He.
    assert (E : sx = sy /\ ex = ey /\ mx = my).
    { destruct sx, sy; try discriminate;
        destruct (Z.compare_spec ex ey); try discriminate;
        destruct (Pos.compare_cont Eq mx my) eqn:C; try discriminate;
        apply Pos.compare_eq in C; auto. }
    destruct E as (-> & -> & ->); clear He.
    unfold F16.sub, SFsub.
    rewrite Z.min_id.
    unfold shl_align; rewrite Z.sub_diag; simpl.
    try rewrite Z.sub_diag; reflexivity.
Qed.

(** Two finite values that are equal are within every tolerance. *)
Lemma eqb_isclose (tol x y : F16.t) :
  Grid.tolerance_ok tol = true ->
  F16.eqb x y = true -> Np.isclose tol tol x y = true.
Proof.
  intros Ht He; unfold Np.isclose.
  destruct (F16.isfinite x) eqn:Fx; simpl; auto.
  destruct (F16.isfinite y) eqn:Fy; simpl; auto.
  unfold Np.within_tol.
  rewrite (sub_eq_zero x y Fx He).
  apply leb_zero_nonneg, add_nonneg; auto.
  apply mul_nonneg; auto.
Qed.

End Binary16.

(** ** Running computations *)

Section Running.

Context {A B : Type}.

Lemma run_eta (m : Py A) : m = (Py.result m, Py.trace m).
Proof. destruct m; reflexivity. Qed.

Lemma result_bind (m : Py A) (k : A -> Py B) :
  Py.result (Py.bind m k) =
  match Py.result m with
  | Return a => Py.result (k a)
  | Raise e => Raise e
  end.
Proof.
  destruct m as [[a|e] l]; simpl; auto.
  destruct (k a); reflexivity.
Qed.

Lemma trace_bind (m : Py A) (k : A -> Py B) :
  Py.trace (Py.bind m k) =
  Py.trace m ++
  match Py.result m with
  | Return a => Py.trace (k a)
  | Raise e => []
  end.
Proof.
  destruct m as [[a|e] l]; simpl.
  - destruct (k a); reflexivity.
  - symmetry; apply app_nil_r.
Qed.

Lemma every_bind (P : event -> Prop) (m : Py A) (k : A -> Py B) :
  Py.every P m -> (forall a, Py.result m = Return a -> Py.every P (k a)) ->
  Py.every P (Py.bind m k).
Proof.
  unfold Py.every; intros Hm Hk; rewrite trace_bind.
  apply Forall_app; split; auto.
  destruct (Py.result m) eqn:E; auto.
Qed.

Lemma result_try_except (m : Py A) (h : exn -> Py A) :
  Py.result (Py.try_except m h) =
  match Py.result m with
  | Return a => Return a
  | Raise e => Py.result (h e)
  end.
Proof.
  destruct m as [[a|e] l]; simpl; auto.
  destruct (h e); reflexivity.
Qed.

Lemma trace_try_except (m : Py A) (h : exn -> Py A) :
  Py.trace (Py.try_except m h) =
  Py.trace m ++
  match Py.result m with
  | Return _ => []
  | Raise e => Py.trace (h e)
  end.
Proof.
  destruct m as [[a|e] l]; simpl.
  - symmetry; apply app_nil_r.
  - destruct (h e); reflexivity.
Qed.

Lemma every_try_except (P : event -> Prop) (m : Py A) (h : exn -> Py A) :
  Py.every P m -> (forall e, Py.every P (h e)) ->
  Py.every P (Py.try_except m h).
Proof.
  unfold Py.every; intros Hm Hh; rewrite trace_try_except.
  apply Forall_app; split; auto.
  destruct (Py.result m); auto.
Qed.

End Running.

Lemma every_ret {A} (P : event -> Prop) (a : A) : Py.every P (Py.ret a).
Proof. constructor. Qed.

Lemma every_raise {A} (P : event -> Prop) (e : exn) :
  Py.every P (@Py.raise A e).
Proof. constructor. Qed.

Lemma every_emit (P : event -> Prop) (ev : event) :
  P ev -> Py.every P (Py.emit ev).
Proof. intros H; repeat constructor; exact H. Qed.

Lemma every_print (P : event -> Prop) (l : line) :
  P (Out l) -> Py.every P (Py.print l).
Proof. apply every_emit. Qed.

Lemma every_when (P : event -> Prop) (b : bool) (m : Py unit) :
  Py.every P m -> Py.every P (Py.when b m).
Proof. destruct b; simpl; auto using every_ret. Qed.

Lemma every_foldM {A S} (P : event -> Prop) (body : S -> A -> Py S)
    (l : list A) :
  (forall s a, In a l -> Py.every P (body s a)) ->
  forall s, Py.every P (Py.foldM body l s).
Proof.
  induction l as [|a l IH]; simpl; intros H s.
  - apply every_ret.
  - apply every_bind; auto.
Qed.

Lemma every_for_ {A} (P : event -> Prop) (l : list A)
    (body : A -> Py unit) :
  (forall a, In a l -> Py.every P (body a)) -> Py.every P (Py.for_ l body).
Proof. intros H; apply every_foldM; auto. Qed.

(** A loop whose body always returns, returns. *)
Lemma foldM_returns {A S} (body : S -> A -> Py S) (l : list A) :
  (forall s a, In a l -> exists s', Py.result (body s a) = Return s') ->
  forall s, exists s', Py.result (Py.foldM body l s) = Return s'.
Proof.
  induction l as [|a l IH]; simpl; intros H s.
  - eexists; reflexivity.
  - destruct (H s a) as [s1 E]; auto.
    rewrite result_bind, E. apply IH; auto.
Qed.

Lemma for_returns {A} (l : list A) (body : A -> Py unit) :
  (forall a, In a l -> Py.result (body a) = Return tt) ->
  Py.result (Py.for_ l body) = Return tt.
Proof.
  intros H. unfold Py.for_.
  destruct (@foldM_returns A unit (fun _ a => body a) l) with (s := tt)
    as [[] E]; auto.
  intros s a Ha; exists tt; auto.
Qed.

Lemma when_returns (b : bool) (m : Py unit) :
  Py.result m = Return tt -> Py.result (Py.when b m) = Return tt.
Proof. destruct b; simpl; auto. Qed.

(** Straight-line code is run by rewriting with the two projections. *)
Ltac run :=
  repeat (rewrite ?result_bind, ?trace_bind, ?result_try_except,
            ?trace_try_except; cbn [Py.result Py.trace Py.print Py.emit
                                   Py.ret Py.raise fst snd app]).

(** A trace property of code built from prints follows its syntax. *)
Ltac every_step :=
  match goal with
  | |- Py.every _ (Py.bind _ _) => apply every_bind; [|intros ? ?]
  | |- Py.every _ (Py.print _) => apply every_print; reflexivity
  | |- Py.every _ (Py.emit _) => apply every_emit; reflexivity
  | |- Py.every _ (Py.ret _) => apply every_ret
  | |- Py.every _ (Py.raise _) => apply every_raise
  | |- Py.every _ (Py.when _ _) => apply every_when
  | |- Py.every _ (Py.for_ _ _) => apply every_for_; intros ? ?
  | |- Py.every _ (Py.foldM _ _ _) => apply every_foldM; intros ? ? ?
  | |- Py.every _ (Py.try_except _ _) => apply every_try_except; [|intros ?]
  | |- Py.every _ (if ?b then _ else _) => destruct b
  | |- Py.every _ (match ?x with _ => _ end) => destruct x
  | |- Py.every _ (let '(_, _) := ?x in _) => destruct x
  end.

Ltac every_tac := repeat every_step.

(** ** Lists *)

Lemma combine_skipn {A B} (n : nat) (l : list A) (l' : list B) :
  skipn n (combine l l') = combine (skipn n l) (skipn n l').
Proof.
  revert l l'; induction n as [|n IH]; intros [|a l] [|b l']; simpl; auto.
  destruct (skipn n l); reflexivity.
Qed.

Lemma forallb_firstn {A} (f : A -> bool) (n : nat) (l : list A) :
  forallb f l = true -> forallb f (firstn n l) = true.
Proof.
  revert l; induction n as [|n IH]; intros [|a l]; simpl; auto.
  intros H; apply andb_true_iff in H as [-> H]; simpl; auto.
Qed.

Lemma forallb_skipn {A} (f : A -> bool) (n : nat) (l : list A) :
  forallb f l = true -> forallb f (skipn n l) = true.
Proof.
  revert l; induction n as [|n IH]; intros [|a l]; simpl; auto.
  intros H; apply andb_true_iff in H as [_ H]; auto.
Qed.

(** Filtering by a stronger test keeps as many elements exactly when the
    extra test never fails. *)
Lemma filter_and_length {A} (P Q : A -> bool) (l : list A) :
  length (filter (fun x => P x && Q x) l) <= length (filter P l) /\
  (length (filter (fun x => P x && Q x) l) = length (filter P l) <->
   forall x, In x l -> P x = true -> Q x = true).
Proof.
  induction l as [|a l [IHle IHeq]]; simpl.
  - split; [lia|]. split; [intros _ x []|reflexivity].
  - destruct (P a) eqn:Pa, (Q a) eqn:Qa; simpl.
    + split; [lia|]. rewrite Nat.succ_inj_wd, IHeq.
      split; [intros H x [<-|Hx]; auto | intros H x Hx; auto].
    + split; [lia|]. split; [lia|].
      intros H. specialize (H a (or_introl eq_refl) Pa). congruence.
    + split; [lia|]. rewrite IHeq.
      split; [intros H x [<-|Hx] Px; [congruence|auto] | intros H x Hx; auto].
    + split; [lia|]. rewrite IHeq.
      split; [intros H x [<-|Hx] Px; [congruence|auto] | intros H x Hx; auto].
Qed.

Lemma filter_snd_length {A I} (P : A -> bool) (l : list (I * A)) :
  length (filter (fun ic => P (snd ic)) l) = length (filter P (map snd l)).
Proof.
  induction l as [|[i a] l IH]; simpl; auto.
  destruct (P a); simpl; auto.
Qed.

Lemma map_snd_combine_seq {A} (l : list A) (start : nat) :
  map snd (combine (seq start (length l)) l) = l.
Proof.
  revert start; induction l as [|a l IH]; simpl; intros; f_equal; auto.
Qed.

Lemma map_snd_enumerate {A} (l : list A) : map snd (Py.enumerate l) = l.
Proof. apply map_snd_combine_seq. Qed.

(** ** Grids *)

Lemma is_grid_inv {A} (a : Np.ndarray A) :
  Grid.is_grid a = true ->
  exists n h w c,
    Np.shape a = [n; h; w; c] /\
    length (Np.data a) = n * (h * (w * c)) /\
    0 < n /\ 0 < h /\ 0 < w /\ 0 < c.
Proof.
  unfold Grid.is_grid, Grid.wf, Np.size.
  intros H; apply andb_true_iff in H as [H Hpos].
  apply andb_true_iff in H as [Hlen Hwf].
  apply Nat.eqb_eq in Hlen, Hwf. apply Nat.ltb_lt in Hpos.
  destruct (Np.shape a) as [|n [|h [|w [|c [|]]]]]; try discriminate.
  simpl in Hwf, Hpos. rewrite Nat.mul_1_r in Hwf, Hpos.
  exists n, h, w, c; repeat split; auto; nia.
Qed.

Lemma is_grid_size {A} (a : Np.ndarray A) :
  Grid.is_grid a = true -> (Np.size a =? 0) = false.
Proof.
  unfold Grid.is_grid; intros H; apply andb_true_iff in H as [_ H].
  apply Nat.ltb_lt in H. apply Nat.eqb_neq; lia.
Qed.

Lemma shape_eqb_eq (s1 s2 : list nat) :
  Np.shape_eqb s1 s2 = true <-> s1 = s2.
Proof.
  unfold Np.shape_eqb; destruct (list_eq_dec Nat.eq_dec s1 s2);
    split; congruence.
Qed.

Lemma shape_eqb_refl (s : list nat) : Np.shape_eqb s s = true.
Proof. apply shape_eqb_eq; reflexivity. Qed.

(** On a four-dimensional array the test of the loops is the
    eligibility rule, and an eligible record's cell can be read. *)
Lemma eligible_rule (a : Np.ndarray F16.t) (c : coord) :
  length (Np.shape a) = 4 ->
  Check.eligible a c = Py.ret (Grid.eligible a c).
Proof.
  destruct c as [[[batch_id x] y] r].
  unfold Check.eligible, Grid.eligible, Grid.width, Grid.height, Np.shape_at.
  destruct (Np.shape a) as [|n [|h [|w [|ch [|]]]]]; try discriminate.
  intros _; simpl.
  destruct (batch_id =? 0)%N; simpl; auto.
  destruct (x <? N.of_nat w)%N; simpl; auto.
Qed.

Lemma cell_of_eligible {A} (a : Np.ndarray A) (c : coord) :
  Grid.is_grid a = true -> Grid.eligible a c = true ->
  Np.cell a (N.to_nat (snd (fst c))) (N.to_nat (snd (fst (fst c)))) =
  Py.ret (Grid.cell_values a c).
Proof.
  intros Hg He. destruct (is_grid_inv a Hg) as (n & h & w & ch & Hs & _ & Hn & _).
  destruct c as [[[batch_id x] y] r].
  unfold Grid.eligible, Grid.cell_values, Grid.width, Grid.height,
    Grid.channels, Np.cell in *.
  rewrite Hs in *; simpl in *.
  apply andb_true_iff in He as [He Hy]. apply andb_true_iff in He as [_ Hx].
  apply N.ltb_lt in Hx, Hy.
  assert (E1 : (0 <? n) = true) by (apply Nat.ltb_lt; exact Hn).
  assert (E2 : (N.to_nat y <? h) = true) by (apply Nat.ltb_lt; lia).
  assert (E3 : (N.to_nat x <? w) = true) by (apply Nat.ltb_lt; lia).
  rewrite E1, E2, E3; reflexivity.
Qed.

Lemma eligible_same_shape {A} (a b : Np.ndarray A) (c : coord) :
  Np.shape a = Np.shape b -> Grid.eligible a c = Grid.eligible b c.
Proof.
  unfold Grid.eligible, Grid.width, Grid.height; intros ->; reflexivity.
Qed.

(** ** The restricted comparison *)

Section Restricted.

Variable cfg : Check.config.
Variables a b : Np.ndarray F16.t.
Variable tol : F16.t.
Hypothesis Ha : Grid.is_grid a = true.
Hypothesis Hb : Grid.is_grid b = true.
Hypothesis Hs : Np.shape a = Np.shape b.

Let hit (c : coord) : bool :=
  Grid.eligible a c && Grid.cell_matches tol a b c.

Lemma mismatch_report_returns (i : nat) (x y : N) (pos1 pos2 : list F16.t) :
  Py.result
    (Py.when (i <? 5)
       (Py.print (L_cell_mismatch x y);;
        Py.for_ (Py.enumerate (firstn 5 (combine pos1 pos2)))
          (fun cv =>
             let '(c, (v1, v2)) := cv in
             Py.when (F16.gtb (F16.abs (F16.sub v1 v2)) tol)
               (Py.print (L_channel_mismatch c v1 v2))))) = Return tt.
Proof.
  apply when_returns. run. apply for_returns.
  intros [c [v1 v2]] _. apply when_returns. reflexivity.
Qed.

Lemma compare_position_result (m n : nat) (ic : nat * coord) :
  Py.result (Check.compare_position a b tol (m, n) ic) =
  Return (if hit (snd ic) then m + 1 else m,
          if Grid.eligible a (snd ic) then n + 1 else n).
Proof.
  destruct ic as [i c]; unfold hit; simpl snd.
  pose proof (cell_of_eligible a c Ha) as Ca.
  pose proof (cell_of_eligible b c Hb) as Cb.
  rewrite <- (eligible_same_shape a b c Hs) in Cb.
  destruct c as [[[batch_id x] y] r]; unfold Check.compare_position.
  rewrite eligible_rule
    by (destruct (is_grid_inv a Ha) as (? & ? & ? & ? & -> & _); reflexivity).
  run. destruct (Grid.eligible a (batch_id, x, y, r)); run; auto.
  cbn [fst snd] in Ca, Cb. rewrite Ca, Cb by reflexivity. run.
  unfold Grid.cell_matches.
  destruct (Np.allclose tol tol _ _); run; auto.
  rewrite mismatch_report_returns; reflexivity.
Qed.

Lemma compare_positions_result (ics : list (nat * coord)) (m n : nat) :
  Py.result (Py.foldM (Check.compare_position a b tol) ics (m, n)) =
  Return (m + length (filter (fun ic => hit (snd ic)) ics),
          n + length (filter (fun ic => Grid.eligible a (snd ic)) ics)).
Proof.
  revert m n; induction ics as [|ic ics IH]; intros m n.
  - simpl; f_equal; f_equal; lia.
  - cbn [Py.foldM filter].
    rewrite result_bind, compare_position_result, IH.
    destruct (hit (snd ic)), (Grid.eligible a (snd ic));
      cbn [length]; f_equal; f_equal; lia.
Qed.

(** The loop of the restricted comparison ends with the two counts of
    the eligibility rule. *)
Lemma restricted_loop_counts (coords : list coord) :
  Py.result
    (Py.foldM (Check.compare_position a b tol)
       (Py.enumerate (firstn (Check.DEBUG_MAX_PILLARS cfg) coords)) (0, 0)) =
  Return (Grid.matched (Check.DEBUG_MAX_PILLARS cfg) tol a b coords,
          Grid.checked (Check.DEBUG_MAX_PILLARS cfg) a coords).
Proof.
  rewrite compare_positions_result; simpl.
  unfold Grid.matched, Grid.checked.
  rewrite (filter_snd_length hit), (filter_snd_length (Grid.eligible a)).
  rewrite map_snd_enumerate; reflexivity.
Qed.

Lemma restricted_loop_trace (ics : list (nat * coord)) (st : nat * nat) :
  Py.every (fun ev => verdict_line ev = false)
    (Py.foldM (Check.compare_position a b tol) ics st).
Proof.
  apply every_foldM. intros [m n] [i [[[batch_id x] y] r]] _.
  unfold Check.compare_position, Check.eligible, Np.shape_at, Np.cell.
  every_tac.
Qed.

Lemma compare_restricted_result (coords : list coord) :
  Py.result (Check.compare_restricted cfg a b tol coords) =
  Return (Grid.matched (Check.DEBUG_MAX_PILLARS cfg) tol a b coords =?
          Grid.checked (Check.DEBUG_MAX_PILLARS cfg) a coords).
Proof.
  unfold Check.compare_restricted. run.
  rewrite restricted_loop_counts. run.
  destruct (_ =? _); run; reflexivity.
Qed.

Lemma compare_restricted_trace (coords : list coord) :
  exists pre,
    Forall (fun ev => verdict_line ev = false) pre /\
    Py.trace (Check.compare_restricted cfg a b tol coords) =
    pre ++
    Out (L_match_rate
           (Grid.matched (Check.DEBUG_MAX_PILLARS cfg) tol a b coords)
           (Grid.checked (Check.DEBUG_MAX_PILLARS cfg) a coords))
    :: (if Grid.matched (Check.DEBUG_MAX_PILLARS cfg) tol a b coords =?
           Grid.checked (Check.DEBUG_MAX_PILLARS cfg) a coords
        then [Out L_restricted_ok] else []).
Proof.
  exists (Out (L_restricted_header (Check.DEBUG_MAX_PILLARS cfg))
          :: Py.trace
               (Py.foldM (Check.compare_position a b tol)
                  (Py.enumerate
                     (firstn (Check.DEBUG_MAX_PILLARS cfg) coords)) (0, 0))).
  split.
  - constructor; [reflexivity|]. apply restricted_loop_trace.
  - unfold Check.compare_restricted. run.
    rewrite restricted_loop_counts. run.
    destruct (_ =? _); run; reflexivity.
Qed.

End Restricted.

(** ** The diagnostic passes of [compare_arrays] *)

Section Diagnostics.

Variable cfg : Check.config.

Let quiet (ev : event) : Prop := verdict_line ev = false.

Lemma analyze_position_returns (a : Np.ndarray F16.t) (st : nat * nat)
    (ic : nat * coord) :
  Grid.is_grid a = true ->
  exists st',
    Py.result
      (Check.analyze_position a (Grid.height a) (Grid.width a) st ic) =
    Return st'.
Proof.
  intros Ha. destruct st as [e p], ic as [i c].
  pose proof (cell_of_eligible a c Ha) as Ca.
  destruct c as [[[batch_id x] y] r]; unfold Check.analyze_position.
  unfold Grid.eligible in Ca.
  destruct (_ && _); [|eexists; reflexivity].
  cbn [fst snd] in Ca. rewrite Ca by reflexivity. run.
  rewrite when_returns by reflexivity. eexists; reflexivity.
Qed.

Lemma channel_returns (a : Np.ndarray F16.t) (ch : nat) :
  Grid.is_grid a = true -> ch < Grid.channels a ->
  exists v, Np.channel a ch = Py.ret v.
Proof.
  intros Ha Hc.
  destruct (is_grid_inv a Ha) as (n & h & w & c & Hs & _ & Hn & _).
  unfold Np.channel, Grid.channels in *. rewrite Hs in *; simpl in Hc.
  assert (E1 : (0 <? n) = true) by (apply Nat.ltb_lt; exact Hn).
  assert (E2 : (ch <? c) = true) by (apply Nat.ltb_lt; exact Hc).
  rewrite E1, E2; simpl. eexists; reflexivity.
Qed.

Lemma analyze_debug_output_returns (a : Np.ndarray F16.t)
    (coords : option (list coord)) :
  Grid.is_grid a = true ->
  exists r, Py.result (Check.analyze_debug_output cfg a coords) = Return r.
Proof.
  intros Ha. unfold Check.analyze_debug_output. run.
  rewrite (is_grid_size a Ha). run.
  pose proof (fun st ic => analyze_position_returns a st ic Ha) as Hpos.
  pose proof (fun ch => channel_returns a ch Ha) as Hch.
  unfold Grid.height, Grid.width, Grid.channels in Hpos, Hch.
  destruct (is_grid_inv a Ha) as (n & h & w & c & Hs & _).
  rewrite Hs in *; simpl in Hpos, Hch. run.
  rewrite for_returns.
  2:{ intros ch Hin. apply in_seq in Hin.
      destruct (Hch ch) as [v ->]; [lia|]. reflexivity. }
  rewrite when_returns by reflexivity. run.
  destruct coords as [coords|]; run.
  - destruct (foldM_returns (Check.analyze_position a h w)
                (Py.enumerate (firstn (Check.DEBUG_MAX_PILLARS cfg) coords)))
      with (s := (0, 0)) as [[e p] E].
    { intros st ic _. apply Hpos. }
    rewrite E. run. destruct (p =? e); run; eexists; reflexivity.
  - eexists; reflexivity.
Qed.

Lemma analyze_debug_output_quiet (a : Np.ndarray F16.t)
    (coords : option (list coord)) :
  Py.every quiet (Check.analyze_debug_output cfg a coords).
Proof.
  unfold Check.analyze_debug_output, quiet. every_tac.
  all: try (unfold Np.channel; every_tac).
  all: try (match goal with
            | s : (nat * nat)%type, a0 : (nat * coord)%type |- _ =>
                destruct s, a0 as [? [[[? ?] ?] ?]]
            end;
            unfold Check.analyze_position, Np.cell; every_tac).
Qed.

Lemma print_stats_returns (name : string) (a : Np.ndarray F16.t) :
  Grid.is_grid a = true ->
  Py.result (Check.print_stats name a) = Return tt.
Proof.
  intros Ha. unfold Check.print_stats, Np.reduce_nonempty. run.
  rewrite (is_grid_size a Ha). run. reflexivity.
Qed.

Lemma print_stats_quiet (name : string) (a : Np.ndarray F16.t) :
  Py.every quiet (Check.print_stats name a).
Proof.
  unfold Check.print_stats, Np.reduce_nonempty, quiet. every_tac.
Qed.

Lemma report_differences_returns (a b : Np.ndarray F16.t)
    (diff : list F16.t) (tol : F16.t) :
  Py.result (Check.report_differences a b diff tol) = Return tt.
Proof.
  unfold Check.report_differences. apply when_returns. run.
  apply for_returns. intros [idx [[v1 v2] d]] _. reflexivity.
Qed.

(** The report of the differences states neither equality. *)
Lemma report_differences_trace (a b : Np.ndarray F16.t)
    (diff : list F16.t) (tol : F16.t) :
  Py.every
    (fun ev => ev <> Out L_exact /\ ev <> Out (L_within_tolerance tol)
               /\ ev <> Out L_restricted_ok)
    (Check.report_differences a b diff tol).
Proof.
  unfold Check.report_differences.
  apply every_when, every_bind; [|intros _ _; apply every_bind].
  - apply every_print; repeat split; discriminate.
  - apply every_print; repeat split; discriminate.
  - intros _ _. apply every_for_. intros [idx [[v1 v2] d]] _.
    apply every_print; repeat split; discriminate.
Qed.

End Diagnostics.

(** ** [compare_arrays] on two grids of one shape *)

Lemma prefix_bind {A B} (P : event -> Prop) (m : Py A) (k : A -> Py B)
    (a : A) (rest : list event) :
  Py.result m = Return a -> Py.every P m ->
  (exists pre, Forall P pre /\ Py.trace (k a) = pre ++ rest) ->
  exists pre, Forall P pre /\ Py.trace (Py.bind m k) = pre ++ rest.
Proof.
  intros Hr Hm (pre & Hpre & E).
  exists (Py.trace m ++ pre); split.
  - apply Forall_app; split; assumption.
  - rewrite trace_bind, Hr, E, app_assoc; reflexivity.
Qed.

Section Comparison.

Variable cfg : Check.config.
Variables a b : Np.ndarray F16.t.
Variables name1 name2 : string.
Variable tol : F16.t.
Variable coords : option (list coord).
Hypothesis Ha : Grid.is_grid a = true.
Hypothesis Hb : Grid.is_grid b = true.
Hypothesis Hs : Np.shape a = Np.shape b.

Let quiet (ev : event) : Prop := verdict_line ev = false.

(** The block that may return early. *)
Let restricted : Py bool :=
  match Check.DEBUG_MODE cfg, coords with
  | true, Some debug_coords => Check.compare_restricted cfg a b tol debug_coords
  | _, _ => Py.ret false
  end.

Let restricted_passes : bool :=
  match Check.DEBUG_MODE cfg, coords with
  | true, Some debug_coords =>
      Grid.matched (Check.DEBUG_MAX_PILLARS cfg) tol a b debug_coords =?
      Grid.checked (Check.DEBUG_MAX_PILLARS cfg) a debug_coords
  | _, _ => false
  end.

Lemma restricted_block_result : Py.result restricted = Return restricted_passes.
Proof.
  unfold restricted, restricted_passes.
  destruct (Check.DEBUG_MODE cfg), coords; try reflexivity.
  apply compare_restricted_result; assumption.
Qed.

Lemma analysis_pass_returns :
  Py.result
    (Py.when (Check.DEBUG_MODE cfg)
       (Py.print (L_analysis_of name1);;
        _ <- Check.analyze_debug_output cfg a coords;;
        Py.print (L_analysis_of name2);;
        _ <- Check.analyze_debug_output cfg b coords;;
        Py.ret tt)) = Return tt.
Proof.
  apply when_returns. run.
  destruct (analyze_debug_output_returns cfg a coords Ha) as [ra ->].
  run.
  destruct (analyze_debug_output_returns cfg b coords Hb) as [rb ->].
  reflexivity.
Qed.

Lemma analysis_pass_quiet :
  Py.every quiet
    (Py.when (Check.DEBUG_MODE cfg)
       (Py.print (L_analysis_of name1);;
        _ <- Check.analyze_debug_output cfg a coords;;
        Py.print (L_analysis_of name2);;
        _ <- Check.analyze_debug_output cfg b coords;;
        Py.ret tt)).
Proof.
  apply every_when.
  apply every_bind; [apply every_print; reflexivity|intros _ _].
  apply every_bind; [apply analyze_debug_output_quiet|intros _ _].
  apply every_bind; [apply every_print; reflexivity|intros _ _].
  apply every_bind; [apply analyze_debug_output_quiet|intros _ _].
  apply every_ret.
Qed.

Lemma diff_size :
  (Np.size (Np.mk (Np.shape a) (Np.abs_diff (Np.data a) (Np.data b))) =? 0)
  = false.
Proof. exact (is_grid_size a Ha). Qed.

(** How the call ends: the early return of the restricted block, or else
    exact equality, or else equality within the tolerance. *)
Lemma compare_arrays_result :
  Py.result (Check.compare_arrays cfg a b name1 name2 tol coords) =
  Return (restricted_passes
          || Np.array_equal a b
          || Np.allclose tol tol (Np.data a) (Np.data b)).
Proof.
  unfold Check.compare_arrays. run.
  rewrite Hs, shape_eqb_refl. cbn [negb]. run.
  rewrite <- Hs.
  rewrite analysis_pass_returns, !print_stats_returns by assumption.
  unfold Np.reduce_nonempty. rewrite diff_size. run.
  rewrite (is_grid_size a Ha), (is_grid_size b Hb). run.
  fold restricted. rewrite restricted_block_result.
  destruct restricted_passes; [reflexivity|].
  destruct (Np.array_equal a b); run; [reflexivity|].
  destruct (Np.allclose tol tol _ _); run; [reflexivity|].
  rewrite report_differences_returns. reflexivity.
Qed.

(** What the call prints: lines that state no verdict, then the lines of
    the restricted block, then the line of the test that ended it. *)
Lemma compare_arrays_trace :
  exists pre,
    Forall quiet pre /\
    Py.trace (Check.compare_arrays cfg a b name1 name2 tol coords) =
    pre ++ Py.trace restricted ++
    (if restricted_passes then []
     else if Np.array_equal a b then [Out L_exact]
     else if Np.allclose tol tol (Np.data a) (Np.data b)
          then [Out (L_within_tolerance tol)]
     else Py.trace
            (Check.report_differences a b
               (Np.abs_diff (Np.data a) (Np.data b)) tol)).
Proof.
  unfold Check.compare_arrays.
  repeat (eapply prefix_bind;
          [reflexivity | apply every_print; reflexivity | cbv beta]).
  rewrite Hs, shape_eqb_refl. cbn [negb]. rewrite <- Hs.
  eapply prefix_bind;
    [reflexivity | apply every_print; reflexivity | cbv beta].
  eapply prefix_bind;
    [apply analysis_pass_returns | apply analysis_pass_quiet | cbv beta].
  do 2 (eapply prefix_bind;
        [apply print_stats_returns; assumption
        | apply print_stats_quiet | cbv beta]).
  eapply prefix_bind;
    [unfold Np.reduce_nonempty; rewrite diff_size; reflexivity
    | unfold Np.reduce_nonempty; rewrite diff_size; apply every_ret
    | cbv beta].
  repeat (eapply prefix_bind;
          [reflexivity | apply every_print; reflexivity | cbv beta]).
  rewrite (is_grid_size a Ha), (is_grid_size b Hb).
  repeat (eapply prefix_bind;
          [reflexivity | apply every_print; reflexivity | cbv beta]).
  exists []; split; [constructor|].
  fold restricted. rewrite trace_bind, restricted_block_result.
  cbn [app]. f_equal.
  destruct restricted_passes; [reflexivity|].
  destruct (Np.array_equal a b); run; [reflexivity|].
  destruct (Np.allclose tol tol _ _); run; [reflexivity|].
  rewrite report_differences_returns. apply app_nil_r.
Qed.

End Comparison.

(** ** Full comparison against restricted comparison *)

Lemma allclose_cell (tol : F16.t) (a b : Np.ndarray F16.t) (c : coord) :
  Np.shape a = Np.shape b ->
  Np.allclose tol tol (Np.data a) (Np.data b) = true ->
  Grid.cell_matches tol a b c = true.
Proof.
  intros Hs H. destruct c as [[[batch_id x] y] r].
  unfold Grid.cell_matches, Grid.cell_values, Grid.channels, Grid.width.
  rewrite <- Hs. unfold Np.allclose in *.
  rewrite <- combine_firstn, <- combine_skipn.
  apply forallb_firstn, forallb_skipn, H.
Qed.

Lemma array_equal_allclose (tol : F16.t) (a b : Np.ndarray F16.t) :
  Grid.tolerance_ok tol = true ->
  Np.array_equal a b = true ->
  Np.allclose tol tol (Np.data a) (Np.data b) = true.
Proof.
  intros Ht H. apply andb_true_iff in H as [_ H].
  unfold Np.allclose. rewrite forallb_forall in *.
  intros p Hp. apply eqb_isclose; auto.
Qed.

(** When some eligible cell of the window is over the tolerance, neither
    test of the full comparison holds. *)
Lemma restricted_failure_is_full_failure (window : nat) (tol : F16.t)
    (a b : Np.ndarray F16.t) (coords : list coord) :
  Grid.tolerance_ok tol = true ->
  Np.shape a = Np.shape b ->
  Grid.matched window tol a b coords <> Grid.checked window a coords ->
  Np.array_equal a b = false /\
  Np.allclose tol tol (Np.data a) (Np.data b) = false.
Proof.
  intros Ht Hs Hne.
  assert (Hc : Np.allclose tol tol (Np.data a) (Np.data b) = false).
  { destruct (Np.allclose tol tol (Np.data a) (Np.data b)) eqn:E; auto.
    exfalso; apply Hne. unfold Grid.matched, Grid.checked.
    apply (filter_and_length (Grid.eligible a) (Grid.cell_matches tol a b)).
    intros c _ _. apply allclose_cell; assumption. }
  split; auto.
  destruct (Np.array_equal a b) eqn:E; auto.
  rewrite (array_equal_allclose tol a b Ht E) in Hc; discriminate.
Qed.

Lemma matched_le_checked (window : nat) (tol : F16.t)
    (a b : Np.ndarray F16.t) (coords : list coord) :
  Grid.matched window tol a b coords <= Grid.checked window a coords.
Proof.
  apply (filter_and_length (Grid.eligible a) (Grid.cell_matches tol a b)).
Qed.

(** C2.  With a coordinate table (and the debug mode that carries the
    window), the outcome of [compare_arrays] is the outcome of the
    restricted comparison: a pass iff every eligible cell of the window
    matches.  When the restricted comparison fails, [compare_arrays]
    fails: the tests of the full comparison that follow cannot pass. *)
Theorem overall_outcome_is_restricted (cfg : Check.config)
    (a b : Np.ndarray F16.t) (name1 name2 : string) (tol : F16.t)
    (coords : list coord) :
  Check.DEBUG_MODE cfg = true ->
  Grid.tolerance_ok tol = true ->
  Grid.is_grid a = true -> Grid.is_grid b = true ->
  Np.shape a = Np.shape b ->
  let matched := Grid.matched (Check.DEBUG_MAX_PILLARS cfg) tol a b coords in
  let checked := Grid.checked (Check.DEBUG_MAX_PILLARS cfg) a coords in
  let overall :=
    Py.result (Check.compare_arrays cfg a b name1 name2 tol (Some coords)) in
  overall = Py.result (Check.compare_restricted cfg a b tol coords) /\
  overall = Return (matched =? checked) /\
  (matched < checked ->
   overall = Return false /\
   Np.array_equal a b = false /\
   Np.allclose tol tol (Np.data a) (Np.data b) = false).
Proof.
  intros Hd Ht Ha Hb Hs matched checked overall.
  assert (E : overall = Return (matched =? checked)).
  { subst overall. rewrite compare_arrays_result by assumption.
    rewrite Hd. fold matched checked.
    destruct (matched =? checked) eqn:Em; [reflexivity|].
    apply Nat.eqb_neq in Em.
    destruct (restricted_failure_is_full_failure _ tol a b coords Ht Hs Em)
      as [-> ->]. reflexivity. }
  split; [|split]; auto.
  - rewrite E, compare_restricted_result by assumption. reflexivity.
  - intros Hlt. rewrite E.
    assert (Hne : matched <> checked) by lia.
    split; [|exact (restricted_failure_is_full_failure _ tol a b coords Ht Hs Hne)].
    apply Nat.eqb_neq in Hne. rewrite Hne. reflexivity.
Qed.

Lemma overall_outcome_is_restricted_witness :
  Check.DEBUG_MODE Check.module_config = true /\
  Grid.tolerance_ok Check.default_tolerance = true /\
  Grid.is_grid (Sample.unit_grid Sample.one) = true /\
  Grid.is_grid (Sample.unit_grid Sample.two) = true /\
  Py.result
    (Check.compare_arrays Check.module_config
       (Sample.unit_grid Sample.one) (Sample.unit_grid Sample.two)
       "output" "reference" Check.default_tolerance (Some Sample.origin)) =
  Return false.
Proof.
  do 4 (split; [reflexivity|]).
  pose proof (overall_outcome_is_restricted Check.module_config
                (Sample.unit_grid Sample.one) (Sample.unit_grid Sample.two)
                "output" "reference" Check.default_tolerance Sample.origin
                eq_refl eq_refl eq_refl eq_refl eq_refl) as T.
  cbv zeta in T. destruct T as (_ & _ & T).
  apply T. vm_compute. lia.
Defined.

(** ** The verdict lines of a comparison *)

Lemma quiet_not_in (pre : list event) (ev : event) :
  Forall (fun e => verdict_line e = false) pre ->
  verdict_line ev = true -> ~ In ev pre.
Proof.
  intros H Hv Hin. rewrite Forall_forall in H.
  specialize (H ev Hin). congruence.
Qed.

Lemma report_differences_no_equality (a b : Np.ndarray F16.t)
    (diff : list F16.t) (tol : F16.t) (ev : event) :
  ev = Out L_exact \/ ev = Out (L_within_tolerance tol)
    \/ ev = Out L_restricted_ok ->
  ~ In ev (Py.trace (Check.report_differences a b diff tol)).
Proof.
  intros Hev Hin.
  pose proof (report_differences_trace a b diff tol) as H.
  unfold Py.every in H. rewrite Forall_forall in H.
  destruct (H ev Hin) as (H1 & H2 & H3).
  destruct Hev as [E|[E|E]]; auto.
Qed.

(** C1, as the code has it.  The restricted comparison passes iff
    [matched == checked]: the success line is printed exactly then, and
    [compare_arrays] then returns [True].  A window without any eligible
    record has [0 == 0] and passes like any other; no outcome of its own
    exists for it. *)
Theorem restricted_pass_iff_all_matched (cfg : Check.config)
    (a b : Np.ndarray F16.t) (name1 name2 : string) (tol : F16.t)
    (coords : list coord) :
  Check.DEBUG_MODE cfg = true ->
  Grid.is_grid a = true -> Grid.is_grid b = true ->
  Np.shape a = Np.shape b ->
  let matched := Grid.matched (Check.DEBUG_MAX_PILLARS cfg) tol a b coords in
  let checked := Grid.checked (Check.DEBUG_MAX_PILLARS cfg) a coords in
  let run := Check.compare_arrays cfg a b name1 name2 tol (Some coords) in
  (Py.result (Check.compare_restricted cfg a b tol coords) = Return true
   <-> matched = checked) /\
  In (Out (L_match_rate matched checked)) (Py.trace run) /\
  (In (Out L_restricted_ok) (Py.trace run) <-> matched = checked) /\
  (matched = checked -> Py.result run = Return true) /\
  (checked = 0 -> Py.result run = Return true).
Proof.
  intros Hd Ha Hb Hs matched checked run.
  assert (Hres : Py.result run =
                 Return ((matched =? checked) || Np.array_equal a b
                         || Np.allclose tol tol (Np.data a) (Np.data b))).
  { subst run. rewrite compare_arrays_result by assumption.
    rewrite Hd. reflexivity. }
  destruct (compare_arrays_trace cfg a b name1 name2 tol (Some coords)
              Ha Hb Hs) as (pre & Hpre & Et).
  destruct (compare_restricted_trace cfg a b tol Ha Hb Hs coords)
    as (pre' & Hpre' & Et').
  rewrite Hd in Et. rewrite Et' in Et. fold matched checked run in Et.
  assert (Hpass : matched = checked -> Py.result run = Return true).
  { intros E. apply Nat.eqb_eq in E. rewrite Hres, E. reflexivity. }
  split; [|split; [|split; [|split]]]; auto.
  - rewrite compare_restricted_result by assumption.
    fold matched checked. split.
    + intros E; injection E as E; apply Nat.eqb_eq; exact E.
    + intros E; apply Nat.eqb_eq in E; rewrite E; reflexivity.
  - rewrite Et. apply in_or_app; right. apply in_or_app; left.
    apply in_or_app; right. left; reflexivity.
  - rewrite Et. split.
    + intros Hin. destruct (matched =? checked) eqn:E;
        [apply Nat.eqb_eq; exact E|exfalso].
      apply in_app_or in Hin as [Hin|Hin];
        [revert Hin; apply quiet_not_in; auto|].
      apply in_app_or in Hin as [Hin|Hin].
      * apply in_app_or in Hin as [Hin|Hin];
          [revert Hin; apply quiet_not_in; auto|].
        destruct Hin as [Hin|[]]; discriminate.
      * destruct (Np.array_equal a b);
          [destruct Hin as [Hin|[]]; discriminate|].
        destruct (Np.allclose tol tol _ _);
          [destruct Hin as [Hin|[]]; discriminate|].
        revert Hin. apply report_differences_no_equality; auto.
    + intros E. apply Nat.eqb_eq in E. rewrite E.
      apply in_or_app; right. apply in_or_app; left.
      apply in_or_app; right. right; left; reflexivity.
  - intros E. apply Hpass.
    pose proof (matched_le_checked (Check.DEBUG_MAX_PILLARS cfg) tol a b
                  coords). subst matched checked. lia.
Qed.

Lemma restricted_pass_iff_all_matched_witness :
  Check.DEBUG_MODE Check.module_config = true /\
  Grid.is_grid (Sample.unit_grid Sample.one) = true /\
  Grid.is_grid (Sample.unit_grid Sample.two) = true /\
  Py.result
    (Check.compare_arrays Check.module_config
       (Sample.unit_grid Sample.one) (Sample.unit_grid Sample.two)
       "output" "reference" Check.default_tolerance
       (Some Sample.other_batch)) = Return true.
Proof.
  do 3 (split; [reflexivity|]).
  pose proof (restricted_pass_iff_all_matched Check.module_config
                (Sample.unit_grid Sample.one) (Sample.unit_grid Sample.two)
                "output" "reference" Check.default_tolerance
                Sample.other_batch eq_refl eq_refl eq_refl eq_refl) as T.
  cbv zeta in T. destruct T as (_ & _ & _ & _ & T).
  apply T. reflexivity.
Defined.

(** C1, as the claim has it, fails: one record of another batch leaves
    nothing to check, the two grids differ, and the comparison passes. *)
Lemma no_eligible_cells_passes :
  let a := Sample.unit_grid Sample.one in
  let b := Sample.unit_grid Sample.two in
  let window := Check.DEBUG_MAX_PILLARS Check.module_config in
  let tol := Check.default_tolerance in
  let run :=
    Check.compare_arrays Check.module_config a b "output" "reference" tol
      (Some Sample.other_batch) in
  Grid.checked window a Sample.other_batch = 0 /\
  Py.result run = Return true /\
  ~ (Py.result run = Return true <->
     Grid.matched window tol a b Sample.other_batch =
     Grid.checked window a Sample.other_batch /\
     0 < Grid.checked window a Sample.other_batch).
Proof.
  cbv zeta.
  assert (E0 : Grid.checked (Check.DEBUG_MAX_PILLARS Check.module_config)
                 (Sample.unit_grid Sample.one) Sample.other_batch = 0)
    by reflexivity.
  assert (E1 : Py.result
                 (Check.compare_arrays Check.module_config
                    (Sample.unit_grid Sample.one)
                    (Sample.unit_grid Sample.two) "output" "reference"
                    Check.default_tolerance (Some Sample.other_batch)) =
               Return true) by (vm_compute; reflexivity).
  split; [exact E0|]. split; [exact E1|].
  intros [H _]. destruct (H E1) as [_ Hpos]. rewrite E0 in Hpos. lia.
Qed.

(** ** The full comparison *)

Lemma data_length_same_shape {A} (a b : Np.ndarray A) :
  Grid.is_grid a = true -> Grid.is_grid b = true ->
  Np.shape a = Np.shape b ->
  length (Np.data a) = length (Np.data b).
Proof.
  unfold Grid.is_grid, Grid.wf, Np.size. intros Ha Hb Hs.
  apply andb_true_iff in Ha as [Ha _]. apply andb_true_iff in Ha as [_ Ha].
  apply andb_true_iff in Hb as [Hb _]. apply andb_true_iff in Hb as [_ Hb].
  apply Nat.eqb_eq in Ha, Hb. rewrite Ha, Hb, Hs. reflexivity.
Qed.

(** On finite values, [np.allclose] is the tolerance rule on every pair. *)
Lemma allclose_finite (tol : F16.t) (xs ys : list F16.t) :
  length xs = length ys ->
  forallb F16.isfinite xs = true -> forallb F16.isfinite ys = true ->
  (Np.allclose tol tol xs ys = true <->
   Forall2 (fun x y => Np.within_tol tol tol x y = true) xs ys).
Proof.
  revert ys; induction xs as [|x xs IH]; intros [|y ys] Hl Hx Hy;
    try discriminate.
  - split; [constructor|reflexivity].
  - simpl in Hl, Hx, Hy. injection Hl as Hl.
    apply andb_true_iff in Hx as [Fx Hx]. apply andb_true_iff in Hy as [Fy Hy].
    unfold Np.allclose in *. simpl. unfold Np.isclose at 1.
    rewrite Fx, Fy. simpl. rewrite andb_true_iff, (IH ys Hl Hx Hy).
    split.
    + intros [H1 H2]; constructor; assumption.
    + intros H; inversion H; subst; split; assumption.
Qed.

(** Without coordinates, exact equality ends the call. *)
Lemma exact_equality_ends (cfg : Check.config) (a b : Np.ndarray F16.t)
    (name1 name2 : string) (tol : F16.t) :
  Grid.is_grid a = true -> Grid.is_grid b = true ->
  Np.shape a = Np.shape b ->
  Np.array_equal a b = true ->
  let run := Check.compare_arrays cfg a b name1 name2 tol None in
  Py.result run = Return true /\
  In (Out L_exact) (Py.trace run) /\
  ~ In (Out (L_within_tolerance tol)) (Py.trace run).
Proof.
  intros Ha Hb Hs E run. subst run.
  destruct (compare_arrays_trace cfg a b name1 name2 tol None Ha Hb Hs)
    as (pre & Hpre & Et).
  rewrite compare_arrays_result, Et, E by assumption.
  destruct (Check.DEBUG_MODE cfg); cbn [Py.trace Py.ret snd app orb].
  all: split; [reflexivity|]; split;
    [apply in_or_app; right; left; reflexivity|].
  all: intros Hin; apply in_app_or in Hin as [Hin|Hin];
    [revert Hin; apply quiet_not_in; auto
    |destruct Hin as [Hin|[]]; discriminate].
Qed.

(** C3, as the code has it.  The full comparison tests exact equality
    first; when it holds, that is reported and the call returns without
    testing the tolerance.  Only when exact equality fails is the
    tolerance tested, and its result is then the outcome.  On finite
    values that test holds iff every pair satisfies
    [|a - b| <= abs_tol + rel_tol * |b|]. *)
Theorem full_comparison_tests_in_order (cfg : Check.config)
    (a b : Np.ndarray F16.t) (name1 name2 : string) (tol : F16.t) :
  Grid.is_grid a = true -> Grid.is_grid b = true ->
  Np.shape a = Np.shape b ->
  let run := Check.compare_arrays cfg a b name1 name2 tol None in
  let tolerant := Np.allclose tol tol (Np.data a) (Np.data b) in
  (Np.array_equal a b = true ->
   Py.result run = Return true /\
   In (Out L_exact) (Py.trace run) /\
   ~ In (Out (L_within_tolerance tol)) (Py.trace run)) /\
  (Np.array_equal a b = false ->
   Py.result run = Return tolerant /\
   ~ In (Out L_exact) (Py.trace run) /\
   (In (Out (L_within_tolerance tol)) (Py.trace run) <-> tolerant = true)) /\
  (Grid.all_finite a = true -> Grid.all_finite b = true ->
   (tolerant = true <->
    Forall2 (fun x y => Np.within_tol tol tol x y = true)
      (Np.data a) (Np.data b))).
Proof.
  intros Ha Hb Hs run tolerant.
  assert (Hres : Py.result run = Return (Np.array_equal a b || tolerant)).
  { subst run. rewrite compare_arrays_result by assumption.
    destruct (Check.DEBUG_MODE cfg); reflexivity. }
  destruct (compare_arrays_trace cfg a b name1 name2 tol None Ha Hb Hs)
    as (pre & Hpre & Et).
  assert (Et' : Py.trace run =
                pre ++
                (if Np.array_equal a b then [Out L_exact]
                 else if tolerant then [Out (L_within_tolerance tol)]
                 else Py.trace
                        (Check.report_differences a b
                           (Np.abs_diff (Np.data a) (Np.data b)) tol))).
  { subst run. rewrite Et. destruct (Check.DEBUG_MODE cfg); reflexivity. }
  clear Et. split; [|split].
  - intros E. exact (exact_equality_ends cfg a b name1 name2 tol Ha Hb Hs E).
  - intros E. rewrite Hres, Et', E. split; [reflexivity|]. split.
    + intros Hin. apply in_app_or in Hin as [Hin|Hin].
      * revert Hin; apply quiet_not_in; auto.
      * destruct tolerant; [destruct Hin as [Hin|[]]; discriminate|].
        revert Hin. apply report_differences_no_equality; auto.
    + split.
      * intros Hin. destruct tolerant; [reflexivity|exfalso].
        apply in_app_or in Hin as [Hin|Hin].
        -- revert Hin; apply quiet_not_in; auto.
        -- revert Hin. apply report_differences_no_equality; auto.
      * intros ->. apply in_or_app; right; left; reflexivity.
  - intros Fa Fb. apply allclose_finite; auto.
    apply data_length_same_shape; assumption.
Qed.

Lemma full_comparison_tests_in_order_witness :
  Grid.is_grid (Sample.unit_grid Sample.one) = true /\
  Grid.is_grid (Sample.unit_grid Sample.two) = true /\
  Py.result
    (Check.compare_arrays Check.module_config
       (Sample.unit_grid Sample.one) (Sample.unit_grid Sample.two)
       "output" "reference" Check.default_tolerance None) =
  Return
    (Np.allclose Check.default_tolerance Check.default_tolerance
       [Sample.one] [Sample.two]).
Proof.
  do 2 (split; [reflexivity|]).
  pose proof (full_comparison_tests_in_order Check.module_config
                (Sample.unit_grid Sample.one) (Sample.unit_grid Sample.two)
                "output" "reference" Check.default_tolerance
                eq_refl eq_refl eq_refl) as T.
  cbv zeta in T. destruct T as (_ & T & _).
  apply T. reflexivity.
Defined.

(** C3, as the claim has it, fails: a grid compared with itself is
    within tolerance, yet the call stops at exact equality and no line of
    its report states the tolerance fact. *)
Lemma tolerance_not_tested_after_exact :
  let a := Sample.unit_grid Sample.one in
  let tol := Check.default_tolerance in
  let run :=
    Check.compare_arrays Check.module_config a a "output" "reference" tol
      None in
  Np.array_equal a a = true /\
  Np.allclose tol tol (Np.data a) (Np.data a) = true /\
  In (Out L_exact) (Py.trace run) /\
  ~ In (Out (L_within_tolerance tol)) (Py.trace run).
Proof.
  cbv zeta. split; [reflexivity|]. split; [reflexivity|]. split.
  - vm_compute. intuition.
  - vm_compute. intuition discriminate.
Qed.

(** ** Shape mismatch *)

(** C6.  On two arrays of different shapes [compare_arrays] returns
    [False] after the heading and the three lines that show the two
    shapes; nothing else is printed, so no statistic, no difference and no
    verdict, and nothing in the result depends on the elements. *)
Theorem shape_mismatch_aborts (cfg : Check.config)
    (a b : Np.ndarray F16.t) (name1 name2 : string) (tol : F16.t)
    (coords : option (list coord)) :
  Np.shape a <> Np.shape b ->
  Check.compare_arrays cfg a b name1 name2 tol coords =
  (Return false,
   [Out L_rule; Out (L_compare_title name1 name2); Out L_rule;
    Out L_shape_mismatch;
    Out (L_shape_of name1 (Np.shape a));
    Out (L_shape_of name2 (Np.shape b))]) /\
  ~ In (Out L_max_diff)
      (Py.trace (Check.compare_arrays cfg a b name1 name2 tol coords)) /\
  ~ In (Out L_mean_diff)
      (Py.trace (Check.compare_arrays cfg a b name1 name2 tol coords)).
Proof.
  intros Hne.
  assert (E : Np.shape_eqb (Np.shape a) (Np.shape b) = false).
  { destruct (Np.shape_eqb (Np.shape a) (Np.shape b)) eqn:E; auto.
    apply shape_eqb_eq in E. contradiction. }
  assert (Hrun : Check.compare_arrays cfg a b name1 name2 tol coords =
                 (Return false,
                  [Out L_rule; Out (L_compare_title name1 name2); Out L_rule;
                   Out L_shape_mismatch;
                   Out (L_shape_of name1 (Np.shape a));
                   Out (L_shape_of name2 (Np.shape b))])).
  { unfold Check.compare_arrays. rewrite E. reflexivity. }
  rewrite Hrun. split; [reflexivity|].
  split; simpl; intuition discriminate.
Qed.

Lemma shape_mismatch_aborts_witness :
  Np.shape (Sample.unit_grid Sample.one) <>
  Np.shape (Sample.flat_grid Sample.one) /\
  Py.result
    (Check.compare_arrays Check.module_config
       (Sample.unit_grid Sample.one) (Sample.flat_grid Sample.one)
       "output" "reference" Check.default_tolerance None) = Return false.
Proof.
  assert (H : Np.shape (Sample.unit_grid Sample.one) <>
              Np.shape (Sample.flat_grid Sample.one)) by discriminate.
  split; [exact H|].
  destruct (shape_mismatch_aborts Check.module_config
              (Sample.unit_grid Sample.one) (Sample.flat_grid Sample.one)
              "output" "reference" Check.default_tolerance None H) as [E _].
  rewrite E. reflexivity.
Defined.

(** ** A grid against itself *)

Lemma array_equal_refl (a : Np.ndarray F16.t) :
  Grid.no_nan a = true -> Np.array_equal a a = true.
Proof.
  unfold Grid.no_nan, Np.array_equal. rewrite shape_eqb_refl; simpl.
  induction (Np.data a) as [|x l IH]; simpl; auto.
  intros H. apply andb_true_iff in H as [Hx Hl].
  apply negb_true_iff in Hx.
  rewrite (eqb_refl_not_nan x Hx), (IH Hl). reflexivity.
Qed.

(** C7, as the code has it.  A grid without NaN compared with itself is
    exactly equal: the call reports it and returns [True], whatever the
    tolerance. *)
Theorem self_comparison_exact (cfg : Check.config) (a : Np.ndarray F16.t)
    (name1 name2 : string) (tol : F16.t) :
  Grid.is_grid a = true -> Grid.no_nan a = true ->
  let run := Check.compare_arrays cfg a a name1 name2 tol None in
  Np.array_equal a a = true /\
  Py.result run = Return true /\
  In (Out L_exact) (Py.trace run).
Proof.
  intros Ha Hn run.
  pose proof (array_equal_refl a Hn) as E.
  destruct (exact_equality_ends cfg a a name1 name2 tol Ha Ha eq_refl E)
    as (H1 & H2 & _).
  auto.
Qed.

Lemma self_comparison_exact_witness :
  Grid.is_grid (Sample.flat_grid Sample.one) = true /\
  Grid.no_nan (Sample.flat_grid Sample.one) = true /\
  Py.result
    (Check.compare_arrays Check.module_config
       (Sample.flat_grid Sample.one) (Sample.flat_grid Sample.one)
       "output" "reference" Check.default_tolerance None) = Return true.
Proof.
  do 2 (split; [reflexivity|]).
  apply (self_comparison_exact Check.module_config
           (Sample.flat_grid Sample.one) "output" "reference"
           Check.default_tolerance eq_refl eq_refl).
Defined.

(** C7, as the claim has it, fails: a NaN equals nothing, itself
    included, so a grid that holds one is not exactly equal to itself, and
    the comparison of the grid with itself fails. *)
Lemma nan_grid_differs_from_itself :
  let a := Sample.unit_grid S754_nan in
  Grid.is_grid a = true /\
  Np.array_equal a a = false /\
  Py.result
    (Check.compare_arrays Check.module_config a a "output" "reference"
       Check.default_tolerance None) = Return false.
Proof. cbv zeta. repeat split; vm_compute; reflexivity. Qed.

(** ** Eligible records *)

Lemma eligible_iff {A} (a : Np.ndarray A) (batch_id x y r : N) :
  Grid.eligible a (batch_id, x, y, r) = true <->
  batch_id = 0%N /\ (x < N.of_nat (Grid.width a))%N
  /\ (y < N.of_nat (Grid.height a))%N.
Proof.
  unfold Grid.eligible.
  rewrite !andb_true_iff, N.eqb_eq, !N.ltb_lt. tauto.
Qed.

Lemma checked_padded {A} (window : nat) (a : Np.ndarray A) :
  3 <= window ->
  5 < Grid.height a -> 5 < Grid.width a ->
  (N.of_nat (Grid.width a) <= 10000)%N ->
  Grid.checked window a Sample.padded = 1.
Proof.
  intros Hw Hh H5 H10. unfold Grid.checked.
  rewrite firstn_all2 by exact Hw.
  assert (E1 : Grid.eligible a (0, 5, 5, 0)%N = true)
    by (apply eligible_iff; lia).
  assert (E2 : Grid.eligible a (1, 3, 3, 0)%N = false) by reflexivity.
  assert (E3 : Grid.eligible a (0, 10000, 2, 0)%N = false).
  { destruct (Grid.eligible a (0, 10000, 2, 0)%N) eqn:E; auto.
    apply eligible_iff in E. lia. }
  unfold Sample.padded. cbn [filter]. rewrite E1, E2, E3. reflexivity.
Qed.

(** C5.  The loop of the restricted comparison counts, among the records
    of the window, exactly the eligible ones in [total_checked] and
    exactly the eligible ones whose cell matches in [match_count], a
    record being eligible iff its batch is 0, its [x] is below the width
    and its [y] below the height.  For the three sample records only the
    first is eligible, so one cell is checked, whatever the grids hold. *)
Theorem restricted_counts_only_eligible (cfg : Check.config)
    (a b : Np.ndarray F16.t) (tol : F16.t) (coords : list coord) :
  Grid.is_grid a = true -> Grid.is_grid b = true ->
  Np.shape a = Np.shape b ->
  let window := Check.DEBUG_MAX_PILLARS cfg in
  Py.result
    (Py.foldM (Check.compare_position a b tol)
       (Py.enumerate (firstn window coords)) (0, 0)) =
  Return
    (length (filter (fun c => Grid.eligible a c && Grid.cell_matches tol a b c)
               (firstn window coords)),
     length (filter (Grid.eligible a) (firstn window coords))) /\
  (forall batch_id x y r,
     Grid.eligible a (batch_id, x, y, r) = true <->
     batch_id = 0%N /\ (x < N.of_nat (Grid.width a))%N
     /\ (y < N.of_nat (Grid.height a))%N) /\
  In (Out (L_match_rate (Grid.matched window tol a b coords)
             (Grid.checked window a coords)))
     (Py.trace (Check.compare_restricted cfg a b tol coords)) /\
  (3 <= window ->
   5 < Grid.height a -> 5 < Grid.width a ->
  (N.of_nat (Grid.width a) <= 10000)%N ->
   Grid.checked window a Sample.padded = 1 /\
   exists matched,
     Py.result
       (Py.foldM (Check.compare_position a b tol)
          (Py.enumerate (firstn window Sample.padded)) (0, 0)) =
     Return (matched, 1)).
Proof.
  intros Ha Hb Hs window. split; [|split; [|split]].
  - apply (restricted_loop_counts cfg a b tol Ha Hb Hs coords).
  - intros. apply eligible_iff.
  - destruct (compare_restricted_trace cfg a b tol Ha Hb Hs coords)
      as (pre & _ & ->).
    apply in_or_app; right; left; reflexivity.
  - intros Hw Hh H5 H10.
    pose proof (checked_padded window a Hw Hh H5 H10) as E.
    split; [exact E|].
    exists (Grid.matched window tol a b Sample.padded).
    rewrite <- E. apply (restricted_loop_counts cfg a b tol Ha Hb Hs).
Qed.

Lemma restricted_counts_only_eligible_witness :
  Grid.is_grid (Sample.flat_grid Sample.one) = true /\
  Grid.is_grid (Sample.flat_grid Sample.two) = true /\
  3 <= Check.DEBUG_MAX_PILLARS Check.module_config /\
  5 < Grid.height (Sample.flat_grid Sample.one) /\
  5 < Grid.width (Sample.flat_grid Sample.one) /\
  (N.of_nat (Grid.width (Sample.flat_grid Sample.one)) <= 10000)%N /\
  Grid.checked (Check.DEBUG_MAX_PILLARS Check.module_config)
    (Sample.flat_grid Sample.one) Sample.padded = 1.
Proof.
  assert (Hw : 3 <= Check.DEBUG_MAX_PILLARS Check.module_config)
    by (vm_compute; repeat constructor).
  assert (Hh : 5 < Grid.height (Sample.flat_grid Sample.one))
    by (vm_compute; repeat constructor).
  assert (H5 : 5 < Grid.width (Sample.flat_grid Sample.one))
    by (vm_compute; repeat constructor).
  assert (H10 : (N.of_nat (Grid.width (Sample.flat_grid Sample.one))
                 <= 10000)%N) by (vm_compute; discriminate).
  do 2 (split; [reflexivity|]).
  repeat (split; [assumption|]).
  pose proof (restricted_counts_only_eligible Check.module_config
                (Sample.flat_grid Sample.one) (Sample.flat_grid Sample.two)
                Check.default_tolerance [] eq_refl eq_refl eq_refl) as T.
  cbv zeta in T. destruct T as (_ & _ & _ & T).
  apply (T Hw Hh H5 H10).
Defined.

(** ** The coordinate file *)

Lemma list_ind4 {A} (P : list A -> Prop) :
  P [] -> (forall a, P [a]) -> (forall a b, P [a; b]) ->
  (forall a b c, P [a; b; c]) ->
  (forall a b c d l, P l -> P (a :: b :: c :: d :: l)) ->
  forall l, P l.
Proof.
  intros H0 H1 H2 H3 H4 l.
  assert (H : P l /\ (forall a, P (a :: l)) /\ (forall a b, P (a :: b :: l))
              /\ (forall a b c, P (a :: b :: c :: l))).
  { induction l as [|x l (I0 & I1 & I2 & I3)]; auto. }
  apply H.
Qed.

Lemma u32s_length (bs : list byte) : length (Np.u32s bs) = length bs / 4.
Proof.
  induction bs as [| | | |b0 b1 b2 b3 bs IH] using list_ind4;
    try reflexivity.
  cbn [Np.u32s length]. rewrite IH.
  change (S (S (S (S (length bs))))) with (4 + length bs).
  replace (4 + length bs) with (length bs + 1 * 4) by lia.
  rewrite Nat.div_add by discriminate. lia.
Qed.

(** Reshaping to rows of 4 succeeds exactly on a multiple of 4. *)
Lemma rows4_run {A} (l : list A) :
  (length l mod 4 = 0 ->
   exists rows, Np.rows4 l = (Return rows, []) /\ length rows = length l / 4)
  /\ (length l mod 4 <> 0 -> Np.rows4 l = (Raise ValueError, [])).
Proof.
  induction l as [| | | |a b c d l [IH1 IH2]] using list_ind4;
    try (split; [discriminate|reflexivity]).
  - split; [|intros H; contradiction H; reflexivity].
    intros _. exists []. split; reflexivity.
  - assert (Em : length (a :: b :: c :: d :: l) mod 4 = length l mod 4).
    { cbn [length]. change (S (S (S (S (length l))))) with (4 + length l).
      replace (4 + length l) with (length l + 1 * 4) by lia.
      apply Nat.Div0.mod_add. }
    assert (Ed : length (a :: b :: c :: d :: l) / 4 = S (length l / 4)).
    { cbn [length]. change (S (S (S (S (length l))))) with (4 + length l).
      replace (4 + length l) with (length l + 1 * 4) by lia.
      rewrite Nat.div_add by discriminate. lia. }
    rewrite Em, Ed. cbn [Np.rows4]. split.
    + intros H. destruct (IH1 H) as (rows & -> & Hl).
      exists ((a, b, c, d) :: rows). split; [reflexivity|].
      simpl. rewrite Hl. reflexivity.
    + intros H. rewrite (IH2 H). reflexivity.
Qed.

(** C9, as the code has it.  [load_coords_file] returns [None] for a
    file that does not exist and [None] again for a file whose count of
    32-bit words is not a multiple of 4; the two cases differ in the line
    printed, not in what the caller receives.  On any other file it
    returns the rows, one per 16 bytes. *)
Theorem load_coords_file_outcomes (fs : filesystem) (filename : path) :
  (fs filename = None ->
   Check.load_coords_file fs filename =
   (Return None, [IoExists filename; Out (L_coords_missing filename)])) /\
  (forall bs, fs filename = Some bs -> (length bs / 4) mod 4 <> 0 ->
   Check.load_coords_file fs filename =
   (Return None,
    [IoExists filename; IoFromFile filename UInt32;
     Out (L_coords_read_error filename ValueError)])) /\
  (forall bs, fs filename = Some bs -> (length bs / 4) mod 4 = 0 ->
   exists coords,
     Check.load_coords_file fs filename =
     (Return (Some coords), [IoExists filename; IoFromFile filename UInt32])
     /\ length coords = length bs / 4 / 4).
Proof.
  unfold Check.load_coords_file, Os.exists_, Np.fromfile_uint32.
  split; [|split].
  - intros ->. reflexivity.
  - intros bs -> Hm. rewrite <- u32s_length in Hm.
    cbn. rewrite (proj2 (rows4_run (Np.u32s bs)) Hm). reflexivity.
  - intros bs -> Hm. rewrite <- u32s_length in Hm.
    destruct (proj1 (rows4_run (Np.u32s bs)) Hm) as (rows & E & Hl).
    exists rows. split.
    + cbn. rewrite E. reflexivity.
    + transitivity (length (Np.u32s bs) / 4); [exact Hl|].
      rewrite u32s_length. reflexivity.
Qed.

Lemma load_coords_file_outcomes_witness :
  Sample.no_files Sample.coords_path = None /\
  Check.load_coords_file Sample.no_files Sample.coords_path =
  (Return None,
   [IoExists Sample.coords_path; Out (L_coords_missing Sample.coords_path)]).
Proof.
  split; [reflexivity|].
  apply (proj1 (load_coords_file_outcomes Sample.no_files Sample.coords_path)).
  reflexivity.
Defined.

(** C9, as the claim has it, fails: the caller receives the same value,
    [None], for a coordinate file that is missing and for one that is
    malformed. *)
Lemma missing_and_malformed_coords_alike :
  Sample.no_files Sample.coords_path = None /\
  Sample.short_coords Sample.coords_path = Some [x01; x00; x00; x00] /\
  Py.result (Check.load_coords_file Sample.no_files Sample.coords_path) =
  Return None /\
  Py.result (Check.load_coords_file Sample.short_coords Sample.coords_path) =
  Return None /\
  ~ (Py.result (Check.load_coords_file Sample.no_files Sample.coords_path) <>
     Py.result
       (Check.load_coords_file Sample.short_coords Sample.coords_path)).
Proof.
  repeat split; try reflexivity.
  intros H; apply H; reflexivity.
Qed.

(** ** The driver on identical files *)

Lemma rows4_trace {A} (l : list A) : Py.trace (Np.rows4 l) = [].
Proof.
  induction l as [| | | |a b c d l IH] using list_ind4; try reflexivity.
  cbn [Np.rows4]. rewrite trace_bind, IH.
  destruct (Py.result (Np.rows4 l)); reflexivity.
Qed.

Lemma load_coords_file_returns (fs : filesystem) (filename : path) :
  exists r, Py.result (Check.load_coords_file fs filename) = Return r.
Proof.
  unfold Check.load_coords_file, Os.exists_. run.
  destruct (fs filename); cbn [negb]; run; [|eexists; reflexivity].
  destruct (Py.result (Np.fromfile_uint32 fs filename)) as [a|e]; run;
    [destruct (Py.result (Np.rows4 a))|]; run; eexists; reflexivity.
Qed.

Lemma load_coords_file_no_grid (fs : filesystem) (filename : path) :
  Py.every (fun ev => grid_stage ev = false)
    (Check.load_coords_file fs filename).
Proof.
  unfold Check.load_coords_file, Os.exists_, Np.fromfile_uint32.
  every_tac.
  unfold Py.every. rewrite rows4_trace. constructor.
Qed.

(** One statement run: its value feeds the rest, its events come first. *)
Lemma step_bind {A B} (P : event -> Prop) (m : Py A) (k : A -> Py B)
    (a : A) (r : outcome B) (rest : list event) :
  Py.result m = Return a -> Py.every P m ->
  (Py.result (k a) = r /\
   exists pre, Forall P pre /\ Py.trace (k a) = pre ++ rest) ->
  Py.result (Py.bind m k) = r /\
  exists pre, Forall P pre /\ Py.trace (Py.bind m k) = pre ++ rest.
Proof.
  intros Hr Hm [Hk Hp]. split.
  - rewrite result_bind, Hr. exact Hk.
  - apply (prefix_bind P m k a rest Hr Hm Hp).
Qed.

Section Driver.

Variable cfg : Check.config.
Variable fs : filesystem.
Variable md5_hexdigest : list byte -> string.
Variable argv : list string.

Lemma coords_stage_runs :
  let stage :=
    (if Check.DEBUG_MODE cfg then
       coords_data <-
         Check.load_coords_file fs "./input/OpTest_scatter_input_coords.bin"%string;;
       match coords_data with
       | Some cs =>
           Py.print (L_coords_loaded [length cs; 4]);;
           Py.print (L_total_pillars (length cs));;
           Py.when (Check.DEBUG_MAX_PILLARS cfg <? length cs)
             (Py.print (L_debug_limit (Check.DEBUG_MAX_PILLARS cfg)))
       | None => Py.print L_coords_unavailable
       end;;
       Py.ret coords_data
     else Py.ret None) in
  (exists r, Py.result stage = Return r) /\
  Py.every (fun ev => grid_stage ev = false) stage.
Proof.
  cbv zeta. destruct (Check.DEBUG_MODE cfg).
  - split.
    + destruct (load_coords_file_returns fs
                  "./input/OpTest_scatter_input_coords.bin"%string) as [r E].
      run. rewrite E. destruct r as [cs|]; run.
      * rewrite when_returns by reflexivity. eexists; reflexivity.
      * eexists; reflexivity.
    + apply every_bind; [apply load_coords_file_no_grid|intros r _].
      every_tac.
  - split; [eexists; reflexivity|apply every_ret].
Qed.

(** When both files exist with one size and one digest, [main] returns 0
    right after the line that says so, having done no work on grids. *)
Lemma main_stops_at_equal_digests (output_file correct_file : path)
    (b1 b2 : list byte) :
  (if 3 <=? length argv
   then (nth 1 argv ""%string, nth 2 argv ""%string)
   else ("./output/OpTest_scatter_output_x.bin"%string,
         "./output/OpTest_scatter_output_x_correct.bin"%string)) =
  (output_file, correct_file) ->
  fs output_file = Some b1 -> fs correct_file = Some b2 ->
  length b1 = length b2 ->
  md5_hexdigest b1 = md5_hexdigest b2 ->
  Py.result (Check.main cfg fs md5_hexdigest argv) = Return 0 /\
  exists pre,
    Forall (fun ev => grid_stage ev = false) pre /\
    Py.trace (Check.main cfg fs md5_hexdigest argv) =
    pre ++ [Out L_md5_equal].
Proof.
  intros Hp H1 H2 Hlen Hmd5. unfold Check.main. rewrite Hp.
  eapply step_bind; [reflexivity|apply every_print; reflexivity|].
  eapply step_bind;
    [apply when_returns; reflexivity
    |apply every_when, every_print; reflexivity|].
  do 3 (eapply step_bind; [reflexivity|apply every_print; reflexivity|]).
  eapply step_bind;
    [unfold Os.exists_; rewrite H1; reflexivity
    |unfold Os.exists_; every_tac|].
  cbn [negb].
  eapply step_bind;
    [unfold Os.exists_; rewrite H2; reflexivity
    |unfold Os.exists_; every_tac|].
  cbn [negb].
  destruct coords_stage_runs as [[r Er] Hq]. cbv zeta in Er, Hq.
  eapply step_bind; [exact Er|exact Hq|].
  eapply step_bind;
    [unfold Os.getsize; rewrite H1; reflexivity
    |unfold Os.getsize; rewrite H1; every_tac|].
  eapply step_bind;
    [unfold Os.getsize; rewrite H2; reflexivity
    |unfold Os.getsize; rewrite H2; every_tac|].
  do 3 (eapply step_bind; [reflexivity|apply every_print; reflexivity|]).
  rewrite Hlen, Nat.eqb_refl. cbn [negb].
  eapply step_bind; [reflexivity|apply every_print; reflexivity|].
  eapply step_bind;
    [unfold Check.get_file_md5, Os.read_bytes; rewrite H1; reflexivity
    |unfold Check.get_file_md5, Os.read_bytes; rewrite H1; every_tac|].
  eapply step_bind;
    [unfold Check.get_file_md5, Os.read_bytes; rewrite H2; reflexivity
    |unfold Check.get_file_md5, Os.read_bytes; rewrite H2; every_tac|].
  do 2 (eapply step_bind; [reflexivity|apply every_print; reflexivity|]).
  rewrite Hmd5, String.eqb_refl.
  split; [reflexivity|]. exists []. split; [constructor|reflexivity].
Qed.

End Driver.

(** C10.  When the output file and the reference file hold the same
    bytes, [main] returns 0 (and the process exits with 0) right after
    the line that reports equal digests.  Up to there no grid file has
    been read as float16 and no line of the loading, reshaping or
    comparing stages has been printed: the layout, the dimensions and
    the coordinate file play no part. *)
Theorem identical_files_pass_before_loading (cfg : Check.config)
    (fs : filesystem) (md5_hexdigest : list byte -> string)
    (argv : list string) (output_file correct_file : path)
    (bs : list byte) :
  (if 3 <=? length argv
   then (nth 1 argv ""%string, nth 2 argv ""%string)
   else ("./output/OpTest_scatter_output_x.bin"%string,
         "./output/OpTest_scatter_output_x_correct.bin"%string)) =
  (output_file, correct_file) ->
  fs output_file = Some bs -> fs correct_file = Some bs ->
  let run := Check.main cfg fs md5_hexdigest argv in
  Py.result run = Return 0 /\
  Py.exit_status run = 0 /\
  Forall (fun ev => grid_stage ev = false) (Py.trace run) /\
  exists pre, Py.trace run = pre ++ [Out L_md5_equal].
Proof.
  intros Hp H1 H2 run.
  destruct (main_stops_at_equal_digests cfg fs md5_hexdigest argv
              output_file correct_file bs bs Hp H1 H2 eq_refl eq_refl)
    as (Hr & pre & Hpre & Et).
  fold run in Hr, Et. repeat split.
  - exact Hr.
  - unfold Py.exit_status. unfold Py.result in Hr. rewrite Hr. reflexivity.
  - rewrite Et. apply Forall_app. split; [exact Hpre|].
    constructor; [reflexivity|constructor].
  - exists pre. exact Et.
Qed.

Lemma identical_files_pass_before_loading_witness :
  Sample.twin_files Sample.output_path = Some [x00; x3c; x00; x40] /\
  Sample.twin_files Sample.correct_path = Some [x00; x3c; x00; x40] /\
  Py.exit_status
    (Check.main Check.module_config Sample.twin_files Sample.content_digest
       []) = 0.
Proof.
  do 2 (split; [reflexivity|]).
  apply (identical_files_pass_before_loading Check.module_config
           Sample.twin_files Sample.content_digest []
           Sample.output_path Sample.correct_path [x00; x3c; x00; x40]
           eq_refl eq_refl eq_refl).
Defined.

(** ** Indices of an array *)

Lemma in_bounds_ravel (s idx : list nat) :
  Np.in_bounds s idx = true -> Np.ravel s idx < Np.prod s.
Proof.
  revert idx; induction s as [|n s IH]; intros [|i idx]; simpl;
    try discriminate.
  - intros _. lia.
  - intros H. apply andb_true_iff in H as [Hi H].
    apply Nat.ltb_lt in Hi. specialize (IH idx H). nia.
Qed.

Lemma indices_length (s : list nat) :
  length (Np.indices s) = Np.prod s.
Proof.
  induction s as [|n s IH]; simpl; auto.
  rewrite (flat_map_constant_length (c := Np.prod s)).
  - rewrite length_seq. reflexivity.
  - intros i _. rewrite length_map. exact IH.
Qed.

Lemma in_indices (s idx : list nat) :
  In idx (Np.indices s) -> Np.in_bounds s idx = true.
Proof.
  revert idx; induction s as [|n s IH]; simpl; intros idx H.
  - destruct H as [<-|[]]. reflexivity.
  - apply in_flat_map in H as (i & Hi & H).
    apply in_map_iff in H as (idx' & <- & H).
    apply in_seq in Hi. simpl.
    rewrite (IH idx' H), andb_true_r. apply Nat.ltb_lt. lia.
Qed.

(** Looking into a concatenation of blocks of one length. *)
Lemma nth_error_blocks {B} (f : nat -> list B) (m : nat) :
  (forall j, length (f j) = m) ->
  forall n k i r, i < n -> r < m ->
  nth_error (flat_map f (seq k n)) (i * m + r) = nth_error (f (k + i)) r.
Proof.
  intros Hf n; induction n as [|n IH]; intros k i r Hi Hr; [lia|].
  cbn [seq flat_map]. destruct i as [|i].
  - rewrite nth_error_app1 by (rewrite Hf; lia).
    rewrite Nat.add_0_r. reflexivity.
  - rewrite nth_error_app2 by (rewrite Hf; lia).
    rewrite Hf. replace (S i * m + r - m) with (i * m + r) by lia.
    rewrite IH by lia. f_equal. f_equal. lia.
Qed.

(** The index stored at an offset is the index of that offset. *)
Lemma nth_error_indices (s idx : list nat) :
  Np.in_bounds s idx = true ->
  nth_error (Np.indices s) (Np.ravel s idx) = Some idx.
Proof.
  revert idx; induction s as [|n s IH]; intros [|i idx]; simpl;
    try discriminate.
  - reflexivity.
  - intros H. apply andb_true_iff in H as [Hi H]. apply Nat.ltb_lt in Hi.
    rewrite (nth_error_blocks (fun i => map (cons i) (Np.indices s))
               (Np.prod s)).
    + rewrite nth_error_map, (IH idx H). reflexivity.
    + intros j. rewrite length_map. apply indices_length.
    + exact Hi.
    + apply in_bounds_ravel, H.
Qed.

Lemma seq_blocks (m n k : nat) :
  flat_map (fun i => seq (i * m) m) (seq k n) = seq (k * m) (n * m).
Proof.
  revert k; induction n as [|n IH]; intros k; [reflexivity|].
  cbn [seq flat_map]. rewrite IH.
  replace (S n * m) with (m + n * m) by lia.
  rewrite seq_app. f_equal. f_equal. lia.
Qed.

Lemma flat_map_flat_map {A B C} (f : B -> list C) (g : A -> list B)
    (l : list A) :
  flat_map f (flat_map g l) = flat_map (fun a => flat_map f (g a)) l.
Proof.
  induction l as [|a l IH]; simpl; auto.
  rewrite flat_map_app, IH. reflexivity.
Qed.

Lemma flat_map_map {A B C} (f : B -> list C) (g : A -> B) (l : list A) :
  flat_map f (map g l) = flat_map (fun a => f (g a)) l.
Proof. induction l as [|a l IH]; simpl; auto. rewrite IH; reflexivity. Qed.

Lemma map_flat_map {A B C} (f : B -> C) (g : A -> list B) (l : list A) :
  map f (flat_map g l) = flat_map (fun a => map f (g a)) l.
Proof.
  induction l as [|a l IH]; simpl; auto.
  rewrite map_app, IH. reflexivity.
Qed.

Lemma flat_map_ext_in {A B} (f g : A -> list B) (l : list A) :
  (forall a, In a l -> f a = g a) -> flat_map f l = flat_map g l.
Proof.
  induction l as [|a l IH]; simpl; intros H; auto.
  rewrite (H a), IH; auto.
Qed.

Lemma map_add_seq (b k m : nat) :
  map (fun r => b + r) (seq k m) = seq (b + k) m.
Proof.
  revert k; induction m as [|m IH]; intros k; simpl; auto.
  rewrite IH. f_equal. f_equal. lia.
Qed.

(** The offsets of the indices, in order, are [0, 1, ...]. *)
Lemma ravel_indices (s : list nat) :
  map (Np.ravel s) (Np.indices s) = seq 0 (Np.prod s).
Proof.
  induction s as [|n s IH]; [reflexivity|].
  cbn [Np.indices Np.prod fold_right]. fold (Np.prod s).
  rewrite map_flat_map.
  rewrite (flat_map_ext_in _ (fun i => seq (i * Np.prod s) (Np.prod s))).
  - apply (seq_blocks (Np.prod s) n 0).
  - intros i _. rewrite map_map. cbn [Np.ravel].
    rewrite <- (map_map (Np.ravel s) (fun r => i * Np.prod s + r)), IH.
    rewrite map_add_seq, Nat.add_0_r. reflexivity.
Qed.

(** Reading an array at every index, in order, gives its elements. *)
Lemma read_all_indices {A} (s : list nat) (l : list A) :
  length l = Np.prod s ->
  flat_map
    (fun idx =>
       match nth_error l (Np.ravel s idx) with
       | Some v => [v]
       | None => []
       end)
    (Np.indices s) = l.
Proof.
  intros Hl.
  rewrite <- (flat_map_map
                (fun j => match nth_error l j with
                          | Some v => [v]
                          | None => []
                          end) (Np.ravel s)).
  rewrite ravel_indices, <- Hl. clear.
  assert (H : forall (pre : list A),
            flat_map
              (fun j => match nth_error (pre ++ l) j with
                        | Some v => [v]
                        | None => []
                        end) (seq (length pre) (length l)) = l).
  { induction l as [|a l IH]; intros pre; [reflexivity|].
    cbn [length seq flat_map].
    rewrite nth_error_app2, Nat.sub_diag by lia. cbn [nth_error app].
    f_equal. specialize (IH (pre ++ [a])).
    rewrite <- app_assoc, length_app in IH. cbn [length app] in IH.
    rewrite Nat.add_1_r in IH. exact IH. }
  apply (H []).
Qed.

(** Reading through total lookups: the element at an offset of the
    result is the lookup at the index of that offset. *)
Lemma nth_error_flat_map_total {A I} (F : I -> option A) (l : list I)
    (k : nat) :
  (forall i, In i l -> F i <> None) ->
  nth_error
    (flat_map (fun i => match F i with Some v => [v] | None => [] end) l) k =
  match nth_error l k with
  | Some i => F i
  | None => None
  end.
Proof.
  revert k; induction l as [|i l IH]; intros k H.
  - destruct k; reflexivity.
  - cbn [flat_map]. destruct (F i) as [v|] eqn:E.
    + destruct k as [|k]; cbn [app nth_error]; [symmetry; exact E|].
      apply IH. intros j Hj. apply H. right. exact Hj.
    + exfalso. apply (H i); [left; reflexivity|exact E].
Qed.

(** ** Transposition *)

Lemma in_bounds4 (a b c d : nat) (idx : list nat) :
  Np.in_bounds [a; b; c; d] idx = true <->
  exists i j k l, idx = [i; j; k; l] /\ i < a /\ j < b /\ k < c /\ l < d.
Proof.
  split.
  - destruct idx as [|i [|j [|k [|l [|? ?]]]]]; simpl;
      rewrite ?andb_false_r; try discriminate.
    rewrite !andb_true_iff, !Nat.ltb_lt. intros (Hi & Hj & Hk & Hl & _).
    exists i, j, k, l. auto.
  - intros (i & j & k & l & -> & Hi & Hj & Hk & Hl). simpl.
    rewrite !andb_true_iff, !Nat.ltb_lt. auto.
Qed.

Lemma get_in_bounds {A} (a : Np.ndarray A) (idx : list nat) :
  Grid.wf a = true -> Np.in_bounds (Np.shape a) idx = true ->
  Np.get a idx = nth_error (Np.data a) (Np.ravel (Np.shape a) idx) /\
  Np.get a idx <> None.
Proof.
  unfold Grid.wf, Np.get, Np.size. intros Hw Hb. rewrite Hb.
  split; [reflexivity|]. apply nth_error_Some.
  apply Nat.eqb_eq in Hw. rewrite Hw. apply in_bounds_ravel, Hb.
Qed.

Lemma flat_map_total_length {A I} (F : I -> option A) (l : list I) :
  (forall i, In i l -> F i <> None) ->
  length
    (flat_map (fun i => match F i with Some v => [v] | None => [] end) l) =
  length l.
Proof.
  induction l as [|i l IH]; intros H; [reflexivity|].
  cbn [flat_map]. rewrite length_app, IH by (intros j Hj; apply H; right; auto).
  destruct (F i) eqn:E; [reflexivity|].
  exfalso. apply (H i); [left; reflexivity|exact E].
Qed.

(** A transposition whose index map stays inside the array: the result
    has the permuted shape, is filled, and holds at each index the
    element of the source at the mapped index. *)
Lemma transpose_run {A} (a : Np.ndarray A) (axes : list nat) :
  Np.is_permutation axes (length (Np.shape a)) = true ->
  Grid.wf a = true ->
  (forall idx', Np.in_bounds (Np.permute axes (Np.shape a)) idx' = true ->
                Np.in_bounds (Np.shape a)
                  (Np.permute (Np.inverse axes) idx') = true) ->
  exists t,
    Np.transpose a axes = (Return t, []) /\
    Np.shape t = Np.permute axes (Np.shape a) /\
    Grid.wf t = true /\
    (forall idx', Np.in_bounds (Np.shape t) idx' = true ->
                  Np.get t idx' =
                  Np.get a (Np.permute (Np.inverse axes) idx')) /\
    Np.data t =
    flat_map
      (fun idx' =>
         match Np.get a (Np.permute (Np.inverse axes) idx') with
         | Some v => [v]
         | None => []
         end)
      (Np.indices (Np.permute axes (Np.shape a))).
Proof.
  intros Hp Hw Hb. unfold Np.transpose. rewrite Hp.
  eexists; split; [reflexivity|]. cbn [Np.shape Np.data].
  assert (Htot : forall idx',
             In idx' (Np.indices (Np.permute axes (Np.shape a))) ->
             Np.get a (Np.permute (Np.inverse axes) idx') <> None).
  { intros idx' Hin. apply get_in_bounds; auto. apply Hb, in_indices, Hin. }
  split; [reflexivity|]. split; [|split; [|reflexivity]].
  - unfold Grid.wf, Np.size. cbn [Np.shape Np.data].
    rewrite (flat_map_total_length
               (fun idx' => Np.get a (Np.permute (Np.inverse axes) idx')))
      by exact Htot.
    rewrite indices_length. apply Nat.eqb_refl.
  - intros idx' Hi. unfold Np.get at 1. cbn [Np.shape Np.data]. rewrite Hi.
    rewrite (nth_error_flat_map_total
               (fun idx' => Np.get a (Np.permute (Np.inverse axes) idx')))
      by exact Htot.
    rewrite (nth_error_indices _ idx' Hi). reflexivity.
Qed.

Section Canonical.

Context {A : Type}.
Variables h w c : nat.
Variable buf : list A.
Hypothesis Hlen : length buf = h * w * c.

(** The buffer under its channel-first shape. *)
Let first : Np.ndarray A := Np.mk [1; c; h; w] buf.

Lemma reshape_channel_first :
  Np.reshape (Np.flat buf) [1; c; h; w] = (Return first, []).
Proof.
  unfold Np.reshape, Np.size, Np.flat. cbn [Np.shape Np.data Np.prod fold_right].
  replace (1 * (c * (h * (w * 1))) =? length buf * 1) with true;
    [reflexivity|].
  symmetry. apply Nat.eqb_eq. rewrite Hlen. ring.
Qed.

Lemma first_wf : Grid.wf first = true.
Proof.
  unfold Grid.wf, Np.size, first. cbn [Np.shape Np.data Np.prod fold_right].
  apply Nat.eqb_eq. rewrite Hlen. ring.
Qed.

(** [transpose(0, 2, 3, 1)] of the channel-first grid. *)
Lemma to_channel_last :
  exists canon,
    Np.transpose first [0; 2; 3; 1] = (Return canon, []) /\
    Np.shape canon = [1; h; w; c] /\
    Grid.wf canon = true /\
    (forall i y x ch, i < 1 -> y < h -> x < w -> ch < c ->
       Np.get canon [i; y; x; ch] = Np.get first [i; ch; y; x]).
Proof.
  destruct (transpose_run first [0; 2; 3; 1]) as (canon & E & Hs & Hw & Hg & _).
  - reflexivity.
  - apply first_wf.
  - intros idx' H. apply in_bounds4 in H as (i & y & x & ch & -> & Hb).
    apply in_bounds4. exists i, ch, y, x. cbn. intuition.
  - exists canon. split; [exact E|]. split; [exact Hs|]. split; [exact Hw|].
    intros i y x ch Hi Hy Hx Hc. rewrite Hg; [reflexivity|].
    rewrite Hs. apply in_bounds4. exists i, y, x, ch. auto.
Qed.

(** [transpose(0, 3, 1, 2)], the inverse permutation, gives the buffer
    back. *)
Lemma back_to_channel_first (canon : Np.ndarray A) :
  Np.shape canon = [1; h; w; c] ->
  Grid.wf canon = true ->
  (forall i y x ch, i < 1 -> y < h -> x < w -> ch < c ->
     Np.get canon [i; y; x; ch] = Np.get first [i; ch; y; x]) ->
  Np.transpose canon [0; 3; 1; 2] = (Return first, []).
Proof.
  intros Hs Hw Hg.
  destruct (transpose_run canon [0; 3; 1; 2]) as (back & E & Hsb & _ & _ & Hd).
  - rewrite Hs. reflexivity.
  - exact Hw.
  - rewrite Hs. intros idx' H.
    apply in_bounds4 in H as (i & ch & y & x & -> & Hb).
    apply in_bounds4. exists i, y, x, ch. cbn. intuition.
  - rewrite E. f_equal. destruct back as [sb db].
    cbn [Np.shape Np.data] in Hsb, Hd. rewrite Hs in Hsb, Hd.
    apply f_equal. unfold first. f_equal; [exact Hsb|].
    rewrite Hd. cbn [Np.permute map nth].
    etransitivity;
      [|apply (read_all_indices [1; c; h; w] buf);
        cbn [Np.prod fold_right]; rewrite Hlen; ring].
    apply flat_map_ext_in. intros idx Hin.
    apply in_indices in Hin.
    pose proof Hin as Hin'.
    apply in_bounds4 in Hin as (i & ch & y & x & -> & Hi & Hc & Hy & Hx).
    change (Np.permute (Np.inverse [0; 3; 1; 2]) [i; ch; y; x])
      with [i; y; x; ch].
    rewrite (Hg i y x ch Hi Hy Hx Hc).
    destruct (get_in_bounds first [i; ch; y; x] first_wf Hin') as [-> _].
    reflexivity.
Qed.

End Canonical.

(** C4.  For every height, width and number of channels, a flat
    channel-first buffer of that many elements reshapes to
    [(1, channels, height, width)] and [transpose(0, 2, 3, 1)] of it has
    the shape [(1, height, width, channels)]; the element at row [y],
    column [x], channel [ch] is the same before and after, namely the
    element of the buffer at offset [ch * height * width + y * width + x];
    and [transpose(0, 3, 1, 2)], the inverse permutation, gives back the
    channel-first array whose elements are the buffer.  These are the two
    calls of [main] on the reference data and of the [NCHW] branch of
    [load_feature_map]. *)
Theorem canonicalization_preserves_values {A : Type} (h w c : nat)
    (buf : list A) :
  length buf = h * w * c ->
  exists first canon,
    Np.reshape (Np.flat buf) [1; c; h; w] = (Return first, []) /\
    Np.transpose first [0; 2; 3; 1] = (Return canon, []) /\
    Np.shape canon = [1; h; w; c] /\
    length (Np.data canon) = length buf /\
    (forall y x ch, y < h -> x < w -> ch < c ->
       Np.get canon [0; y; x; ch] = Np.get first [0; ch; y; x] /\
       Np.get canon [0; y; x; ch] =
       nth_error buf (ch * (h * w) + y * w + x) /\
       Np.get canon [0; y; x; ch] <> None) /\
    Np.transpose canon [0; 3; 1; 2] = (Return first, []) /\
    Np.data first = buf.
Proof.
  intros Hlen.
  destruct (to_channel_last h w c buf Hlen) as (canon & Et & Hs & Hw & Hg).
  exists (Np.mk [1; c; h; w] buf), canon.
  split; [apply reshape_channel_first; exact Hlen|].
  split; [exact Et|]. split; [exact Hs|]. split; [|split; [|split]].
  - unfold Grid.wf, Np.size in Hw. apply Nat.eqb_eq in Hw.
    rewrite Hw, Hs, Hlen. cbn [Np.prod fold_right]. ring.
  - intros y x ch Hy Hx Hc.
    assert (Hb : Np.in_bounds [1; c; h; w] [0; ch; y; x] = true).
    { apply in_bounds4. exists 0, ch, y, x. repeat split; auto. }
    destruct (get_in_bounds (Np.mk [1; c; h; w] buf) [0; ch; y; x]
                (first_wf h w c buf Hlen) Hb) as [Eg Hn].
    rewrite (Hg 0 y x ch (Nat.lt_0_1) Hy Hx Hc).
    split; [reflexivity|]. split; [|exact Hn].
    rewrite Eg. cbn [Np.shape Np.data Np.ravel Np.prod fold_right].
    f_equal. ring.
  - apply (back_to_channel_first h w c buf Hlen canon Hs Hw Hg).
  - reflexivity.
Qed.

Lemma canonicalization_preserves_values_witness :
  length [10; 11; 12; 13] = 1 * 2 * 2 /\
  exists first canon,
    Np.reshape (Np.flat [10; 11; 12; 13]) [1; 2; 1; 2] = (Return first, []) /\
    Np.transpose first [0; 2; 3; 1] = (Return canon, []) /\
    Np.data canon = [10; 12; 11; 13] /\
    Np.transpose canon [0; 3; 1; 2] = (Return first, []) /\
    Np.data first = [10; 11; 12; 13].
Proof.
  split; [reflexivity|].
  destruct (canonicalization_preserves_values 1 2 2 [10; 11; 12; 13] eq_refl)
    as (first & canon & Er & Et & _ & _ & _ & Eb & Ed).
  exists first, canon.
  split; [exact Er|]. split; [exact Et|].
  split; [|split; [exact Eb|exact Ed]].
  assert (Ef : first = Np.mk [1; 2; 1; 2] [10; 11; 12; 13])
    by (injection Er as <-; reflexivity).
  rewrite Ef in Et. injection Et as <-. reflexivity.
Defined.

(** ** The feature-map loader *)

Lemma u16s_firstn (n : nat) (bs : list byte) :
  Np.u16s (firstn (2 * n) bs) = firstn n (Np.u16s bs).
Proof.
  revert bs; induction n as [|n IH]; intros bs; [reflexivity|].
  replace (2 * S n) with (S (S (2 * n))) by lia.
  destruct bs as [|b0 [|b1 bs]]; try reflexivity.
  cbn [firstn Np.u16s]. rewrite IH. reflexivity.
Qed.

(** The values of the file cut to its first [n] float16 values. *)
Lemma prefix_file_values (n : nat) (bs : list byte) :
  map F16.of_bits (Np.u16s (firstn (2 * n) bs)) =
  firstn n (map F16.of_bits (Np.u16s bs)).
Proof. rewrite u16s_firstn. symmetry. apply firstn_map. Qed.

Section Loader.

Variable cfg : CheckVisual.config.
Variable format_type : string.

Let total : nat :=
  1 * CheckVisual.FEATURE_H cfg * CheckVisual.FEATURE_W cfg
  * CheckVisual.FEATURE_SIZE cfg.

(** The statements of [load_feature_map] after the length test. *)
Let view (data : Np.ndarray F16.t) : Py (Np.ndarray spec_float) :=
  features <-
    (if String.eqb (CheckVisual.upper format_type) "NHWC" then
       Np.reshape data
         [1; CheckVisual.FEATURE_H cfg; CheckVisual.FEATURE_W cfg;
          CheckVisual.FEATURE_SIZE cfg]
     else if String.eqb (CheckVisual.upper format_type) "NCHW" then
       features <- Np.reshape data
         [1; CheckVisual.FEATURE_SIZE cfg; CheckVisual.FEATURE_H cfg;
          CheckVisual.FEATURE_W cfg];;
       Np.transpose features [0; 2; 3; 1]
     else Py.raise ValueError);;
  Py.ret (CheckVisual.astype_float32 features).

Lemma view_returns (values : list F16.t) :
  CheckVisual.upper format_type = "NHWC"%string \/
  CheckVisual.upper format_type = "NCHW"%string ->
  length values = total ->
  exists g,
    view (Np.flat values) = (Return g, []) /\
    Np.shape g =
    [1; CheckVisual.FEATURE_H cfg; CheckVisual.FEATURE_W cfg;
     CheckVisual.FEATURE_SIZE cfg] /\
    length (Np.data g) = total.
Proof.
  intros Hf Hl. unfold view, total in *.
  destruct Hf as [-> | ->]; cbn [String.eqb Ascii.eqb Bool.eqb].
  - unfold Np.reshape, Np.size, Np.flat.
    cbn [Np.shape Np.data Np.prod fold_right].
    replace (_ =? _) with true
      by (symmetry; apply Nat.eqb_eq; rewrite Hl; ring).
    eexists; split; [reflexivity|]. split; [reflexivity|].
    cbn [CheckVisual.astype_float32 Np.data]. rewrite length_map. exact Hl.
  - assert (Hl' : length values =
                  CheckVisual.FEATURE_H cfg * CheckVisual.FEATURE_W cfg
                  * CheckVisual.FEATURE_SIZE cfg) by (rewrite Hl; ring).
    rewrite (reshape_channel_first _ _ _ values Hl').
    destruct (to_channel_last _ _ _ values Hl') as (canon & E & Hs & Hw & _).
    unfold Py.bind at 2. rewrite E.
    eexists; split; [reflexivity|]. split; [exact Hs|].
    cbn [CheckVisual.astype_float32 Np.data]. rewrite length_map.
    unfold Grid.wf, Np.size in Hw. apply Nat.eqb_eq in Hw.
    rewrite Hw, Hs. cbn [Np.prod fold_right]. ring.
Qed.

Variable fs : filesystem.
Variable filename : path.
Variable bs : list byte.
Hypothesis Hfs : fs filename = Some bs.

Let values : list F16.t := map F16.of_bits (Np.u16s bs).

(** The three ways the loader goes on an existing file. *)
Lemma load_feature_map_cases :
  CheckVisual.load_feature_map cfg fs filename format_type =
  if length values =? total then
    (Py.result (view (Np.flat values)),
     [IoExists filename; IoFromFile filename Float16]
       ++ Py.trace (view (Np.flat values)))
  else if length values <? total then
    (Raise ValueError,
     [IoExists filename; IoFromFile filename Float16;
      Out (L_size_warning total (length values))])
  else
    (Py.result (view (Np.flat (firstn total values))),
     [IoExists filename; IoFromFile filename Float16;
      Out (L_size_warning total (length values))]
       ++ Py.trace (view (Np.flat (firstn total values)))).
Proof.
  unfold CheckVisual.load_feature_map, Os.exists_, Np.fromfile_float16.
  rewrite Hfs.
  cbn [Py.bind Py.emit Py.ret negb app Np.flat Np.data].
  fold values. fold total.
  destruct (length values =? total);
    cbn [Py.bind Py.print Py.emit Py.ret Py.raise negb app].
  - fold (view (Np.flat values)). destruct (view (Np.flat values)).
    reflexivity.
  - destruct (length values <? total);
      cbn [Py.bind Py.print Py.emit Py.ret Py.raise negb app];
      [reflexivity|].
    fold (view (Np.flat (firstn total values))).
    destruct (view (Np.flat (firstn total values))). reflexivity.
Qed.

End Loader.

(** C8.  On a file that holds fewer float16 values than
    [1 * FEATURE_H * FEATURE_W * FEATURE_SIZE], [load_feature_map] prints
    the size warning and raises [ValueError]: no grid is returned.  On a
    file that holds more, it prints the same warning and returns the
    grid of the first that many values: the very grid it returns,
    without warning, for a file that holds exactly those values. *)
Theorem load_feature_map_length_check (cfg : CheckVisual.config)
    (fs : filesystem) (filename : path) (format_type : string)
    (bs : list byte) :
  fs filename = Some bs ->
  let values := map F16.of_bits (Np.u16s bs) in
  let total :=
    1 * CheckVisual.FEATURE_H cfg * CheckVisual.FEATURE_W cfg
    * CheckVisual.FEATURE_SIZE cfg in
  let warning := Out (L_size_warning total (length values)) in
  (length values < total ->
   CheckVisual.load_feature_map cfg fs filename format_type =
   (Raise ValueError,
    [IoExists filename; IoFromFile filename Float16; warning])) /\
  (total < length values ->
   CheckVisual.upper format_type = "NHWC"%string \/
   CheckVisual.upper format_type = "NCHW"%string ->
   exists g,
     CheckVisual.load_feature_map cfg fs filename format_type =
     (Return g, [IoExists filename; IoFromFile filename Float16; warning]) /\
     Np.shape g =
     [1; CheckVisual.FEATURE_H cfg; CheckVisual.FEATURE_W cfg;
      CheckVisual.FEATURE_SIZE cfg] /\
     length (Np.data g) = total /\
     forall fs' bs',
       fs' filename = Some bs' ->
       map F16.of_bits (Np.u16s bs') = firstn total values ->
       CheckVisual.load_feature_map cfg fs' filename format_type =
       (Return g, [IoExists filename; IoFromFile filename Float16])).
Proof.
  intros Hfs values total warning. split.
  - intros Hlt.
    rewrite (load_feature_map_cases cfg format_type fs filename bs Hfs).
    fold values. fold total.
    assert (E1 : (length values =? total) = false)
      by (apply Nat.eqb_neq; lia).
    assert (E2 : (length values <? total) = true)
      by (apply Nat.ltb_lt; exact Hlt).
    rewrite E1, E2. reflexivity.
  - intros Hgt Hf.
    assert (Hl : length (firstn total values) = total)
      by (rewrite length_firstn; lia).
    destruct (view_returns cfg format_type (firstn total values) Hf Hl)
      as (g & Ev & Hs & Hd).
    exists g. split; [|split; [exact Hs|split; [exact Hd|]]].
    + rewrite (load_feature_map_cases cfg format_type fs filename bs Hfs).
      fold values. fold total.
      assert (E1 : (length values =? total) = false)
        by (apply Nat.eqb_neq; lia).
      assert (E2 : (length values <? total) = false)
        by (apply Nat.ltb_ge; lia).
      rewrite E1, E2, Ev. reflexivity.
    + intros fs' bs' Hfs' Hv.
      rewrite (load_feature_map_cases cfg format_type fs' filename bs' Hfs').
      rewrite Hv. fold total. rewrite Hl, Nat.eqb_refl, Ev. reflexivity.
Qed.

Lemma load_feature_map_length_check_witness :
  Sample.three_values Sample.output_path =
  Some [x00; x3c; x00; x40; x00; x3c] /\
  2 < length (map F16.of_bits (Np.u16s [x00; x3c; x00; x40; x00; x3c])) /\
  exists g,
    CheckVisual.load_feature_map Sample.small_features Sample.three_values
      Sample.output_path "nchw" =
    (Return g,
     [IoExists Sample.output_path; IoFromFile Sample.output_path Float16;
      Out (L_size_warning 2 3)]) /\
    length (Np.data g) = 2.
Proof.
  split; [reflexivity|]. split; [repeat constructor|].
  destruct (load_feature_map_length_check Sample.small_features
              Sample.three_values Sample.output_path "nchw"
              [x00; x3c; x00; x40; x00; x3c] eq_refl) as [_ T].
  destruct (T (le_n 3) (or_intror eq_refl)) as (g & E & _ & Hd & _).
  exists g. split; [exact E|exact Hd].
Defined.

(* ================================================================== *)
(** * Further properties of the scripts *)

(** ** The driver's structural failures *)

Section DriverFailures.

Variable cfg : Check.config.
Variable fs : filesystem.
Variable md5_hexdigest : list byte -> string.
Variable argv : list string.
Variables output_file correct_file : path.

Hypothesis Hpaths :
  (if 3 <=? length argv
   then (nth 1 argv ""%string, nth 2 argv ""%string)
   else ("./output/OpTest_scatter_output_x.bin"%string,
         "./output/OpTest_scatter_output_x_correct.bin"%string)) =
  (output_file, correct_file).

(** The lines [main] starts with. *)
Let heading : list event :=
  Out L_tool_title
  :: (if Check.DEBUG_MODE cfg
      then [Out (L_debug_banner (Check.DEBUG_MAX_PILLARS cfg))] else [])
  ++ [Out (L_output_file output_file); Out (L_correct_file correct_file);
      Out (L_coords_file "./input/OpTest_scatter_input_coords.bin"%string)].

(** X1.  Without the output file, [main] returns 1 once it has looked for
    it: it says so, and touches no other file. *)
Theorem main_without_output_file :
  fs output_file = None ->
  Check.main cfg fs md5_hexdigest argv =
  (Return 1,
   heading ++
   [IoExists output_file; Out (L_output_missing output_file);
    Out L_run_operator_first]).
Proof.
  intros H. unfold Check.main, heading. rewrite Hpaths.
  unfold Os.exists_. rewrite H.
  destruct (Check.DEBUG_MODE cfg); reflexivity.
Qed.

(** X2.  With the output file but without the reference file, [main] returns
    1 after looking for the two: neither is opened. *)
Theorem main_without_reference_file (b1 : list byte) :
  fs output_file = Some b1 -> fs correct_file = None ->
  Check.main cfg fs md5_hexdigest argv =
  (Return 1,
   heading ++
   [IoExists output_file; IoExists correct_file;
    Out (L_correct_missing correct_file)]).
Proof.
  intros H1 H2. unfold Check.main, heading. rewrite Hpaths.
  unfold Os.exists_. rewrite H1, H2.
  destruct (Check.DEBUG_MODE cfg); reflexivity.
Qed.

Lemma load_coords_file_reads_no_grid (filename : path) :
  Py.every (fun ev => reads_content ev = false)
    (Check.load_coords_file fs filename).
Proof.
  unfold Check.load_coords_file, Os.exists_, Np.fromfile_uint32.
  every_tac.
  unfold Py.every. rewrite rows4_trace. constructor.
Qed.

(** X3.  Files of different sizes end the run with 1 at the line that reports
    it: the content of neither grid file has been read, whether for a
    digest or as values. *)
Theorem main_size_mismatch (b1 b2 : list byte) :
  fs output_file = Some b1 -> fs correct_file = Some b2 ->
  length b1 <> length b2 ->
  Py.result (Check.main cfg fs md5_hexdigest argv) = Return 1 /\
  exists pre,
    Forall (fun ev => reads_content ev = false) pre /\
    Py.trace (Check.main cfg fs md5_hexdigest argv) =
    pre ++ [Out L_size_mismatch].
Proof.
  intros H1 H2 Hlen. unfold Check.main. rewrite Hpaths.
  eapply step_bind; [reflexivity|apply every_print; reflexivity|].
  eapply step_bind;
    [apply when_returns; reflexivity
    |apply every_when, every_print; reflexivity|].
  do 3 (eapply step_bind; [reflexivity|apply every_print; reflexivity|]).
  eapply step_bind;
    [unfold Os.exists_; rewrite H1; reflexivity
    |unfold Os.exists_; every_tac|].
  cbn [negb].
  eapply step_bind;
    [unfold Os.exists_; rewrite H2; reflexivity
    |unfold Os.exists_; every_tac|].
  cbn [negb].
  destruct (coords_stage_runs cfg fs) as [[r Er] _]. cbv zeta in Er.
  eapply step_bind; [exact Er| |].
  { destruct (Check.DEBUG_MODE cfg); [|apply every_ret].
    apply every_bind; [apply load_coords_file_reads_no_grid|intros r' _].
    every_tac. }
  eapply step_bind;
    [unfold Os.getsize; rewrite H1; reflexivity
    |unfold Os.getsize; rewrite H1; every_tac|].
  eapply step_bind;
    [unfold Os.getsize; rewrite H2; reflexivity
    |unfold Os.getsize; rewrite H2; every_tac|].
  do 3 (eapply step_bind; [reflexivity|apply every_print; reflexivity|]).
  apply Nat.eqb_neq in Hlen. rewrite Hlen. cbn [negb].
  split; [reflexivity|]. exists []. split; [constructor|reflexivity].
Qed.

End DriverFailures.

Lemma main_without_output_file_witness :
  Sample.no_files Sample.output_path = None /\
  Py.exit_status
    (Check.main Check.module_config Sample.no_files Sample.content_digest
       []) = 1.
Proof.
  split; [reflexivity|].
  rewrite (main_without_output_file Check.module_config Sample.no_files
             Sample.content_digest [] Sample.output_path
             Sample.correct_path eq_refl eq_refl).
  reflexivity.
Defined.

Lemma main_without_reference_file_witness :
  Sample.only_output Sample.output_path = Some [x00; x3c] /\
  Sample.only_output Sample.correct_path = None /\
  Py.exit_status
    (Check.main Check.module_config Sample.only_output
       Sample.content_digest []) = 1.
Proof.
  do 2 (split; [reflexivity|]).
  rewrite (main_without_reference_file Check.module_config
             Sample.only_output Sample.content_digest []
             Sample.output_path Sample.correct_path eq_refl [x00; x3c]
             eq_refl eq_refl).
  reflexivity.
Defined.

Lemma main_size_mismatch_witness :
  Sample.unequal_sizes Sample.output_path = Some [x00; x3c] /\
  Sample.unequal_sizes Sample.correct_path = Some [x00; x3c; x00; x40] /\
  Py.result
    (Check.main Check.module_config Sample.unequal_sizes
       Sample.content_digest []) = Return 1.
Proof.
  do 2 (split; [reflexivity|]).
  apply (main_size_mismatch Check.module_config Sample.unequal_sizes
           Sample.content_digest [] Sample.output_path Sample.correct_path
           eq_refl [x00; x3c] [x00; x3c; x00; x40] eq_refl eq_refl).
  cbn [length]. lia.
Defined.

(** A value that a sequence returns is a value its last part returns. *)
Lemma returns_bind {A B} (Q : B -> Prop) (m : Py A) (k : A -> Py B) :
  (forall a c, Py.result (k a) = Return c -> Q c) ->
  forall c, Py.result (Py.bind m k) = Return c -> Q c.
Proof.
  intros H c. rewrite result_bind.
  destruct (Py.result m) as [a|e]; [apply H|discriminate].
Qed.

Ltac returns_step Q :=
  match goal with
  | |- forall c, Py.result (Py.bind _ _) = Return c -> _ =>
      apply (returns_bind Q); intros ?
  | |- forall c, Py.result (Py.ret _) = Return c -> _ =>
      let E := fresh in intros ? E; injection E as <-; auto
  | |- forall c, Py.result (if ?b then _ else _) = Return c -> _ =>
      destruct b
  | |- forall c, Py.result (match ?x with _ => _ end) = Return c -> _ =>
      destruct x
  end.

(** X4.  Whatever the arguments, the files and the configuration, the process
    exits with 0 or with 1: [main] returns no other code, and an
    exception that escapes it ends the process with 1. *)
Theorem main_exit_status (cfg : Check.config) (fs : filesystem)
    (md5_hexdigest : list byte -> string) (argv : list string) :
  Py.exit_status (Check.main cfg fs md5_hexdigest argv) = 0 \/
  Py.exit_status (Check.main cfg fs md5_hexdigest argv) = 1.
Proof.
  unfold Py.exit_status.
  change (fst (Check.main cfg fs md5_hexdigest argv))
    with (Py.result (Check.main cfg fs md5_hexdigest argv)).
  destruct (Py.result (Check.main cfg fs md5_hexdigest argv)) as [c|e] eqn:E;
    [|right; reflexivity].
  revert c E. unfold Check.main.
  destruct (if 3 <=? length argv
            then (nth 1 argv ""%string, nth 2 argv ""%string)
            else ("./output/OpTest_scatter_output_x.bin"%string,
                  "./output/OpTest_scatter_output_x_correct.bin"%string))
    as [output_file correct_file].
  repeat returns_step (fun c : nat => c = 0 \/ c = 1).
Qed.

(** ** What a run depends on *)

(** X5.  The run of [main] is a function of the files it names: two file
    systems that agree on the output file, on the reference file and,
    in debug mode, on the coordinate file give the same run, event for
    event. *)
Theorem main_depends_on_named_files (cfg : Check.config)
    (fs fs' : filesystem) (md5_hexdigest : list byte -> string)
    (argv : list string) (output_file correct_file : path) :
  (if 3 <=? length argv
   then (nth 1 argv ""%string, nth 2 argv ""%string)
   else ("./output/OpTest_scatter_output_x.bin"%string,
         "./output/OpTest_scatter_output_x_correct.bin"%string)) =
  (output_file, correct_file) ->
  fs output_file = fs' output_file ->
  fs correct_file = fs' correct_file ->
  (Check.DEBUG_MODE cfg = true ->
   fs "./input/OpTest_scatter_input_coords.bin"%string =
   fs' "./input/OpTest_scatter_input_coords.bin"%string) ->
  Check.main cfg fs md5_hexdigest argv =
  Check.main cfg fs' md5_hexdigest argv.
Proof.
  intros Hp Ho Hc Hk.
  unfold Check.main, Check.load_coords_file, Check.get_file_md5,
    Check.load_binary_file, Os.exists_, Os.getsize, Os.read_bytes,
    Np.fromfile_float16, Np.fromfile_uint32.
  rewrite Hp, Ho, Hc.
  destruct (Check.DEBUG_MODE cfg); [rewrite (Hk eq_refl)|]; reflexivity.
Qed.

Lemma main_depends_on_named_files_witness :
  Check.main Sample.plain Sample.swapped_files Sample.content_digest [] =
  Check.main Sample.plain Sample.with_coords Sample.content_digest [].
Proof.
  apply (main_depends_on_named_files Sample.plain Sample.swapped_files
           Sample.with_coords Sample.content_digest []
           Sample.output_path Sample.correct_path eq_refl eq_refl eq_refl).
  discriminate.
Defined.

(** X6.  The coordinate table reaches [compare_arrays] only in debug mode and
    only through its first [DEBUG_MAX_PILLARS] records: two tables with
    the same window give the same run, on any two arrays. *)
Theorem compare_arrays_reads_only_the_window (cfg : Check.config)
    (a b : Np.ndarray F16.t) (name1 name2 : string) (tol : F16.t)
    (coords coords' : option (list coord)) :
  (Check.DEBUG_MODE cfg = true ->
   option_map (firstn (Check.DEBUG_MAX_PILLARS cfg)) coords =
   option_map (firstn (Check.DEBUG_MAX_PILLARS cfg)) coords') ->
  Check.compare_arrays cfg a b name1 name2 tol coords =
  Check.compare_arrays cfg a b name1 name2 tol coords'.
Proof.
  intros H.
  unfold Check.compare_arrays, Check.analyze_debug_output,
    Check.compare_restricted.
  destruct (Check.DEBUG_MODE cfg).
  - specialize (H eq_refl).
    destruct coords as [cs|], coords' as [cs'|]; try discriminate;
      [|reflexivity].
    injection H as H. rewrite H. reflexivity.
  - destruct coords, coords'; reflexivity.
Qed.

Lemma compare_arrays_reads_only_the_window_witness :
  Check.compare_arrays Sample.narrow
    (Sample.unit_grid Sample.one) (Sample.unit_grid Sample.two)
    "output" "reference" Check.default_tolerance
    (Some [(1, 0, 0, 0)%N; (0, 0, 0, 0)%N]) =
  Check.compare_arrays Sample.narrow
    (Sample.unit_grid Sample.one) (Sample.unit_grid Sample.two)
    "output" "reference" Check.default_tolerance
    (Some [(1, 0, 0, 0)%N; (0, 7, 7, 7)%N]).
Proof.
  apply (compare_arrays_reads_only_the_window Sample.narrow).
  intros _. reflexivity.
Defined.

(** ** Arrays that are not grids *)

(** One statement run, for the result alone. *)
Lemma result_step {A B} (m : Py A) (k : A -> Py B) (a : A)
    (r : outcome B) :
  Py.result m = Return a -> Py.result (k a) = r ->
  Py.result (Py.bind m k) = r.
Proof. intros Hm Hk. rewrite result_bind, Hm. exact Hk. Qed.

(** The analysis of debug mode divides by the element count and unpacks
    the shape into four names. *)
Lemma analyze_debug_output_raises (cfg : Check.config)
    (a : Np.ndarray F16.t) (coords : option (list coord)) :
  Np.size a = 0 \/ length (Np.shape a) <> 4 ->
  Py.result (Check.analyze_debug_output cfg a coords) =
  Raise (if Np.size a =? 0 then ZeroDivisionError else ValueError).
Proof.
  intros H. unfold Check.analyze_debug_output. run.
  destruct (Np.size a =? 0) eqn:E; run; [reflexivity|].
  destruct H as [H|H]; [rewrite H in E; discriminate|].
  destruct (Np.shape a) as [|n [|h [|w [|c [|]]]]]; try reflexivity.
  contradiction H; reflexivity.
Qed.

Lemma compare_arrays_debug_raises (cfg : Check.config)
    (a b : Np.ndarray F16.t) (name1 name2 : string) (tol : F16.t)
    (coords : option (list coord)) :
  Check.DEBUG_MODE cfg = true ->
  Np.shape a = Np.shape b ->
  Np.size a = 0 \/ length (Np.shape a) <> 4 ->
  Py.result (Check.compare_arrays cfg a b name1 name2 tol coords) =
  Raise (if Np.size a =? 0 then ZeroDivisionError else ValueError).
Proof.
  intros Hd Hs H. unfold Check.compare_arrays. run.
  rewrite Hs, shape_eqb_refl. cbn [negb]. run.
  rewrite Hd. cbn [Py.when]. run.
  rewrite <- Hs, (analyze_debug_output_raises cfg a coords H).
  reflexivity.
Qed.

(** X7.  [compare_arrays] is defined on grids only.  Given two arrays of one
    shape without elements it raises: [ZeroDivisionError] in debug mode,
    where the analysis divides by the element count, and [ValueError]
    otherwise, at the first minimum.  In debug mode it also raises
    [ValueError] on arrays that are not four-dimensional, where the
    analysis unpacks the shape. *)
Theorem compare_arrays_needs_grids (cfg : Check.config)
    (a b : Np.ndarray F16.t) (name1 name2 : string) (tol : F16.t)
    (coords : option (list coord)) :
  Np.shape a = Np.shape b ->
  (Np.size a = 0 ->
   Py.result (Check.compare_arrays cfg a b name1 name2 tol coords) =
   Raise (if Check.DEBUG_MODE cfg then ZeroDivisionError else ValueError))
  /\
  (Check.DEBUG_MODE cfg = true -> Np.size a <> 0 ->
   length (Np.shape a) <> 4 ->
   Py.result (Check.compare_arrays cfg a b name1 name2 tol coords) =
   Raise ValueError).
Proof.
  intros Hs. split.
  - intros H0. destruct (Check.DEBUG_MODE cfg) eqn:Hd.
    + rewrite (compare_arrays_debug_raises cfg a b name1 name2 tol coords
                 Hd Hs (or_introl H0)).
      rewrite H0. reflexivity.
    + unfold Check.compare_arrays. run.
      rewrite Hs, shape_eqb_refl. cbn [negb]. run.
      rewrite Hd. cbn [Py.when]. run.
      unfold Check.print_stats, Np.reduce_nonempty. run.
      rewrite <- Hs, H0. reflexivity.
  - intros Hd Hn H4.
    rewrite (compare_arrays_debug_raises cfg a b name1 name2 tol coords
               Hd Hs (or_intror H4)).
    apply Nat.eqb_neq in Hn. rewrite Hn. reflexivity.
Qed.

Lemma compare_arrays_needs_grids_witness :
  Np.shape (Np.flat [Sample.one; Sample.two]) =
  Np.shape (Np.flat [Sample.two; Sample.one]) /\
  Py.result
    (Check.compare_arrays Check.module_config
       (Np.flat [Sample.one; Sample.two]) (Np.flat [Sample.two; Sample.one])
       "output" "reference" Check.default_tolerance None) =
  Raise ValueError.
Proof.
  split; [reflexivity|].
  apply (proj2 (compare_arrays_needs_grids Check.module_config
                  (Np.flat [Sample.one; Sample.two])
                  (Np.flat [Sample.two; Sample.one])
                  "output" "reference" Check.default_tolerance None
                  eq_refl));
    [reflexivity|discriminate|discriminate].
Defined.

(** X8.  On two grids of one shape [compare_arrays] returns: whatever the
    tolerance and the coordinate records, no index leaves the arrays and
    no count is zero. *)
Theorem compare_arrays_returns_on_grids (cfg : Check.config)
    (a b : Np.ndarray F16.t) (name1 name2 : string) (tol : F16.t)
    (coords : option (list coord)) :
  Grid.is_grid a = true -> Grid.is_grid b = true ->
  Np.shape a = Np.shape b ->
  exists verdict,
    Py.result (Check.compare_arrays cfg a b name1 name2 tol coords) =
    Return verdict.
Proof.
  intros Ha Hb Hs. eexists.
  apply (compare_arrays_result cfg a b name1 name2 tol coords Ha Hb Hs).
Qed.

Lemma compare_arrays_returns_on_grids_witness :
  Grid.is_grid (Sample.flat_grid Sample.one) = true /\
  exists verdict,
    Py.result
      (Check.compare_arrays Check.module_config
         (Sample.flat_grid Sample.one) (Sample.flat_grid Sample.two)
         "output" "reference" S754_nan (Some Sample.padded)) =
    Return verdict.
Proof.
  split; [reflexivity|].
  apply (compare_arrays_returns_on_grids Check.module_config
           (Sample.flat_grid Sample.one) (Sample.flat_grid Sample.two)
           "output" "reference" S754_nan (Some Sample.padded));
    reflexivity.
Defined.

Lemma u16s_length (bs : list byte) : length (Np.u16s bs) = length bs / 2.
Proof.
  assert (H : forall n (l : list byte), length l <= n ->
                length (Np.u16s l) = length l / 2).
  { induction n as [|n IH]; intros [|b0 [|b1 l]] Hl; try reflexivity.
    - cbn [length] in Hl. lia.
    - cbn [Np.u16s length] in *. rewrite IH by lia.
      change (S (S (length l))) with (2 + length l).
      replace (2 + length l) with (length l + 1 * 2) by lia.
      rewrite Nat.div_add by discriminate. lia. }
  apply (H (length bs)). lia.
Qed.

Lemma load_binary_file_run (fs : filesystem) (filename : path) :
  Check.load_binary_file fs filename =
  match fs filename with
  | Some bs =>
      (Return (Some (Np.flat (map F16.of_bits (Np.u16s bs)))),
       [IoExists filename; IoFromFile filename Float16])
  | None =>
      (Return None, [IoExists filename; Out (L_file_missing filename)])
  end.
Proof.
  unfold Check.load_binary_file, Os.exists_, Np.fromfile_float16.
  destruct (fs filename); reflexivity.
Qed.

(** Without debug mode the call needs no grid: any two arrays of one
    shape that hold an element are compared element by element. *)
Lemma compare_arrays_plain_result (cfg : Check.config)
    (a b : Np.ndarray F16.t) (name1 name2 : string) (tol : F16.t)
    (coords : option (list coord)) :
  Check.DEBUG_MODE cfg = false ->
  Np.shape a = Np.shape b ->
  Np.size a <> 0 ->
  Py.result (Check.compare_arrays cfg a b name1 name2 tol coords) =
  Return (Np.array_equal a b
          || Np.allclose tol tol (Np.data a) (Np.data b)).
Proof.
  intros Hd Hs Hn. apply Nat.eqb_neq in Hn.
  assert (Hn' : (Np.size b =? 0) = false)
    by (unfold Np.size in *; rewrite <- Hs; exact Hn).
  unfold Check.compare_arrays. run.
  rewrite Hs, shape_eqb_refl. cbn [negb]. run.
  rewrite Hd. cbn [Py.when]. run.
  unfold Check.print_stats, Np.reduce_nonempty. run.
  rewrite Hn', <- Hs, Hn. run.
  change (Np.size (Np.mk (Np.shape a)
            (Np.abs_diff (Np.data a) (Np.data b)))) with (Np.size a).
  rewrite Hn. run.
  destruct coords; run.
  all: destruct (Np.array_equal a b); run; [reflexivity|].
  all: destruct (Np.allclose tol tol _ _); run; [reflexivity|].
  all: rewrite report_differences_returns; reflexivity.
Qed.

Section DriverOnOtherSizes.

Variable cfg : Check.config.
Variable fs : filesystem.
Variable md5_hexdigest : list byte -> string.
Variable argv : list string.
Variables output_file correct_file : path.
Variables b1 b2 : list byte.

Hypothesis Hpaths :
  (if 3 <=? length argv
   then (nth 1 argv ""%string, nth 2 argv ""%string)
   else ("./output/OpTest_scatter_output_x.bin"%string,
         "./output/OpTest_scatter_output_x_correct.bin"%string)) =
  (output_file, correct_file).
Hypothesis H1 : fs output_file = Some b1.
Hypothesis H2 : fs correct_file = Some b2.
Hypothesis Hlen : length b1 = length b2.
Hypothesis Hmd5 : md5_hexdigest b1 <> md5_hexdigest b2.
Hypothesis Hcount : length b1 / 2 <> 1 * 720 * 720 * 64.

(** With files of one size, different digests and another element count
    than [1 * 720 * 720 * 64], [main] hands the two one-dimensional
    arrays to [compare_arrays] as they are. *)
Lemma main_compares_flat_arrays :
  exists coords_data,
    Py.result (Check.main cfg fs md5_hexdigest argv) =
    Py.result
      (is_equal <- Check.compare_arrays cfg
                     (Np.flat (map F16.of_bits (Np.u16s b1)))
                     (Np.flat (map F16.of_bits (Np.u16s b2)))
                     "output"%string "reference"%string
                     Check.default_tolerance coords_data;;
       Py.print L_rule;;
       if is_equal : bool then
         (if Check.DEBUG_MODE cfg
          then Py.print (L_debug_pass (Check.DEBUG_MAX_PILLARS cfg))
          else Py.print L_pass);;
         Py.ret 0
       else
         (if Check.DEBUG_MODE cfg
          then Py.print (L_debug_fail (Check.DEBUG_MAX_PILLARS cfg));;
               Py.print L_debug_fail_hint
          else Py.print L_fail);;
         Py.ret 1).
Proof.
  destruct (coords_stage_runs cfg fs) as [[r Er] _]. cbv zeta in Er.
  exists r. unfold Check.main. rewrite Hpaths.
  eapply result_step; [reflexivity|].
  eapply result_step; [apply when_returns; reflexivity|].
  do 3 (eapply result_step; [reflexivity|]).
  eapply result_step; [unfold Os.exists_; rewrite H1; reflexivity|].
  cbn [negb].
  eapply result_step; [unfold Os.exists_; rewrite H2; reflexivity|].
  cbn [negb].
  eapply result_step; [exact Er|].
  eapply result_step; [unfold Os.getsize; rewrite H1; reflexivity|].
  eapply result_step; [unfold Os.getsize; rewrite H2; reflexivity|].
  do 3 (eapply result_step; [reflexivity|]).
  rewrite Hlen, Nat.eqb_refl. cbn [negb].
  eapply result_step; [reflexivity|].
  eapply result_step;
    [unfold Check.get_file_md5, Os.read_bytes; rewrite H1; reflexivity|].
  eapply result_step;
    [unfold Check.get_file_md5, Os.read_bytes; rewrite H2; reflexivity|].
  do 2 (eapply result_step; [reflexivity|]).
  apply String.eqb_neq in Hmd5. rewrite Hmd5.
  eapply result_step;
    [apply when_returns; reflexivity|].
  eapply result_step; [reflexivity|].
  eapply result_step; [rewrite load_binary_file_run, H1; reflexivity|].
  eapply result_step; [rewrite load_binary_file_run, H2; reflexivity|].
  cbv iota beta.
  eapply result_step; [reflexivity|].
  assert (E : (length (map F16.of_bits (Np.u16s b1)) =? 1 * 720 * 720 * 64)
              = false).
  { apply Nat.eqb_neq. rewrite length_map, u16s_length. exact Hcount. }
  rewrite E.
  eapply result_step; [reflexivity|].
  reflexivity.
Qed.

(** X9.  In debug mode, two files of one size, different digests and
    another element count than [1 * 720 * 720 * 64] end the run with an
    exception, and the process with status 1: the analysis cannot unpack
    the shape of a one-dimensional array (or divide by an element count
    of 0).  No verdict is returned. *)
Theorem main_unexpected_count_raises_in_debug :
  Check.DEBUG_MODE cfg = true ->
  Py.result (Check.main cfg fs md5_hexdigest argv) =
  Raise (if length b1 / 2 =? 0 then ZeroDivisionError else ValueError) /\
  Py.exit_status (Check.main cfg fs md5_hexdigest argv) = 1.
Proof.
  intros Hd.
  assert (E : Py.result (Check.main cfg fs md5_hexdigest argv) =
              Raise (if length b1 / 2 =? 0
                     then ZeroDivisionError else ValueError)).
  { destruct main_compares_flat_arrays as [coords_data ->].
    rewrite result_bind.
    rewrite (compare_arrays_debug_raises cfg _ _ _ _ _ coords_data Hd).
    - unfold Np.size, Np.flat, Np.shape, Np.prod, fold_right.
      rewrite length_map, u16s_length, Nat.mul_1_r. reflexivity.
    - unfold Np.flat, Np.shape.
      rewrite !length_map, !u16s_length, Hlen. reflexivity.
    - right. discriminate. }
  split; [exact E|].
  unfold Py.exit_status. unfold Py.result in E. rewrite E. reflexivity.
Qed.

(** X10.  Without debug mode, two files of one size, different digests
    and another element count than [1 * 720 * 720 * 64] are compared as
    they are read: the reference is not transposed, element [k] of one
    file is held against element [k] of the other, and [main] returns 0
    exactly when all of them are equal or all within the default
    tolerance. *)
Theorem main_unexpected_count_compares_flat :
  Check.DEBUG_MODE cfg = false ->
  2 <= length b1 ->
  let output_data := map F16.of_bits (Np.u16s b1) in
  let correct_data := map F16.of_bits (Np.u16s b2) in
  Py.result (Check.main cfg fs md5_hexdigest argv) =
  Return
    (if forallb (fun p => F16.eqb (fst p) (snd p))
          (combine output_data correct_data)
        || Np.allclose Check.default_tolerance Check.default_tolerance
             output_data correct_data
     then 0 else 1).
Proof.
  intros Hd Hb output_data correct_data.
  assert (El : length correct_data = length output_data).
  { unfold correct_data, output_data.
    rewrite !length_map, !u16s_length, Hlen. reflexivity. }
  destruct main_compares_flat_arrays as [coords_data ->].
  rewrite result_bind.
  rewrite (compare_arrays_plain_result cfg _ _ _ _ _ coords_data Hd).
  - fold output_data correct_data.
    unfold Np.array_equal, Np.flat, Np.shape, Np.data.
    rewrite El, shape_eqb_refl. cbn [andb]. rewrite Hd.
    destruct (_ || _); reflexivity.
  - fold output_data correct_data. unfold Np.flat, Np.shape.
    rewrite El. reflexivity.
  - unfold Np.size, Np.flat, Np.shape, Np.prod, fold_right.
    rewrite length_map, u16s_length, Nat.mul_1_r.
    intros H0. apply Nat.div_small_iff in H0; [lia|discriminate].
Qed.

End DriverOnOtherSizes.

Lemma main_unexpected_count_raises_in_debug_witness :
  Sample.swapped_files Sample.output_path = Some [x00; x3c; x00; x40] /\
  Sample.swapped_files Sample.correct_path = Some [x00; x40; x00; x3c] /\
  Py.result
    (Check.main Check.module_config Sample.swapped_files
       Sample.content_digest []) = Raise ValueError.
Proof.
  do 2 (split; [reflexivity|]).
  refine (proj1 (main_unexpected_count_raises_in_debug Check.module_config
                   Sample.swapped_files Sample.content_digest []
                   Sample.output_path Sample.correct_path
                   [x00; x3c; x00; x40] [x00; x40; x00; x3c]
                   eq_refl eq_refl eq_refl eq_refl _ _ eq_refl)).
  - vm_compute. discriminate.
  - change (length [x00; x3c; x00; x40] / 2) with 2. lia.
Defined.

Lemma main_unexpected_count_compares_flat_witness :
  Sample.swapped_files Sample.output_path = Some [x00; x3c; x00; x40] /\
  Sample.swapped_files Sample.correct_path = Some [x00; x40; x00; x3c] /\
  Py.result
    (Check.main Sample.plain Sample.swapped_files
       Sample.content_digest []) = Return 1.
Proof.
  do 2 (split; [reflexivity|]).
  refine (main_unexpected_count_compares_flat Sample.plain
            Sample.swapped_files Sample.content_digest []
            Sample.output_path Sample.correct_path
            [x00; x3c; x00; x40] [x00; x40; x00; x3c]
            eq_refl eq_refl eq_refl eq_refl _ _ eq_refl _).
  - vm_compute. discriminate.
  - change (length [x00; x3c; x00; x40] / 2) with 2. lia.
  - cbn [length]. lia.
Defined.

(** ** What the restricted comparison does not see *)

(** In debug mode with a coordinate table the verdict is the count test
    of the restricted block. *)
Lemma debug_verdict (cfg : Check.config) (a b : Np.ndarray F16.t)
    (name1 name2 : string) (tol : F16.t) (coords : list coord) :
  Check.DEBUG_MODE cfg = true ->
  Grid.tolerance_ok tol = true ->
  Grid.is_grid a = true -> Grid.is_grid b = true ->
  Np.shape a = Np.shape b ->
  Py.result (Check.compare_arrays cfg a b name1 name2 tol (Some coords)) =
  Return (Grid.matched (Check.DEBUG_MAX_PILLARS cfg) tol a b coords =?
          Grid.checked (Check.DEBUG_MAX_PILLARS cfg) a coords).
Proof.
  intros Hd Ht Ha Hb Hs.
  rewrite (compare_arrays_result cfg a b name1 name2 tol (Some coords)
             Ha Hb Hs), Hd.
  destruct (_ =? _) eqn:E; [reflexivity|].
  apply Nat.eqb_neq in E.
  destruct (restricted_failure_is_full_failure _ tol a b coords Ht Hs E)
    as [-> ->].
  reflexivity.
Qed.

(** X11.  In debug mode with a coordinate table, the verdict of
    [compare_arrays] is blind to every value outside the eligible cells
    of the window: two pairs of grids that agree on those cells get the
    same verdict, whatever else they hold. *)
Theorem debug_verdict_ignores_other_cells (cfg : Check.config)
    (a b a' b' : Np.ndarray F16.t) (name1 name2 : string) (tol : F16.t)
    (coords : list coord) :
  Check.DEBUG_MODE cfg = true ->
  Grid.tolerance_ok tol = true ->
  Grid.is_grid a = true -> Grid.is_grid b = true ->
  Grid.is_grid a' = true -> Grid.is_grid b' = true ->
  Np.shape a = Np.shape b -> Np.shape a = Np.shape a' ->
  Np.shape a = Np.shape b' ->
  (forall c, In c (firstn (Check.DEBUG_MAX_PILLARS cfg) coords) ->
             Grid.eligible a c = true ->
             Grid.cell_values a c = Grid.cell_values a' c /\
             Grid.cell_values b c = Grid.cell_values b' c) ->
  Py.result (Check.compare_arrays cfg a b name1 name2 tol (Some coords)) =
  Py.result (Check.compare_arrays cfg a' b' name1 name2 tol (Some coords)).
Proof.
  intros Hd Ht Ha Hb Ha' Hb' Hab Haa' Hab' Hcells.
  rewrite !debug_verdict by congruence.
  unfold Grid.matched, Grid.checked.
  rewrite (filter_ext_in
             (fun c => Grid.eligible a c && Grid.cell_matches tol a b c)
             (fun c => Grid.eligible a' c && Grid.cell_matches tol a' b' c)).
  - rewrite (filter_ext (Grid.eligible a) (Grid.eligible a')); [reflexivity|].
    intros c. apply eligible_same_shape; exact Haa'.
  - intros c Hin. rewrite <- (eligible_same_shape a a' c Haa').
    destruct (Grid.eligible a c) eqn:E; [|reflexivity].
    destruct (Hcells c Hin E) as [E1 E2].
    unfold Grid.cell_matches. rewrite E1, E2. reflexivity.
Qed.

Lemma debug_verdict_ignores_other_cells_witness :
  Np.data Sample.blemished <> Np.data (Sample.flat_grid Sample.one) /\
  Py.result
    (Check.compare_arrays Sample.narrow
       (Sample.flat_grid Sample.one) Sample.blemished
       "output" "reference" Check.default_tolerance (Some Sample.padded)) =
  Return true.
Proof.
  split; [discriminate|].
  rewrite <- (debug_verdict_ignores_other_cells Sample.narrow
                (Sample.flat_grid Sample.one) (Sample.flat_grid Sample.one)
                (Sample.flat_grid Sample.one) Sample.blemished
                "output" "reference" Check.default_tolerance Sample.padded
                eq_refl eq_refl eq_refl eq_refl eq_refl eq_refl
                eq_refl eq_refl eq_refl).
  - reflexivity.
  - intros c [<-|[]] _. split; reflexivity.
Defined.

(** ** The position check of the debug analysis *)

Lemma every_true {A} (m : Py A) : Py.every (fun _ => True) m.
Proof. apply Forall_forall. intros; exact I. Qed.

Section Positions.

Variable cfg : Check.config.
Variable a : Np.ndarray F16.t.
Hypothesis Ha : Grid.is_grid a = true.

Let holds (c : coord) : bool :=
  Grid.eligible a c && Np.any_nonzero (Grid.cell_values a c).

Lemma analyze_position_result (e p : nat) (ic : nat * coord) :
  Py.result
    (Check.analyze_position a (Grid.height a) (Grid.width a) (e, p) ic) =
  Return (if Grid.eligible a (snd ic) then e + 1 else e,
          if holds (snd ic) then p + 1 else p).
Proof.
  destruct ic as [i c]; unfold holds; simpl snd.
  pose proof (cell_of_eligible a c Ha) as Ca.
  destruct c as [[[batch_id x] y] r]; unfold Check.analyze_position.
  unfold Grid.eligible in *.
  destruct (_ && _); [|reflexivity].
  cbn [fst snd] in Ca. rewrite Ca by reflexivity. run.
  rewrite when_returns by reflexivity. cbn [andb].
  destruct (Np.any_nonzero _); reflexivity.
Qed.

Lemma analyze_positions_result (ics : list (nat * coord)) (e p : nat) :
  Py.result
    (Py.foldM (Check.analyze_position a (Grid.height a) (Grid.width a))
       ics (e, p)) =
  Return (e + length (filter (fun ic => Grid.eligible a (snd ic)) ics),
          p + length (filter (fun ic => holds (snd ic)) ics)).
Proof.
  revert e p; induction ics as [|ic ics IH]; intros e p.
  - simpl; f_equal; f_equal; lia.
  - cbn [Py.foldM filter].
    rewrite result_bind, analyze_position_result, IH.
    destruct (holds (snd ic)), (Grid.eligible a (snd ic));
      cbn [length]; f_equal; f_equal; lia.
Qed.

Lemma position_loop_counts (coords : list coord) :
  Py.result
    (Py.foldM (Check.analyze_position a (Grid.height a) (Grid.width a))
       (Py.enumerate (firstn (Check.DEBUG_MAX_PILLARS cfg) coords)) (0, 0)) =
  Return (Grid.checked (Check.DEBUG_MAX_PILLARS cfg) a coords,
          Grid.written (Check.DEBUG_MAX_PILLARS cfg) a coords).
Proof.
  rewrite analyze_positions_result; simpl.
  unfold Grid.written, Grid.checked.
  rewrite (filter_snd_length holds), (filter_snd_length (Grid.eligible a)).
  rewrite map_snd_enumerate; reflexivity.
Qed.

(** X12.  The position check of [analyze_debug_output] ends the analysis with
    three lines: the number of eligible records of the window, the
    number of them whose cell holds a value other than zero, and a pass
    exactly when the two agree, that is when no eligible cell of the
    window is all zero.  The second count never exceeds the first. *)
Theorem position_check_counts (coords : list coord) :
  let expected := Grid.checked (Check.DEBUG_MAX_PILLARS cfg) a coords in
  let actual := Grid.written (Check.DEBUG_MAX_PILLARS cfg) a coords in
  (exists pre,
     Py.trace (Check.analyze_debug_output cfg a (Some coords)) =
     pre ++ [Out (L_expected_positions expected);
             Out (L_actual_positions actual);
             Out (if actual =? expected
                  then L_positions_ok else L_positions_failed)]) /\
  actual <= expected /\
  (actual = expected <->
   forall c, In c (firstn (Check.DEBUG_MAX_PILLARS cfg) coords) ->
             Grid.eligible a c = true ->
             Np.any_nonzero (Grid.cell_values a c) = true).
Proof.
  intros expected actual. split.
  - assert (H : exists pre,
              Forall (fun _ => True) pre /\
              Py.trace (Check.analyze_debug_output cfg a (Some coords)) =
              pre ++ [Out (L_expected_positions expected);
                      Out (L_actual_positions actual);
                      Out (if actual =? expected
                           then L_positions_ok else L_positions_failed)]).
    2:{ destruct H as (pre & _ & E). exists pre. exact E. }
    pose proof position_loop_counts coords as Hloop.
    pose proof (fun ch => channel_returns a ch Ha) as Hch.
    unfold Grid.height, Grid.width, Grid.channels in Hloop, Hch.
    unfold Check.analyze_debug_output.
    destruct (is_grid_inv a Ha) as (n & h & w & c & Hs & _).
    rewrite Hs in *. cbn [nth] in Hloop, Hch. cbv iota.
    do 4 (eapply prefix_bind;
          [reflexivity | apply every_true | cbv beta]).
    rewrite (is_grid_size a Ha).
    do 2 (eapply prefix_bind;
          [reflexivity | apply every_true | cbv beta]).
    eapply prefix_bind; [|apply every_true|cbv beta].
    { apply for_returns. intros ch Hin. apply in_seq in Hin.
      destruct (Hch ch) as [v ->]; [lia|]. reflexivity. }
    eapply prefix_bind;
      [apply when_returns; reflexivity | apply every_true | cbv beta].
    match goal with
    | |- exists pre, _ /\ Py.trace (Py.bind ?M _) = pre ++ ?rest =>
        assert (HM : Py.result M = Return tt /\
                     exists pre, Forall (fun _ => True) pre /\
                                 Py.trace M = pre ++ rest)
    end.
    { eapply step_bind; [reflexivity|apply every_true|].
      eapply step_bind; [exact Hloop|apply every_true|].
      cbv iota beta. fold expected actual. split.
      - run. destruct (actual =? expected); reflexivity.
      - exists []. split; [constructor|].
        run. destruct (actual =? expected); reflexivity. }
    destruct HM as (Er & pre & Hpre & Et).
    exists pre. split; [exact Hpre|].
    rewrite trace_bind, Er, Et. apply app_nil_r.
  - apply (filter_and_length (Grid.eligible a)
             (fun c => Np.any_nonzero (Grid.cell_values a c))).
Qed.

End Positions.

Lemma position_check_counts_witness :
  Grid.is_grid (Sample.flat_grid Sample.one) = true /\
  exists pre,
    Py.trace
      (Check.analyze_debug_output Sample.narrow
         (Sample.flat_grid Sample.one) (Some Sample.padded)) =
    pre ++ [Out (L_expected_positions 1); Out (L_actual_positions 1);
            Out L_positions_ok].
Proof.
  split; [reflexivity|].
  apply (position_check_counts Sample.narrow (Sample.flat_grid Sample.one)
           eq_refl Sample.padded).
Defined.

(** ** The records of the coordinate file *)

Lemma rows4_words {A} (l : list A) (rows : list (A * A * A * A)) :
  Py.result (Np.rows4 l) = Return rows ->
  flat_map (fun r => let '(a, b, c, d) := r in [a; b; c; d]) rows = l.
Proof.
  revert rows.
  induction l as [| | | |a b c d l IH] using list_ind4; intros rows;
    try discriminate.
  - intros [= <-]. reflexivity.
  - cbn [Np.rows4]. rewrite result_bind.
    destruct (Py.result (Np.rows4 l)) as [rs|e]; [|discriminate].
    intros [= <-]. cbn [flat_map app]. rewrite (IH rs eq_refl). reflexivity.
Qed.

Lemma u32s_bounded (bs : list byte) :
  Forall (fun n => (n < 2 ^ 32)%N) (Np.u32s bs).
Proof.
  induction bs as [| | | |b0 b1 b2 b3 bs IH] using list_ind4;
    try constructor; [|exact IH].
  pose proof (Byte.to_N_bounded b0). pose proof (Byte.to_N_bounded b1).
  pose proof (Byte.to_N_bounded b2). pose proof (Byte.to_N_bounded b3).
  change (2 ^ 32)%N with 4294967296%N. lia.
Qed.

(** X13.  The table [load_coords_file] returns is the file, word for word: its
    records, read in order and each as [batch, x, y, reserved], are the
    little-endian 32-bit words of the file, so every component is below
    [2^32] and none is negative. *)
Theorem load_coords_file_keeps_words (fs : filesystem) (filename : path)
    (coords : list coord) :
  Py.result (Check.load_coords_file fs filename) = Return (Some coords) ->
  exists bs,
    fs filename = Some bs /\
    flat_map (fun r : coord => let '(batch_id, x, y, reserved) := r in
                               [batch_id; x; y; reserved]) coords =
    Np.u32s bs /\
    Forall (fun r : coord =>
              let '(batch_id, x, y, reserved) := r in
              (batch_id < 2 ^ 32 /\ x < 2 ^ 32 /\ y < 2 ^ 32
               /\ reserved < 2 ^ 32)%N) coords.
Proof.
  unfold Check.load_coords_file, Os.exists_, Np.fromfile_uint32. run.
  destruct (fs filename) as [bs|]; cbn [negb]; run; [|discriminate].
  destruct (Py.result (Np.rows4 (Np.u32s bs))) as [rows|e] eqn:E; run;
    [|discriminate].
  intros [= <-]. exists bs. split; [reflexivity|].
  pose proof (rows4_words (Np.u32s bs) rows E) as Hw.
  split; [exact Hw|].
  pose proof (u32s_bounded bs) as Hb. rewrite <- Hw in Hb.
  rewrite Forall_forall in *. intros [[[batch_id x] y] reserved] Hin.
  assert (Hk : forall n, In n [batch_id; x; y; reserved] -> (n < 2 ^ 32)%N).
  { intros n Hn. apply Hb. apply in_flat_map.
    exists (batch_id, x, y, reserved). split; [exact Hin|exact Hn]. }
  repeat split; apply Hk; simpl; auto.
Qed.

Lemma load_coords_file_keeps_words_witness :
  Py.result (Check.load_coords_file Sample.with_coords Sample.coords_path) =
  Return (Some [(0, 0, 0, 0)%N]) /\
  exists bs,
    Sample.with_coords Sample.coords_path = Some bs /\
    Np.u32s bs = [0; 0; 0; 0]%N.
Proof.
  split; [reflexivity|].
  destruct (load_coords_file_keeps_words Sample.with_coords
              Sample.coords_path [(0, 0, 0, 0)%N] eq_refl)
    as (bs & Hf & Hw & _).
  exists bs. split; [exact Hf|]. symmetry. exact Hw.
Defined.

(** ** The report of the differences *)

Lemma nth_error_combine {A B} (l : list A) (l' : list B) (k : nat)
    (x : A) (y : B) :
  nth_error (combine l l') k = Some (x, y) ->
  nth_error l k = Some x /\ nth_error l' k = Some y.
Proof.
  revert l' k; induction l as [|a l IH]; intros [|b l'] [|k] H;
    try discriminate.
  - injection H as <- <-. split; reflexivity.
  - apply (IH l' k H).
Qed.

Lemma in_firstn {A} (n : nat) (l : list A) (x : A) :
  In x (firstn n l) -> In x l.
Proof.
  revert l; induction n as [|n IH]; intros [|a l] H; simpl in H;
    try contradiction.
  destruct H as [H|H]; [left; exact H|right; apply IH; exact H].
Qed.

Lemma filter_snd_combine_length {A} (l : list A) (mask : list bool) :
  length l = length mask ->
  length (filter (fun p => snd p) (combine l mask)) =
  length (filter (fun b : bool => b) mask).
Proof.
  revert mask; induction l as [|a l IH]; intros [|b mask] H;
    try discriminate; [reflexivity|].
  injection H as H. cbn [combine filter snd].
  destruct b; cbn [length]; rewrite (IH mask H); reflexivity.
Qed.

(** The index at place [k] of the row-major order has offset [k]. *)
Lemma ravel_nth (s : list nat) (k : nat) (idx : list nat) :
  nth_error (Np.indices s) k = Some idx -> Np.ravel s idx = k.
Proof.
  intros H.
  assert (Hk : k < Np.prod s).
  { rewrite <- indices_length. apply nth_error_Some. congruence. }
  pose proof (ravel_indices s) as E.
  apply (f_equal (fun l => nth_error l k)) in E.
  rewrite nth_error_map, H in E. cbn [option_map] in E.
  symmetry in E. apply (nth_error_nth _ _ 0) in E.
  rewrite seq_nth in E by exact Hk. simpl in E. congruence.
Qed.

(** A loop that prints one line for each element prints them in order. *)
Lemma for_print_trace {A} (f : A -> line) (body : A -> Py unit)
    (l : list A) :
  (forall e, body e = Py.print (f e)) ->
  Py.trace (Py.for_ l body) = map (fun e => Out (f e)) l.
Proof.
  intros H. unfold Py.for_. induction l as [|e l IH]; [reflexivity|].
  cbn [Py.foldM map]. rewrite trace_bind, H. cbn. rewrite IH. reflexivity.
Qed.

Section Report.

Variables a b : Np.ndarray F16.t.
Variable tol : F16.t.
Hypothesis Ha : Grid.wf a = true.
Hypothesis Hb : Grid.wf b = true.
Hypothesis Hs : Np.shape a = Np.shape b.

Let diff : list F16.t := Np.abs_diff (Np.data a) (Np.data b).

(** The number of elements over the tolerance. *)
Let over : nat :=
  length (filter (fun b : bool => b) (map (fun d => F16.gtb d tol) diff)).

Let entry_line (e : list nat * (F16.t * F16.t * F16.t)) : line :=
  let '(idx, (v1, v2, d)) := e in L_diff_at idx v1 v2 d.

Lemma data_lengths :
  length (Np.data a) = Np.prod (Np.shape a) /\
  length (Np.data b) = Np.prod (Np.shape a) /\
  length diff = Np.prod (Np.shape a).
Proof.
  unfold Grid.wf, Np.size in Ha, Hb.
  apply Nat.eqb_eq in Ha, Hb. rewrite <- Hs in Hb.
  repeat split; try assumption.
  unfold diff, Np.abs_diff. rewrite length_map, length_combine. lia.
Qed.

(** X14.  When some element is over the tolerance, [compare_arrays] reports
    how many are, then shows the first ones in row-major order, ten at
    most.  Each line shown names an index of the arrays, the two values
    the arrays hold there, and their distance, which is over the
    tolerance.  When no element is over the tolerance nothing is
    printed. *)
Theorem report_shows_real_differences :
  (over = 0 -> Py.trace (Check.report_differences a b diff tol) = []) /\
  (0 < over ->
   exists shown,
     Py.trace (Check.report_differences a b diff tol) =
     Out (L_diff_count over) :: Out (L_show_count (Nat.min 10 over))
     :: map (fun e => Out (entry_line e)) shown /\
     length shown = Nat.min 10 over /\
     forall idx v1 v2 d, In (idx, (v1, v2, d)) shown ->
       Np.get a idx = Some v1 /\ Np.get b idx = Some v2 /\
       d = F16.abs (F16.sub v1 v2) /\ F16.gtb d tol = true).
Proof.
  destruct data_lengths as (La & Lb & Ld).
  unfold Check.report_differences. fold over. split.
  - intros ->. reflexivity.
  - intros Hpos.
    assert (E : (0 <? over) = true) by (apply Nat.ltb_lt; exact Hpos).
    rewrite E. cbn [Py.when].
    set (entries :=
           map fst
             (filter (fun p => snd p)
                (combine
                   (combine (Np.indices (Np.shape a))
                      (combine (combine (Np.data a) (Np.data b)) diff))
                   (map (fun d => F16.gtb d tol) diff)))).
    exists (firstn (Nat.min 10 over) entries). split; [|split].
    + run. f_equal. f_equal. apply for_print_trace.
      intros [idx [[v1 v2] d]]. reflexivity.
    + rewrite length_firstn. unfold entries. rewrite length_map.
      rewrite filter_snd_combine_length.
      * fold over. lia.
      * rewrite !length_combine, length_map, indices_length. lia.
    + intros idx v1 v2 d Hin. apply in_firstn in Hin.
      unfold entries in Hin. apply in_map_iff in Hin.
      destruct Hin as ([e m] & He & Hin). cbn [fst] in He. subst e.
      apply filter_In in Hin. destruct Hin as [Hin Hm].
      cbn [snd] in Hm. subst m.
      apply In_nth_error in Hin. destruct Hin as [k Hk].
      apply nth_error_combine in Hk. destruct Hk as [Hk Hmask].
      apply nth_error_combine in Hk. destruct Hk as [Hidx Hk].
      apply nth_error_combine in Hk. destruct Hk as [Hk Hd].
      assert (Hpair := Hk).
      apply nth_error_combine in Hk. destruct Hk as [Hv1 Hv2].
      assert (Hin : Np.in_bounds (Np.shape a) idx = true)
        by (apply in_indices; eapply nth_error_In; exact Hidx).
      pose proof (ravel_nth _ _ _ Hidx) as Hr.
      destruct (get_in_bounds a idx Ha Hin) as [Ga _].
      assert (Hin2 := Hin). rewrite Hs in Hin2.
      destruct (get_in_bounds b idx Hb Hin2) as [Gb _].
      rewrite <- Hs in Gb. rewrite Hr in Ga, Gb.
      assert (Ed : d = F16.abs (F16.sub v1 v2)).
      { unfold diff, Np.abs_diff in Hd.
        rewrite nth_error_map, Hpair in Hd. cbn in Hd. congruence. }
      repeat split.
      * congruence.
      * congruence.
      * exact Ed.
      * rewrite nth_error_map, Hd in Hmask. cbn in Hmask. congruence.
Qed.

End Report.

Lemma report_shows_real_differences_witness :
  Grid.wf (Sample.unit_grid Sample.one) = true /\
  Grid.wf (Sample.unit_grid Sample.two) = true /\
  exists shown,
    Py.trace
      (Check.report_differences
         (Sample.unit_grid Sample.one) (Sample.unit_grid Sample.two)
         (Np.abs_diff [Sample.one] [Sample.two]) Check.default_tolerance) =
    Out (L_diff_count 1) :: Out (L_show_count 1) :: map Out shown /\
    length shown = 1.
Proof.
  do 2 (split; [reflexivity|]).
  destruct (proj2 (report_shows_real_differences
                     (Sample.unit_grid Sample.one)
                     (Sample.unit_grid Sample.two)
                     Check.default_tolerance eq_refl eq_refl eq_refl))
    as (shown & Et & Hl & _).
  - vm_compute. lia.
  - exists (map (fun e : list nat * (F16.t * F16.t * F16.t) =>
                   let '(idx, (v1, v2, d)) := e in L_diff_at idx v1 v2 d)
              shown).
    split.
    + rewrite map_map. exact Et.
    + rewrite length_map. exact Hl.
Defined.

(** ** One channel of a feature map *)

Lemma list_prod_flat_map {A B} (l : list A) (l' : list B) :
  list_prod l l' = flat_map (fun x => map (pair x) l') l.
Proof. induction l as [|a l IH]; simpl; [|rewrite IH]; reflexivity. Qed.

Lemma nth_error_list_prod (h w y x : nat) :
  y < h -> x < w ->
  nth_error (list_prod (seq 0 h) (seq 0 w)) (y * w + x) = Some (y, x).
Proof.
  intros Hy Hx. rewrite list_prod_flat_map.
  rewrite (nth_error_blocks (fun j => map (pair j) (seq 0 w)) w)
    by (try (intros j; rewrite length_map, length_seq; reflexivity);
        assumption).
  rewrite nth_error_map, nth_error_seq.
  apply Nat.ltb_lt in Hx. rewrite Hx. reflexivity.
Qed.

Section SingleChannel.

Variable cfg : CheckVisual.config.
Variable features : Np.ndarray spec_float.
Variables n h w c : nat.
Hypothesis Hshape : Np.shape features = [n; h; w; c].
Hypothesis Hwf : Grid.wf features = true.
Hypothesis Hn : 0 < n.

Lemma channel_plane (k : nat) :
  k < c ->
  exists plane,
    Np.channel features k = (Return plane, []) /\
    length plane = h * w /\
    forall y x, y < h -> x < w ->
      nth_error plane (y * w + x) = Np.get features [0; y; x; k] /\
      Np.get features [0; y; x; k] <> None.
Proof.
  intros Hk.
  assert (Hget : forall y x, y < h -> x < w ->
                   Np.get features [0; y; x; k] <> None).
  { intros y x Hy Hx. apply get_in_bounds; [exact Hwf|].
    rewrite Hshape. apply in_bounds4.
    exists 0, y, x, k. repeat split; assumption. }
  assert (Htot : forall yx, In yx (list_prod (seq 0 h) (seq 0 w)) ->
                   Np.get features [0; fst yx; snd yx; k] <> None).
  { intros [y x] Hin. apply in_prod_iff in Hin. destruct Hin as [Hy Hx].
    apply in_seq in Hy, Hx. apply Hget; cbn [fst snd]; lia. }
  unfold Np.channel. rewrite Hshape.
  assert (E1 : (0 <? n) = true) by (apply Nat.ltb_lt; exact Hn).
  assert (E2 : (k <? c) = true) by (apply Nat.ltb_lt; exact Hk).
  rewrite E1, E2. cbn [andb].
  eexists. split; [reflexivity|]. split.
  - rewrite (flat_map_total_length
               (fun yx => Np.get features [0; fst yx; snd yx; k]))
      by exact Htot.
    rewrite length_prod, !length_seq. reflexivity.
  - intros y x Hy Hx. split; [|apply Hget; assumption].
    rewrite (nth_error_flat_map_total
               (fun yx => Np.get features [0; fst yx; snd yx; k]))
      by exact Htot.
    rewrite (nth_error_list_prod h w y x Hy Hx). reflexivity.
Qed.

(** X15.  [get_single_channel] guards the index from above only.  An index of
    [FEATURE_SIZE] or more is a [ValueError].  An index below, once a
    negative one is counted from the end as numpy does, either falls
    outside the channels, which is an [IndexError], or selects the plane
    of that channel: an array of the grid's height and width that holds
    at [y, x] the value of the grid at [0, y, x] in that channel.  So
    [-1] selects the last channel. *)
Theorem get_single_channel_cases (channel_idx : Z) :
  let k := if (channel_idx <? 0)%Z
           then (channel_idx + Z.of_nat c)%Z else channel_idx in
  ((Z.of_nat (CheckVisual.FEATURE_SIZE cfg) <= channel_idx)%Z ->
   CheckVisual.get_single_channel cfg features channel_idx =
   (Raise ValueError, [])) /\
  ((channel_idx < Z.of_nat (CheckVisual.FEATURE_SIZE cfg))%Z ->
   (k < 0 \/ Z.of_nat c <= k)%Z ->
   CheckVisual.get_single_channel cfg features channel_idx =
   (Raise IndexError, [])) /\
  ((channel_idx < Z.of_nat (CheckVisual.FEATURE_SIZE cfg))%Z ->
   (0 <= k < Z.of_nat c)%Z ->
   exists plane,
     CheckVisual.get_single_channel cfg features channel_idx =
     (Return plane, []) /\
     Np.shape plane = [h; w] /\
     Grid.wf plane = true /\
     forall y x, y < h -> x < w ->
       Np.get plane [y; x] = Np.get features [0; y; x; Z.to_nat k] /\
       Np.get plane [y; x] <> None).
Proof.
  intros k. unfold CheckVisual.get_single_channel.
  rewrite Hshape. cbn [nth]. fold k.
  split; [|split].
  - intros H. apply Z.leb_le in H. rewrite H. reflexivity.
  - intros H Hk. apply Z.leb_gt in H. rewrite H.
    destruct Hk as [Hk|Hk].
    + apply Z.ltb_lt in Hk. rewrite Hk. reflexivity.
    + destruct (k <? 0)%Z eqn:E; [reflexivity|].
      unfold Np.channel. rewrite Hshape.
      assert (E2 : (Z.to_nat k <? c) = false) by (apply Nat.ltb_ge; lia).
      rewrite E2, andb_false_r. reflexivity.
  - intros H [Hk0 Hkc]. apply Z.leb_gt in H. rewrite H.
    assert (E : (k <? 0)%Z = false) by (apply Z.ltb_ge; exact Hk0).
    rewrite E.
    destruct (channel_plane (Z.to_nat k)) as (plane & Ep & Hl & Hv);
      [lia|].
    rewrite Ep. eexists. split; [reflexivity|]. split; [reflexivity|].
    assert (Hw' : Grid.wf (Np.mk [h; w] plane) = true).
    { unfold Grid.wf, Np.size. cbn [Np.shape Np.data Np.prod fold_right].
      apply Nat.eqb_eq. rewrite Hl. ring. }
    split; [exact Hw'|].
    intros y x Hy Hx.
    assert (Hb : Np.in_bounds [h; w] [y; x] = true).
    { cbn [Np.in_bounds]. apply Nat.ltb_lt in Hy, Hx.
      rewrite Hy, Hx. reflexivity. }
    destruct (get_in_bounds (Np.mk [h; w] plane) [y; x] Hw' Hb) as [G _].
    cbn [Np.shape Np.data Np.ravel Np.prod fold_right] in G.
    replace (y * (w * 1) + (x * 1 + 0)) with (y * w + x) in G by ring.
    destruct (Hv y x Hy Hx) as [Hv1 Hv2].
    rewrite G, Hv1. split; [reflexivity|exact Hv2].
Qed.

End SingleChannel.

Lemma get_single_channel_cases_witness :
  exists plane,
    CheckVisual.get_single_channel Sample.small_features
      (Np.mk [1; 1; 1; 2] [Sample.one; Sample.two]) (-1) =
    (Return plane, []) /\
    Np.get plane [0; 0] = Some Sample.two.
Proof.
  destruct (get_single_channel_cases Sample.small_features
              (Np.mk [1; 1; 1; 2] [Sample.one; Sample.two]) 1 1 1 2
              eq_refl eq_refl (le_n 1) (-1)%Z) as (_ & _ & T).
  destruct T as (plane & E & _ & _ & Hv).
  - simpl. lia.
  - simpl. lia.
  - exists plane. split; [exact E|].
    destruct (Hv 0 0 (le_n 1) (le_n 1)) as [G _].
    rewrite G. reflexivity.
Defined.

(** ** Where the loader puts the values of a file *)

Lemma get_astype_float32 (a : Np.ndarray F16.t) (idx : list nat) :
  Np.get (CheckVisual.astype_float32 a) idx =
  option_map CheckVisual.float32_of_float16 (Np.get a idx).
Proof.
  unfold Np.get, CheckVisual.astype_float32. cbn [Np.shape Np.data].
  destruct (Np.in_bounds (Np.shape a) idx); [|reflexivity].
  apply nth_error_map.
Qed.

Section Placement.

Variable cfg : CheckVisual.config.
Variable fs : filesystem.
Variable filename : path.
Variable format_type : string.
Variable bs : list byte.
Hypothesis Hfs : fs filename = Some bs.

Let H := CheckVisual.FEATURE_H cfg.
Let W := CheckVisual.FEATURE_W cfg.
Let C := CheckVisual.FEATURE_SIZE cfg.
Let values : list F16.t := map F16.of_bits (Np.u16s bs).

Hypothesis Hlen : length values = 1 * H * W * C.

(** X16.  On a file of exactly [1 * FEATURE_H * FEATURE_W * FEATURE_SIZE]
    values [load_feature_map] returns a grid that holds each value of
    the file once, converted to float32, at the cell the layout assigns
    to it: for ["NHWC"] the value at offset [(y * W + x) * C + ch] is at
    [0, y, x, ch]; for ["NCHW"] it is the value at offset
    [ch * (H * W) + y * W + x]. *)
Theorem load_feature_map_places_values :
  (CheckVisual.upper format_type = "NHWC"%string ->
   exists g,
     CheckVisual.load_feature_map cfg fs filename format_type =
     (Return g, [IoExists filename; IoFromFile filename Float16]) /\
     forall y x ch, y < H -> x < W -> ch < C ->
       Np.get g [0; y; x; ch] =
       option_map CheckVisual.float32_of_float16
         (nth_error values ((y * W + x) * C + ch))) /\
  (CheckVisual.upper format_type = "NCHW"%string ->
   exists g,
     CheckVisual.load_feature_map cfg fs filename format_type =
     (Return g, [IoExists filename; IoFromFile filename Float16]) /\
     forall y x ch, y < H -> x < W -> ch < C ->
       Np.get g [0; y; x; ch] =
       option_map CheckVisual.float32_of_float16
         (nth_error values (ch * (H * W) + y * W + x))).
Proof.
  pose proof (load_feature_map_cases cfg format_type fs filename bs Hfs)
    as Hcases.
  cbv zeta in Hcases. fold values H W C in Hcases.
  rewrite Hlen, Nat.eqb_refl in Hcases.
  split; intros Hf; rewrite Hf in Hcases;
    cbn [String.eqb Ascii.eqb Bool.eqb] in Hcases.
  - assert (Hw : Grid.wf (Np.mk [1; H; W; C] values) = true).
    { unfold Grid.wf, Np.size. cbn [Np.shape Np.data Np.prod fold_right].
      apply Nat.eqb_eq. rewrite Hlen. ring. }
    assert (Er : Np.reshape (Np.flat values) [1; H; W; C] =
                 (Return (Np.mk [1; H; W; C] values), [])).
    { unfold Np.reshape, Np.size, Np.flat.
      cbn [Np.shape Np.data Np.prod fold_right].
      replace (_ =? _) with true
        by (symmetry; apply Nat.eqb_eq; rewrite Hlen; ring).
      reflexivity. }
    rewrite Er in Hcases.
    eexists. split; [exact Hcases|].
    intros y x ch Hy Hx Hch. rewrite get_astype_float32. f_equal.
    assert (Hb : Np.in_bounds [1; H; W; C] [0; y; x; ch] = true).
    { apply in_bounds4. exists 0, y, x, ch. repeat split; auto. }
    destruct (get_in_bounds (Np.mk [1; H; W; C] values) _ Hw Hb) as [G _].
    rewrite G. cbn [Np.shape Np.data Np.ravel Np.prod fold_right].
    f_equal. ring.
  - assert (Hl' : length values = H * W * C) by (rewrite Hlen; ring).
    rewrite (reshape_channel_first H W C values Hl') in Hcases.
    destruct (to_channel_last H W C values Hl')
      as (canon & E & Hs & Hw & Hv).
    unfold Py.bind at 2 in Hcases. rewrite E in Hcases.
    eexists. split; [exact Hcases|].
    intros y x ch Hy Hx Hch. rewrite get_astype_float32. f_equal.
    rewrite (Hv 0 y x ch) by auto.
    assert (Hb : Np.in_bounds [1; C; H; W] [0; ch; y; x] = true).
    { apply in_bounds4. exists 0, ch, y, x. repeat split; auto. }
    destruct (get_in_bounds (Np.mk [1; C; H; W] values) _
                (first_wf H W C values Hl') Hb) as [G _].
    rewrite G. cbn [Np.shape Np.data Np.ravel Np.prod fold_right].
    f_equal. ring.
Qed.

End Placement.

Lemma load_feature_map_places_values_witness :
  Sample.swapped_files Sample.output_path = Some [x00; x3c; x00; x40] /\
  exists g,
    CheckVisual.load_feature_map Sample.small_features Sample.swapped_files
      Sample.output_path "nchw" =
    (Return g,
     [IoExists Sample.output_path; IoFromFile Sample.output_path Float16])
    /\ Np.get g [0; 0; 0; 1] =
       Some (CheckVisual.float32_of_float16 Sample.two).
Proof.
  split; [reflexivity|].
  destruct (proj2 (load_feature_map_places_values Sample.small_features
                     Sample.swapped_files Sample.output_path "nchw"
                     [x00; x3c; x00; x40] eq_refl eq_refl) eq_refl)
    as (g & E & Hv).
  exists g. split; [exact E|].
  rewrite (Hv 0 0 1) by (cbn; lia). reflexivity.
Defined.

(** ** What the loader refuses *)



(** ** The driver on files of the expected size *)

Lemma reshape_flat {A} (l : list A) (s : list nat) :
  Np.prod s = length l ->
  Np.reshape (Np.flat l) s = (Return (Np.mk s l), []).
Proof.
  intros H. unfold Np.reshape, Np.size, Np.flat.
  cbn [Np.shape Np.data Np.prod fold_right].
  rewrite H, Nat.mul_1_r, Nat.eqb_refl. reflexivity.
Qed.

Section DriverOnGrids.

Variable cfg : Check.config.
Variable fs : filesystem.
Variable md5_hexdigest : list byte -> string.
Variable argv : list string.
Variables output_file correct_file : path.
Variables b1 b2 : list byte.

Hypothesis Hpaths :
  (if 3 <=? length argv
   then (nth 1 argv ""%string, nth 2 argv ""%string)
   else ("./output/OpTest_scatter_output_x.bin"%string,
         "./output/OpTest_scatter_output_x_correct.bin"%string)) =
  (output_file, correct_file).
Hypothesis H1 : fs output_file = Some b1.
Hypothesis H2 : fs correct_file = Some b2.
Hypothesis Hlen : length b1 = length b2.
Hypothesis Hmd5 : md5_hexdigest b1 <> md5_hexdigest b2.
Hypothesis Hcount : length b1 / 2 = 1 * 720 * 720 * 64.

Let output_values : list F16.t := map F16.of_bits (Np.u16s b1).
Let correct_values : list F16.t := map F16.of_bits (Np.u16s b2).

(** The table the coordinate stage hands on. *)
Let coords_data : option (list coord) :=
  if Check.DEBUG_MODE cfg then
    match Py.result
            (Check.load_coords_file fs
               "./input/OpTest_scatter_input_coords.bin"%string) with
    | Return r => r
    | Raise _ => None
    end
  else None.

Lemma coords_stage_value :
  Py.result
    (if Check.DEBUG_MODE cfg then
       coords_data <-
         Check.load_coords_file fs
           "./input/OpTest_scatter_input_coords.bin"%string;;
       match coords_data with
       | Some cs =>
           Py.print (L_coords_loaded [length cs; 4]);;
           Py.print (L_total_pillars (length cs));;
           Py.when (Check.DEBUG_MAX_PILLARS cfg <? length cs)
             (Py.print (L_debug_limit (Check.DEBUG_MAX_PILLARS cfg)))
       | None => Py.print L_coords_unavailable
       end;;
       Py.ret coords_data
     else Py.ret None) = Return coords_data.
Proof.
  unfold coords_data. destruct (Check.DEBUG_MODE cfg); [|reflexivity].
  destruct (load_coords_file_returns fs
              "./input/OpTest_scatter_input_coords.bin"%string) as [r E].
  run. rewrite E. destruct r as [cs|]; run; [|reflexivity].
  rewrite when_returns by reflexivity. reflexivity.
Qed.

(** X18.  When the two files exist with one size, different digests and
    [1 * 720 * 720 * 64] values each, [main] always reaches a verdict:
    it compares the grid of the output file, read as
    [(1, 720, 720, 64)], with the grid of the reference file, read as
    [(1, 64, 720, 720)] and transposed, so that the reference value at
    offset [ch * (720 * 720) + y * 720 + x] faces the output value at
    offset [(y * 720 + x) * 64 + ch]; it returns 0 when [compare_arrays]
    returns [True] on them and 1 when it returns [False].  No exception
    escapes. *)
Theorem main_compares_canonical_grids :
  exists reference verdict,
    Np.shape reference = [1; 720; 720; 64] /\
    (forall y x ch, y < 720 -> x < 720 -> ch < 64 ->
       Np.get reference [0; y; x; ch] =
       nth_error correct_values (ch * (720 * 720) + y * 720 + x) /\
       Np.get (Np.mk [1; 720; 720; 64] output_values) [0; y; x; ch] =
       nth_error output_values ((y * 720 + x) * 64 + ch)) /\
    Py.result
      (Check.compare_arrays cfg (Np.mk [1; 720; 720; 64] output_values)
         reference "output" "reference" Check.default_tolerance
         coords_data) = Return verdict /\
    Py.result (Check.main cfg fs md5_hexdigest argv) =
    Return (if verdict then 0 else 1).
Proof.
  assert (Lo : length output_values = 720 * 720 * 64).
  { unfold output_values. rewrite length_map, u16s_length, Hcount.
    rewrite Nat.mul_1_l. reflexivity. }
  assert (Lc : length correct_values = 720 * 720 * 64).
  { unfold correct_values.
    rewrite length_map, u16s_length, <- Hlen, Hcount.
    rewrite Nat.mul_1_l. reflexivity. }
  assert (Ero : Np.reshape (Np.flat output_values) [1; 720; 720; 64] =
                (Return (Np.mk [1; 720; 720; 64] output_values), [])).
  { apply reshape_flat. cbn [Np.prod fold_right]. rewrite Lo. lia. }
  pose proof (reshape_channel_first 720 720 64 correct_values Lc) as Erc.
  destruct (to_channel_last 720 720 64 correct_values Lc)
    as (canon & Et & Hs & Hw & Hv).
  assert (Wo : Grid.wf (Np.mk [1; 720; 720; 64] output_values) = true).
  { unfold Grid.wf, Np.size. cbn [Np.shape Np.data Np.prod fold_right].
    apply Nat.eqb_eq. rewrite Lo. lia. }
  assert (Go : Grid.is_grid (Np.mk [1; 720; 720; 64] output_values) = true).
  { unfold Grid.is_grid. rewrite Wo.
    apply andb_true_iff. split; [reflexivity|].
    apply Nat.ltb_lt. unfold Np.size.
    cbn [Np.shape Np.prod fold_right]. lia. }
  assert (Gc : Grid.is_grid canon = true).
  { unfold Grid.is_grid. rewrite Hw, Hs.
    apply andb_true_iff. split; [reflexivity|].
    apply Nat.ltb_lt. unfold Np.size. rewrite Hs.
    cbn [Np.prod fold_right]. lia. }
  pose proof (compare_arrays_result cfg _ canon "output"%string
                "reference"%string Check.default_tolerance coords_data
                Go Gc (eq_sym Hs)) as Ecmp.
  cbv zeta in Ecmp.
  match type of Ecmp with _ = Return ?v => set (verdict := v) in * end.
  exists canon, verdict. split; [exact Hs|]. split; [|split; [exact Ecmp|]].
  { intros y x ch Hy Hx Hch. split.
    - rewrite (Hv 0 y x ch) by auto.
      assert (Hb : Np.in_bounds [1; 64; 720; 720] [0; ch; y; x] = true).
      { apply in_bounds4. exists 0, ch, y, x. repeat split; auto. }
      destruct (get_in_bounds (Np.mk [1; 64; 720; 720] correct_values) _
                  (first_wf 720 720 64 correct_values Lc) Hb) as [G _].
      rewrite G. cbn [Np.shape Np.data Np.ravel Np.prod fold_right].
      f_equal. lia.
    - assert (Hb : Np.in_bounds [1; 720; 720; 64] [0; y; x; ch] = true).
      { apply in_bounds4. exists 0, y, x, ch. repeat split; auto. }
      destruct (get_in_bounds (Np.mk [1; 720; 720; 64] output_values) _
                  Wo Hb) as [G _].
      rewrite G. cbn [Np.shape Np.data Np.ravel Np.prod fold_right].
      f_equal. lia. }
  unfold Check.main. rewrite Hpaths.
  eapply result_step; [reflexivity|].
  eapply result_step; [apply when_returns; reflexivity|].
  do 3 (eapply result_step; [reflexivity|]).
  eapply result_step; [unfold Os.exists_; rewrite H1; reflexivity|].
  cbn [negb].
  eapply result_step; [unfold Os.exists_; rewrite H2; reflexivity|].
  cbn [negb].
  eapply result_step; [exact coords_stage_value|].
  eapply result_step; [unfold Os.getsize; rewrite H1; reflexivity|].
  eapply result_step; [unfold Os.getsize; rewrite H2; reflexivity|].
  do 3 (eapply result_step; [reflexivity|]).
  rewrite Hlen, Nat.eqb_refl. cbn [negb].
  eapply result_step; [reflexivity|].
  eapply result_step;
    [unfold Check.get_file_md5, Os.read_bytes; rewrite H1; reflexivity|].
  eapply result_step;
    [unfold Check.get_file_md5, Os.read_bytes; rewrite H2; reflexivity|].
  do 2 (eapply result_step; [reflexivity|]).
  apply String.eqb_neq in Hmd5. rewrite Hmd5.
  eapply result_step;
    [apply when_returns; reflexivity|].
  eapply result_step; [reflexivity|].
  eapply result_step; [rewrite load_binary_file_run, H1; reflexivity|].
  eapply result_step; [rewrite load_binary_file_run, H2; reflexivity|].
  cbv iota beta. fold output_values correct_values.
  eapply result_step; [reflexivity|].
  assert (E : (length output_values =? 1 * 720 * 720 * 64) = true).
  { apply Nat.eqb_eq. rewrite Lo, Nat.mul_1_l. reflexivity. }
  rewrite E.
  eapply result_step.
  { run. rewrite Ero. run. rewrite Erc. run. rewrite Et. run.
    reflexivity. }
  cbv iota beta.
  eapply result_step; [exact Ecmp|].
  run. destruct verdict, (Check.DEBUG_MODE cfg); reflexivity.
Qed.

End DriverOnGrids.

Lemma main_compares_canonical_grids_witness :
  Sample.full_files Sample.output_path = Some (Sample.full_file x00) /\
  Sample.full_files Sample.correct_path = Some (Sample.full_file x01) /\
  exists verdict : bool,
    Py.result
      (Check.main Sample.plain Sample.full_files Sample.first_byte_digest
         []) = Return (if verdict then 0 else 1).
Proof.
  do 2 (split; [reflexivity|]).
  assert (Hlen : length (Sample.full_file x00) =
                 length (Sample.full_file x01)).
  { unfold Sample.full_file. rewrite !repeat_length. reflexivity. }
  assert (Hn : 720 * 720 * 64 * 2 = S (720 * 720 * 64 * 2 - 1)) by lia.
  assert (Hmd5 : Sample.first_byte_digest (Sample.full_file x00) <>
                 Sample.first_byte_digest (Sample.full_file x01)).
  { unfold Sample.full_file. rewrite Hn.
    cbn [repeat Sample.first_byte_digest]. discriminate. }
  assert (Hcount : length (Sample.full_file x00) / 2 = 1 * 720 * 720 * 64).
  { unfold Sample.full_file. rewrite repeat_length.
    rewrite Nat.div_mul by discriminate.
    rewrite Nat.mul_1_l. reflexivity. }
  destruct (main_compares_canonical_grids Sample.plain Sample.full_files
              Sample.first_byte_digest [] Sample.output_path
              Sample.correct_path (Sample.full_file x00)
              (Sample.full_file x01) eq_refl eq_refl eq_refl
              Hlen Hmd5 Hcount)
    as (reference & verdict & _ & _ & _ & E).
  exists verdict. exact E.
Defined.

(** ** The coordinate table can only help *)

(** X19.  In debug mode, a pair of grids that passes without a coordinate
    table passes with any table: the table can turn a failure into a
    pass, never a pass into a failure. *)
Theorem coordinates_never_fail_a_passing_pair (cfg : Check.config)
    (a b : Np.ndarray F16.t) (name1 name2 : string) (tol : F16.t)
    (coords : list coord) :
  Check.DEBUG_MODE cfg = true ->
  Grid.tolerance_ok tol = true ->
  Grid.is_grid a = true -> Grid.is_grid b = true ->
  Np.shape a = Np.shape b ->
  Py.result (Check.compare_arrays cfg a b name1 name2 tol None) =
  Return true ->
  Py.result (Check.compare_arrays cfg a b name1 name2 tol (Some coords)) =
  Return true.
Proof.
  intros Hd Ht Ha Hb Hs Hfull.
  rewrite (compare_arrays_result cfg a b name1 name2 tol None Ha Hb Hs)
    in Hfull.
  rewrite Hd in Hfull. cbn [orb] in Hfull.
  assert (Hc : Np.allclose tol tol (Np.data a) (Np.data b) = true).
  { destruct (Np.array_equal a b) eqn:E.
    - apply array_equal_allclose; assumption.
    - cbn [orb] in Hfull. congruence. }
  rewrite (debug_verdict cfg a b name1 name2 tol coords Hd Ht Ha Hb Hs).
  f_equal. apply Nat.eqb_eq. unfold Grid.matched, Grid.checked.
  apply (filter_and_length (Grid.eligible a) (Grid.cell_matches tol a b)).
  intros c _ _. apply allclose_cell; assumption.
Qed.

Lemma coordinates_never_fail_a_passing_pair_witness :
  Py.result
    (Check.compare_arrays Check.module_config
       (Sample.flat_grid Sample.one) (Sample.flat_grid Sample.one)
       "output" "reference" Check.default_tolerance None) = Return true /\
  Py.result
    (Check.compare_arrays Check.module_config
       (Sample.flat_grid Sample.one) (Sample.flat_grid Sample.one)
       "output" "reference" Check.default_tolerance (Some Sample.padded)) =
  Return true.
Proof.
  assert (H : Py.result
                (Check.compare_arrays Check.module_config
                   (Sample.flat_grid Sample.one) (Sample.flat_grid Sample.one)
                   "output" "reference" Check.default_tolerance None) =
              Return true) by reflexivity.
  split; [exact H|].
  apply (coordinates_never_fail_a_passing_pair Check.module_config
           (Sample.flat_grid Sample.one) (Sample.flat_grid Sample.one)
           "output" "reference" Check.default_tolerance Sample.padded
           eq_refl eq_refl eq_refl eq_refl eq_refl H).
Defined.
